(** * ATIC: the adaptive session planning and memory subsystem

    A shallow embedding of [sessions/session_manager.py] (requirement
    extraction, plan building, session lifecycle) and of
    [memory/memory_bank.py] (the profile store, purge and the learning
    insights), with the properties of the design document stated over it.

    Conventions of the embedding:
    - a Python [str] is a [string] whose characters are the code points
      U+0000..U+00FF; [lower], [isspace] and [strip] follow CPython on
      that range;
    - a Python [float] (and an SQLite REAL) is a binary64 [float];
      [sum] of floats is taken as the interpreter takes it, from the
      left up to CPython 3.11 and compensated from 3.12 on;
    - a Python [int] is a [Z]; SQLite takes the signed 64-bit ones;
    - a Python [dict] used as a record with fixed keys is a [Record];
      the active-session dictionary is a [gmap string Session];
    - [datetime.now()] and the session id generator are read from the
      environment: the readings are arguments of the operations;
    - console I/O ([input], [print]) is not part of the state; what the
      two dialogue steps return (or raise) is an argument. *)

From Stdlib Require Import ZArith NArith Ascii String List Bool Lia.
From Stdlib Require Import Floats Sorted.
From stdpp Require Import base option list strings gmap.

Local Open Scope Z_scope.

(** ** Python strings over U+0000..U+00FF *)

Module PyStr.

Definition ord (c : ascii) : N := N_of_ascii c.

(** [str.isspace] of one character: TAB..CR, FS..US, SPACE, NEL, NBSP. *)
Definition isspace (c : ascii) : bool :=
  let n := ord c in
  ((9 <=? n) && (n <=? 13) || (28 <=? n) && (n <=? 32)
   || (n =? 133) || (n =? 160))%N.

(** Characters that [str.lower] changes: A..Z and the Latin-1 capitals
    U+00C0..U+00DE except the multiplication sign U+00D7. *)
Definition isupper (c : ascii) : bool :=
  let n := ord c in
  ((65 <=? n) && (n <=? 90)
   || (192 <=? n) && (n <=? 222) && negb (n =? 215))%N.

Definition lower_char (c : ascii) : ascii :=
  if isupper c then ascii_of_N (ord c + 32) else c.

Fixpoint lower (s : string) : string :=
  match s with
  | EmptyString => EmptyString
  | String c t => String (lower_char c) (lower t)
  end.

Fixpoint lstrip (s : string) : string :=
  match s with
  | EmptyString => EmptyString
  | String c t => if isspace c then lstrip t else s
  end.

Fixpoint rstrip (s : string) : string :=
  match s with
  | EmptyString => EmptyString
  | String c t =>
      match rstrip t with
      | EmptyString => if isspace c then EmptyString else String c EmptyString
      | t' => String c t'
      end
  end.

Definition strip (s : string) : string := rstrip (lstrip s).

(** [not s.strip()] *)
Definition blank (s : string) : bool := String.eqb (strip s) "".

(** [needle in hay] on strings. *)
Fixpoint contains (needle hay : string) : bool :=
  String.prefix needle hay
  || match hay with
     | EmptyString => false
     | String _ t => contains needle t
     end.

(** [x in xs] on a list of strings. *)
Definition mem (x : string) (xs : list string) : bool :=
  existsb (String.eqb x) xs.

(** [s.replace(a, b)] for single characters [a], [b]. *)
Fixpoint replace_char (a b : ascii) (s : string) : string :=
  match s with
  | EmptyString => EmptyString
  | String c t =>
      String (if Ascii.eqb c a then b else c) (replace_char a b t)
  end.

(** [d.get(k, default)] on a dictionary with string keys, kept as the
    list of its items in insertion order. *)
Fixpoint dict_get {A} (d : list (string * A)) (k : string) (default : A) : A :=
  match d with
  | [] => default
  | (k', v) :: rest => if String.eqb k k' then v else dict_get rest k default
  end.

(** [xs[:n]] and [xs[n:]] for a non-negative literal [n]. *)
Definition slice_to {A} (n : nat) (xs : list A) : list A := firstn n xs.
Definition slice_from {A} (n : nat) (xs : list A) : list A := skipn n xs.

End PyStr.

(** ** Requirement extraction: [_perform_context_engineering] *)

Module Extractor.
Import PyStr.

Record Extraction := {
  required_technical_skills : list string;
  preferred_skills : list string;
  seniority_indicators : list string;
  responsibility_categories : list string;
  technology_stack : list string;
  soft_skills : list string;
  interview_focus_areas : list string;
  complexity_level : string
}.

(** The keyword tables, in the insertion order of the source dictionaries. *)
Definition technical_keywords : list (string * list string) :=
  [ ("programming_languages",
     ["python"; "javascript"; "java"; "c++"; "c#"; "go"; "rust";
      "typescript"; "php"; "ruby"]);
    ("frameworks",
     ["react"; "angular"; "vue"; "django"; "flask"; "spring"; "express";
      "laravel"; "rails"]);
    ("databases",
     ["sql"; "mysql"; "postgresql"; "mongodb"; "redis"; "elasticsearch";
      "dynamodb"]);
    ("cloud_platforms",
     ["aws"; "azure"; "gcp"; "google cloud"; "docker"; "kubernetes";
      "terraform"]);
    ("tools",
     ["git"; "jenkins"; "ci/cd"; "microservices"; "api"; "rest"; "graphql"]) ].

Definition seniority_table : list (string * list string) :=
  [ ("senior",
     ["senior"; "lead"; "principal"; "architect"; "5+ years"; "mentor";
      "leadership"]);
    ("mid", ["mid-level"; "3-5 years"; "experienced"; "solid experience"]);
    ("junior",
     ["junior"; "entry-level"; "0-2 years"; "new graduate";
      "recent graduate"]) ].

Definition responsibility_keywords : list (string * list string) :=
  [ ("system_design",
     ["system design"; "architecture"; "scalable"; "distributed";
      "microservices"]);
    ("coding",
     ["coding"; "programming"; "development"; "implementation";
      "algorithms"]);
    ("collaboration",
     ["collaborate"; "team"; "cross-functional"; "communication"]);
    ("leadership", ["mentor"; "lead"; "guide"; "technical leadership"]) ].

(** [[k for k in keywords if k in jd_lower]] *)
Definition found_in (jd_lower : string) (keywords : list string) : list string :=
  List.filter (fun k => contains k jd_lower) keywords.

(** [any(k in jd_lower for k in keywords)] *)
Definition any_in (jd_lower : string) (keywords : list string) : bool :=
  existsb (fun k => contains k jd_lower) keywords.

(** The loop that extends [technology_stack] category by category. *)
Definition extract_stack (jd_lower : string) : list string :=
  concat (List.map (fun kv => found_in jd_lower (snd kv)) technical_keywords).

(** The seniority loop: the first level with a matching indicator wins
    ([break]); the default is ['mid'] with no indicator recorded. *)
Fixpoint detect_seniority (jd_lower : string)
    (table : list (string * list string)) : string * list string :=
  match table with
  | [] => ("mid", [])
  | (level, indicators) :: rest =>
      if any_in jd_lower indicators
      then (level, found_in jd_lower indicators)
      else detect_seniority jd_lower rest
  end.

Definition extract_responsibilities (jd_lower : string) : list string :=
  List.map fst
    (List.filter (fun kv => any_in jd_lower (snd kv)) responsibility_keywords).

Definition derive_focus_areas (stack resp : list string) : list string :=
  let focus :=
    (if match stack with [] => false | _ => true end
     then ["technical_knowledge"] else [])
    ++ (if mem "coding" resp then ["coding_problems"] else [])
    ++ (if mem "system_design" resp then ["system_design"] else [])
    ++ (if mem "leadership" resp then ["behavioral_leadership"] else []) in
  match focus with
  | [] => ["general_technical"]
  | _ => focus
  end.

Definition derive_complexity (seniority : string) (resp : list string) : string :=
  if String.eqb seniority "senior" || (3 <? Z.of_nat (length resp))
  then "advanced"
  else if String.eqb seniority "junior" then "beginner"
  else "intermediate".

Definition _get_default_extraction_template : Extraction :=
  {| required_technical_skills :=
       ["Problem Solving"; "Programming"; "System Design"];
     preferred_skills := ["Communication"; "Teamwork"];
     seniority_indicators := ["mid-level"];
     responsibility_categories := ["coding"; "collaboration"];
     technology_stack := ["General Programming"];
     soft_skills := ["Communication"];
     interview_focus_areas := ["coding_problems"; "technical_knowledge"];
     complexity_level := "intermediate" |}.

Definition _perform_context_engineering (job_description : string) : Extraction :=
  if blank job_description then _get_default_extraction_template
  else
    let jd_lower := lower job_description in
    let all_skills := extract_stack jd_lower in
    let '(detected_seniority, indicators) :=
      detect_seniority jd_lower seniority_table in
    let resp := extract_responsibilities jd_lower in
    {| required_technical_skills := slice_to 6 all_skills;
       preferred_skills := slice_from 6 all_skills;
       seniority_indicators := indicators;
       responsibility_categories := resp;
       technology_stack := all_skills;
       soft_skills := [];
       interview_focus_areas := derive_focus_areas all_skills resp;
       complexity_level := derive_complexity detected_seniority resp |}.

End Extractor.


(** ** Plan building: [_create_adaptive_interview_plan] and its helpers *)

Module Planner.
Import PyStr Extractor.

(** Python floats that the planner and the insight engine use. The
    decimal literals of the source denote these binary64 values. *)
Definition f0_1 : float := 0x1.999999999999ap-4%float.
Definition f0_3 : float := 0x1.3333333333333p-2%float.
Definition f0_5 : float := 0x1p-1%float.
Definition f0_7 : float := 0x1.6666666666666p-1%float.
Definition f5_0 : float := 0x1.4p+2%float.

(** [float(n)] of a Python integer, exact for [|n| < 2^53]. *)
Definition float_of_Z (n : Z) : float :=
  if n <? 0 then PrimFloat.opp (PrimFloat.of_uint63 (Uint63.of_Z (- n)))
  else PrimFloat.of_uint63 (Uint63.of_Z n).

(** What [_gather_experience_assessment] returns. *)
Record Experience := {
  years : Z;
  field : string;
  current_role : string;
  company_size : string;
  previous_interviews : string;
  self_assessment : list (string * Z);
  proficiency_areas : list string;
  experience_level : string
}.

(** What [_gather_job_description_analysis] returns. *)
Record Job := {
  company : string;
  role : string;
  description : string;
  timeline : string;
  description_length : Z;
  collected_at : string
}.

Record Phase := {
  phase : string;
  duration_minutes : Z;
  question_count : Z;
  difficulty : string
}.

Record PersonalizationFactors := {
  experience_years : Z;
  field_expertise : string;
  target_role_complexity : string;
  self_assessed_confidence : float
}.

Record AdaptiveParameters := {
  initial_difficulty : string;
  adjustment_threshold : float;
  max_difficulty_jumps : Z;
  personalization_factors : PersonalizationFactors
}.

(** [question_categories] is [list(set(...))]: its order is not fixed by
    the language, so it is kept as the set. [difficulty_progression]
    stays the empty dictionary. *)
Record InterviewPlan := {
  session_structure : list Phase;
  question_categories : gset string;
  difficulty_progression : list (string * string);
  focus_areas : list string;
  estimated_duration : Z;
  adaptive_parameters : AdaptiveParameters
}.

Definition field_skills : list (string * list string) :=
  [ ("front-end",
     ["JavaScript/TypeScript"; "React/Vue/Angular"; "CSS/Styling";
      "Web Performance"; "Testing"]);
    ("back-end",
     ["System Design"; "Database Design"; "API Development"; "Scalability";
      "Security"]);
    ("full-stack",
     ["Frontend Development"; "Backend Development"; "Database Design";
      "System Architecture"; "DevOps"]);
    ("data science",
     ["Machine Learning"; "Statistics"; "Python/R"; "Data Processing";
      "Visualization"]);
    ("devops",
     ["Infrastructure"; "CI/CD"; "Monitoring"; "Cloud Platforms";
      "Automation"]);
    ("mobile",
     ["iOS/Android Development"; "Mobile UI/UX"; "Performance"; "Testing";
      "App Store"]);
    ("qa",
     ["Test Automation"; "Manual Testing"; "Performance Testing";
      "Security Testing"; "Tools"]) ].

Definition _get_skill_areas_for_field (field : string) : list string :=
  dict_get field_skills field
    ["Problem Solving"; "Algorithms"; "Data Structures"; "System Design";
     "Communication"].

Definition _categorize_experience_level (years : Z) : string :=
  if years <=? 2 then "junior"
  else if years <=? 5 then "mid"
  else "senior".

Definition _calculate_initial_difficulty
    (experience_data : Experience) (extracted_skills : Extraction) : string :=
  let user_level := experience_level experience_data in
  let job_complexity := complexity_level extracted_skills in
  if String.eqb user_level "senior" && String.eqb job_complexity "advanced"
  then "advanced"
  else if String.eqb user_level "junior" || String.eqb job_complexity "beginner"
  then "beginner"
  else "intermediate".

Definition seniority_levels : list (string * Z) :=
  [("junior", 1); ("mid", 2); ("senior", 3)].

Definition _match_difficulty_to_gap (user_seniority job_seniority : string) : string :=
  let user_score := dict_get seniority_levels user_seniority 2 in
  let job_score := dict_get seniority_levels job_seniority 2 in
  if user_score <? job_score then job_seniority else user_seniority.

Definition sum_Z (xs : list Z) : Z := fold_left Z.add xs 0.

(** [avg_score / 5.0] where [avg_score] is the true division of two
    Python integers (exact operands below [2^53]). *)
Definition _calculate_confidence_score (experience_data : Experience) : float :=
  match self_assessment experience_data with
  | [] => f0_5
  | sa =>
      let avg_score :=
        PrimFloat.div (float_of_Z (sum_Z (List.map snd sa)))
                      (float_of_Z (Z.of_nat (length sa))) in
      PrimFloat.div avg_score f5_0
  end.

Definition category_mapping : list (string * list string) :=
  [ ("coding_problems", ["algorithms"; "data_structures"; "problem_solving"]);
    ("system_design", ["scalability"; "architecture"; "trade_offs"]);
    ("technical_knowledge", ["concepts"; "best_practices"; "tools"]);
    ("behavioral_leadership", ["leadership"; "teamwork"; "communication"]);
    ("general_technical", ["algorithms"; "concepts"; "problem_solving"]) ].

Definition _map_focus_to_question_categories (focus_areas : list string) : gset string :=
  list_to_set
    (concat (List.map (fun f => dict_get category_mapping f ["general"])
                      focus_areas)).

(** The four conditional [append]s, in the order of the source. *)
Definition build_phases (user_seniority job_seniority : string)
    (focus_areas : list string) : list Phase :=
  (if mem "coding_problems" focus_areas
   then [ {| phase := "coding_assessment"; duration_minutes := 30;
             question_count := 2;
             difficulty :=
               _match_difficulty_to_gap user_seniority job_seniority |} ]
   else [])
  ++ (if mem "system_design" focus_areas
      then [ {| phase := "system_design"; duration_minutes := 25;
                question_count := 1; difficulty := job_seniority |} ]
      else [])
  ++ (if mem "technical_knowledge" focus_areas
      then [ {| phase := "technical_concepts"; duration_minutes := 15;
                question_count := 3; difficulty := user_seniority |} ]
      else [])
  ++ (if mem "behavioral_leadership" focus_areas
         || mem user_seniority ["mid"; "senior"]
      then [ {| phase := "behavioral"; duration_minutes := 10;
                question_count := 2; difficulty := user_seniority |} ]
      else []).

Definition _create_adaptive_interview_plan
    (experience_data : Experience) (job_data : Job)
    (extracted_skills : Extraction) : InterviewPlan :=
  let user_seniority := experience_level experience_data in
  let job_seniority := complexity_level extracted_skills in
  let focus := interview_focus_areas extracted_skills in
  let session_phases := build_phases user_seniority job_seniority focus in
  {| session_structure := session_phases;
     question_categories := _map_focus_to_question_categories focus;
     difficulty_progression := [];
     focus_areas := focus;
     estimated_duration := sum_Z (List.map duration_minutes session_phases);
     adaptive_parameters :=
       {| initial_difficulty :=
            _calculate_initial_difficulty experience_data extracted_skills;
          adjustment_threshold := f0_3;
          max_difficulty_jumps := 1;
          personalization_factors :=
            {| experience_years := years experience_data;
               field_expertise := field experience_data;
               target_role_complexity := job_seniority;
               self_assessed_confidence :=
                 _calculate_confidence_score experience_data |} |} |}.

End Planner.

(** ** The session dictionary that the manager builds and the store persists *)

Module Interaction.
Record t := {
  timestamp : string;
  agent : string;
  interaction_type : string;
  data : list (string * string)
}.
End Interaction.

Module SessionData.
Import Extractor Planner.

(** [session_data['user_profile']]: a dictionary whose keys appear as
    initialization proceeds; an absent key is [None]. *)
Record UserProfile := {
  user_id : option string;
  experience : option Experience;
  target_job : option Job;
  difficulty_level : option string
}.

Definition empty_profile : UserProfile :=
  {| user_id := None; experience := None; target_job := None;
     difficulty_level := None |}.

(** Truth value of the dictionary: it has at least one key. *)
Definition profile_nonempty (p : UserProfile) : bool :=
  match user_id p, experience p, target_job p, difficulty_level p with
  | None, None, None, None => false
  | _, _, _, _ => true
  end.

Record PerformanceAnalysis := {
  category_scores : list (string * float);
  overall_score : option float
}.

(** The keys of a session dictionary that the record [Session] gives a
    field. *)
Definition session_keys : list string :=
  ["session_id"; "created_at"; "status"; "user_profile"; "context_data";
   "interview_plan"; "agent_interactions"; "error"; "completed_at";
   "last_updated"; "timestamp"; "performance_analysis"].

(** An [additional_data] dictionary of [update_session_status]. It may
    hold an entry under any key, those that the manager maintains
    itself included. An entry under a key of the record carries a
    value of that key's type; the entries under other keys carry
    strings and are kept in [ad_other], which by [ad_other_keys] has no
    key of the record. *)
Record AdditionalData := {
  ad_session_id : option string;
  ad_created_at : option string;
  ad_status : option string;
  ad_user_profile : option UserProfile;
  ad_context_data : option Extraction;
  ad_interview_plan : option InterviewPlan;
  ad_agent_interactions : option (list Interaction.t);
  ad_error : option string;
  ad_completed_at : option string;
  ad_last_updated : option string;
  ad_timestamp : option string;
  ad_performance_analysis : option PerformanceAnalysis;
  ad_other : list (string * string);
  ad_other_keys :
    forallb (fun kv => negb (PyStr.mem (fst kv) session_keys)) ad_other = true
}.

Record Session := {
  session_id : string;
  created_at : string;
  status : string;
  user_profile : UserProfile;
  context_data : option Extraction;
  interview_plan : option InterviewPlan;
  agent_interactions : list Interaction.t;
  error : option string;
  completed_at : option string;
  last_updated : option string;
  timestamp : option string;
  performance_analysis : option PerformanceAnalysis;
  other : list (string * string)
}.

Definition set_status (v : string) (s : Session) : Session :=
  {| session_id := session_id s; created_at := created_at s; status := v;
     user_profile := user_profile s; context_data := context_data s;
     interview_plan := interview_plan s;
     agent_interactions := agent_interactions s; error := error s;
     completed_at := completed_at s; last_updated := last_updated s;
     timestamp := timestamp s;
     performance_analysis := performance_analysis s; other := other s |}.

Definition set_user_profile (v : UserProfile) (s : Session) : Session :=
  {| session_id := session_id s; created_at := created_at s;
     status := status s; user_profile := v; context_data := context_data s;
     interview_plan := interview_plan s;
     agent_interactions := agent_interactions s; error := error s;
     completed_at := completed_at s; last_updated := last_updated s;
     timestamp := timestamp s;
     performance_analysis := performance_analysis s; other := other s |}.

Definition set_context_data (v : option Extraction) (s : Session) : Session :=
  {| session_id := session_id s; created_at := created_at s;
     status := status s; user_profile := user_profile s; context_data := v;
     interview_plan := interview_plan s;
     agent_interactions := agent_interactions s; error := error s;
     completed_at := completed_at s; last_updated := last_updated s;
     timestamp := timestamp s;
     performance_analysis := performance_analysis s; other := other s |}.

Definition set_interview_plan (v : option InterviewPlan) (s : Session) : Session :=
  {| session_id := session_id s; created_at := created_at s;
     status := status s; user_profile := user_profile s;
     context_data := context_data s; interview_plan := v;
     agent_interactions := agent_interactions s; error := error s;
     completed_at := completed_at s; last_updated := last_updated s;
     timestamp := timestamp s;
     performance_analysis := performance_analysis s; other := other s |}.

Definition set_agent_interactions (v : list Interaction.t) (s : Session) : Session :=
  {| session_id := session_id s; created_at := created_at s;
     status := status s; user_profile := user_profile s;
     context_data := context_data s; interview_plan := interview_plan s;
     agent_interactions := v; error := error s;
     completed_at := completed_at s; last_updated := last_updated s;
     timestamp := timestamp s;
     performance_analysis := performance_analysis s; other := other s |}.

Definition set_error (v : option string) (s : Session) : Session :=
  {| session_id := session_id s; created_at := created_at s;
     status := status s; user_profile := user_profile s;
     context_data := context_data s; interview_plan := interview_plan s;
     agent_interactions := agent_interactions s; error := v;
     completed_at := completed_at s; last_updated := last_updated s;
     timestamp := timestamp s;
     performance_analysis := performance_analysis s; other := other s |}.

Definition set_completed_at (v : option string) (s : Session) : Session :=
  {| session_id := session_id s; created_at := created_at s;
     status := status s; user_profile := user_profile s;
     context_data := context_data s; interview_plan := interview_plan s;
     agent_interactions := agent_interactions s; error := error s;
     completed_at := v; last_updated := last_updated s;
     timestamp := timestamp s;
     performance_analysis := performance_analysis s; other := other s |}.

Definition set_last_updated (v : option string) (s : Session) : Session :=
  {| session_id := session_id s; created_at := created_at s;
     status := status s; user_profile := user_profile s;
     context_data := context_data s; interview_plan := interview_plan s;
     agent_interactions := agent_interactions s; error := error s;
     completed_at := completed_at s; last_updated := v;
     timestamp := timestamp s;
     performance_analysis := performance_analysis s; other := other s |}.

(** [d.update(additional_data)]: present keys overwrite, the others stay. *)
Fixpoint dict_set (k v : string) (d : list (string * string)) : list (string * string) :=
  match d with
  | [] => [(k, v)]
  | (k', v') :: rest =>
      if String.eqb k k' then (k', v) :: rest else (k', v') :: dict_set k v rest
  end.

Definition dict_update (d upd : list (string * string)) : list (string * string) :=
  fold_left (fun acc kv => dict_set (fst kv) (snd kv) acc) upd d.

(** [k in d] for a key with an optional entry. *)
Definition is_Some_b {A} (entry : option A) : bool :=
  match entry with Some _ => true | None => false end.

(** The value of a key after the update: the entry if there is one. *)
Definition updated {A} (entry : option A) (current : A) : A :=
  match entry with Some v => v | None => current end.

Definition updated_opt {A} (entry : option A) (current : option A) : option A :=
  match entry with Some v => Some v | None => current end.

Definition merge_additional (a : AdditionalData) (s : Session) : Session :=
  {| session_id := updated (ad_session_id a) (session_id s);
     created_at := updated (ad_created_at a) (created_at s);
     status := updated (ad_status a) (status s);
     user_profile := updated (ad_user_profile a) (user_profile s);
     context_data := updated_opt (ad_context_data a) (context_data s);
     interview_plan := updated_opt (ad_interview_plan a) (interview_plan s);
     agent_interactions :=
       updated (ad_agent_interactions a) (agent_interactions s);
     error := updated_opt (ad_error a) (error s);
     completed_at := updated_opt (ad_completed_at a) (completed_at s);
     last_updated := updated_opt (ad_last_updated a) (last_updated s);
     timestamp := updated_opt (ad_timestamp a) (timestamp s);
     performance_analysis :=
       updated_opt (ad_performance_analysis a) (performance_analysis s);
     other := dict_update (other s) (ad_other a) |}.

(** Truth value of an [additional_data] dictionary: it has an entry. *)
Definition additional_nonempty (a : AdditionalData) : bool :=
  is_Some_b (ad_session_id a) || is_Some_b (ad_created_at a)
  || is_Some_b (ad_status a) || is_Some_b (ad_user_profile a)
  || is_Some_b (ad_context_data a) || is_Some_b (ad_interview_plan a)
  || is_Some_b (ad_agent_interactions a) || is_Some_b (ad_error a)
  || is_Some_b (ad_completed_at a) || is_Some_b (ad_last_updated a)
  || is_Some_b (ad_timestamp a) || is_Some_b (ad_performance_analysis a)
  || match ad_other a with [] => false | _ => true end.

End SessionData.

(** ** The profile store: [memory/memory_bank.py] *)

(** Rows of the tables created by [_initialize_database]. Every column
    is kept; a JSON text column holds the value that was serialised. *)

Module UserProfileRow.
Record t := {
  user_id : string;
  created_at : string;
  last_updated : string;
  experience_years : Z;
  technical_field : string;
  current_role : string;
  skill_levels : list (string * Z);
  learning_preferences : option string;
  profile_data : SessionData.UserProfile
}.
End UserProfileRow.

Module SessionRow.
Record t := {
  session_id : string;
  user_id : string;
  created_at : string;
  completed_at : option string;
  status : string;
  target_company : string;
  target_role : string;
  difficulty_level : string;
  session_data : SessionData.Session
}.
End SessionRow.

Module MetricRow.
Record t := {
  metric_id : Z;
  session_id : string;
  user_id : string;
  recorded_at : string;
  category : string;
  metric_name : string;
  metric_value : float;
  additional_data : option string
}.
End MetricRow.

Module AdaptationRow.
Record t := {
  adaptation_id : Z;
  user_id : string;
  session_id : string;
  created_at : string;
  adaptation_type : string;
  previous_value : string;
  new_value : string;
  reason : string;
  effectiveness_score : float;
  adaptation_data : string
}.
End AdaptationRow.

Module QuestionRow.
Record t := {
  performance_id : Z;
  session_id : string;
  user_id : string;
  question_id : string;
  question_type : string;
  question_difficulty : string;
  topic_area : string;
  response_time_seconds : Z;
  accuracy_score : float;
  completeness_score : float;
  communication_score : float;
  question_data : string;
  response_data : string
}.
End QuestionRow.

(** One reading of the wall clock, in the two formats the code prints:
    [isoformat()] and [strftime('%Y%m%d_%H%M%S')]. *)
Record Clock := {
  isoformat : string;
  compact : string
}.

Module MemoryBank.
Import PyStr Extractor Planner SessionData.

(** The database: the five tables in insertion (rowid) order, and the
    AUTOINCREMENT counter of [performance_metrics]. *)
Record Store := {
  user_profiles : list UserProfileRow.t;
  sessions : list SessionRow.t;
  performance_metrics : list MetricRow.t;
  learning_adaptations : list AdaptationRow.t;
  question_performance : list QuestionRow.t;
  metric_seq : Z
}.

Definition empty_store : Store :=
  {| user_profiles := []; sessions := []; performance_metrics := [];
     learning_adaptations := []; question_performance := []; metric_seq := 0 |}.

Definition with_user_profiles (v : list UserProfileRow.t) (db : Store) : Store :=
  {| user_profiles := v; sessions := sessions db;
     performance_metrics := performance_metrics db;
     learning_adaptations := learning_adaptations db;
     question_performance := question_performance db;
     metric_seq := metric_seq db |}.

Definition with_sessions (v : list SessionRow.t) (db : Store) : Store :=
  {| user_profiles := user_profiles db; sessions := v;
     performance_metrics := performance_metrics db;
     learning_adaptations := learning_adaptations db;
     question_performance := question_performance db;
     metric_seq := metric_seq db |}.

Definition with_metrics (v : list MetricRow.t) (seq : Z) (db : Store) : Store :=
  {| user_profiles := user_profiles db; sessions := sessions db;
     performance_metrics := v;
     learning_adaptations := learning_adaptations db;
     question_performance := question_performance db;
     metric_seq := seq |}.

Definition _generate_user_id (now : Clock) (profile_data : UserProfile) : string :=
  let field :=
    match experience profile_data with
    | Some e => Planner.field e
    | None => "unknown"
    end in
  "user_" +:+ field +:+ "_" +:+ compact now.

Definition profile_years (p : UserProfile) : Z :=
  match experience p with Some e => years e | None => 0 end.
Definition profile_field (p : UserProfile) : string :=
  match experience p with Some e => Planner.field e | None => "" end.
Definition profile_role (p : UserProfile) : string :=
  match experience p with Some e => Planner.current_role e | None => "" end.
Definition profile_skills (p : UserProfile) : list (string * Z) :=
  match experience p with Some e => self_assessment e | None => [] end.

(** The Python integers that [sqlite3] binds to a statement: one outside
    the signed 64-bit range raises OverflowError. *)
Definition sqlite_integer (n : Z) : bool :=
  (- 2 ^ 63 <=? n) && (n <? 2 ^ 63).

(** [store_user_profile]: upsert by [user_id]. The profile dictionary is
    mutated ([profile_data['user_id'] = user_id]); the mutated dictionary
    is returned beside the status. The years of experience are the one
    integer among the bound values: when they do not fit, the UPDATE or
    INSERT raises, the handler returns [False] and no row is written
    (the dictionary has its [user_id] by then). *)
Definition store_user_profile (now : Clock) (profile_data : UserProfile)
    (db : Store) : bool * UserProfile * Store :=
  let uid :=
    match user_id profile_data with
    | Some u => u
    | None => _generate_user_id now profile_data
    end in
  let profile :=
    {| user_id := Some uid; experience := experience profile_data;
       target_job := target_job profile_data;
       difficulty_level := difficulty_level profile_data |} in
  let is_row (r : UserProfileRow.t) := String.eqb (UserProfileRow.user_id r) uid in
  let rows :=
    if existsb is_row (user_profiles db)
    then
      List.map
        (fun r =>
           if is_row r
           then {| UserProfileRow.user_id := UserProfileRow.user_id r;
                   UserProfileRow.created_at := UserProfileRow.created_at r;
                   UserProfileRow.last_updated := isoformat now;
                   UserProfileRow.experience_years := profile_years profile;
                   UserProfileRow.technical_field := profile_field profile;
                   UserProfileRow.current_role := profile_role profile;
                   UserProfileRow.skill_levels := profile_skills profile;
                   UserProfileRow.learning_preferences :=
                     UserProfileRow.learning_preferences r;
                   UserProfileRow.profile_data := profile |}
           else r)
        (user_profiles db)
    else
      user_profiles db
      ++ [ {| UserProfileRow.user_id := uid;
              UserProfileRow.created_at := isoformat now;
              UserProfileRow.last_updated := isoformat now;
              UserProfileRow.experience_years := profile_years profile;
              UserProfileRow.technical_field := profile_field profile;
              UserProfileRow.current_role := profile_role profile;
              UserProfileRow.skill_levels := profile_skills profile;
              UserProfileRow.learning_preferences := None;
              UserProfileRow.profile_data := profile |} ] in
  if sqlite_integer (profile_years profile)
  then (true, profile, with_user_profiles rows db)
  else (false, profile, db).

(** [store_session_initialization]: stores the profile, then inserts the
    session row; a second row with the same primary key is refused
    (IntegrityError, caught: [False]), the profile write having been
    committed already. *)
Definition store_session_initialization (now : Clock) (session_data : Session)
    (db : Store) : bool * Session * Store :=
  let sid := SessionData.session_id session_data in
  let '(profile, db1) :=
    if profile_nonempty (user_profile session_data)
    then
      let '(_, p, d) := store_user_profile now (user_profile session_data) db in
      (p, d)
    else (user_profile session_data, db) in
  let session1 := set_user_profile profile session_data in
  let uid := match user_id profile with Some u => u | None => sid end in
  if existsb (fun r => String.eqb (SessionRow.session_id r) sid) (sessions db1)
  then (false, session1, db1)
  else
    let row :=
      {| SessionRow.session_id := sid;
         SessionRow.user_id := uid;
         SessionRow.created_at := SessionData.created_at session1;
         SessionRow.completed_at := None;
         SessionRow.status := SessionData.status session1;
         SessionRow.target_company :=
           match target_job profile with Some j => company j | None => "" end;
         SessionRow.target_role :=
           match target_job profile with Some j => role j | None => "" end;
         SessionRow.difficulty_level :=
           match difficulty_level profile with
           | Some d => d
           | None => "intermediate"
           end;
         SessionRow.session_data := session1 |} in
    (true, session1, with_sessions (sessions db1 ++ [row]) db1).

(** The INSERTs of [store_session_record]: one row per category score,
    then the ['overall'] row. *)
Fixpoint insert_metrics (sid uid ts name : string)
    (scores : list (string * float)) (seq : Z) : list MetricRow.t * Z :=
  match scores with
  | [] => ([], seq)
  | (cat, score) :: rest =>
      let '(rows, seq') := insert_metrics sid uid ts name rest (seq + 1) in
      ({| MetricRow.metric_id := seq + 1; MetricRow.session_id := sid;
          MetricRow.user_id := uid; MetricRow.recorded_at := ts;
          MetricRow.category := cat; MetricRow.metric_name := name;
          MetricRow.metric_value := score;
          MetricRow.additional_data := None |} :: rows, seq')
  end.

(** [store_session_record]: [session_record['timestamp']] raises KeyError
    when the key is absent; the handler returns [False] and nothing has
    been written. *)
Definition store_session_record (session_record : Session) (db : Store)
    : bool * Store :=
  let sid := SessionData.session_id session_record in
  let uid :=
    match user_id (user_profile session_record) with
    | Some u => u
    | None => sid
    end in
  match SessionData.timestamp session_record with
  | None => (false, db)
  | Some ts =>
      let rows :=
        List.map
          (fun r =>
             if String.eqb (SessionRow.session_id r) sid
             then {| SessionRow.session_id := SessionRow.session_id r;
                     SessionRow.user_id := SessionRow.user_id r;
                     SessionRow.created_at := SessionRow.created_at r;
                     SessionRow.completed_at := Some ts;
                     SessionRow.status := "completed";
                     SessionRow.target_company := SessionRow.target_company r;
                     SessionRow.target_role := SessionRow.target_role r;
                     SessionRow.difficulty_level := SessionRow.difficulty_level r;
                     SessionRow.session_data := session_record |}
             else r)
          (sessions db) in
      let scores :=
        match performance_analysis session_record with
        | Some pa => category_scores pa
        | None => []
        end in
      let overall :=
        match performance_analysis session_record with
        | Some pa =>
            match overall_score pa with Some x => x | None => 0%float end
        | None => 0%float
        end in
      let '(cat_rows, seq1) :=
        insert_metrics sid uid ts "category_score" scores (metric_seq db) in
      let '(all_rows, seq2) :=
        insert_metrics sid uid ts "session_score" [("overall", overall)] seq1 in
      (true,
       with_metrics (performance_metrics db ++ cat_rows ++ all_rows) seq2
         (with_sessions rows db))
  end.

Definition store_completed_session (session_data : Session) (db : Store)
    : bool * Store :=
  store_session_record session_data db.

(** *** Learning insights *)

(** [ORDER BY recorded_at ASC]: text comparison, rows with equal
    timestamps in rowid order. *)
Fixpoint insert_by_time (m : MetricRow.t) (sorted : list MetricRow.t)
    : list MetricRow.t :=
  match sorted with
  | [] => [m]
  | x :: rest =>
      if String.leb (MetricRow.recorded_at m) (MetricRow.recorded_at x)
      then m :: sorted
      else x :: insert_by_time m rest
  end.

Definition order_by_recorded_at (rows : list MetricRow.t) : list MetricRow.t :=
  fold_right insert_by_time [] rows.

(** The first query of [get_learning_insights]. *)
Definition select_category_scores (uid : string) (db : Store) : list MetricRow.t :=
  order_by_recorded_at
    (List.filter
       (fun m => String.eqb (MetricRow.user_id m) uid
                 && String.eqb (MetricRow.metric_name m) "category_score")
       (performance_metrics db)).

(** The second query: completed sessions of the user. *)
Definition count_completed_sessions (uid : string) (db : Store) : Z :=
  Z.of_nat
    (length
       (List.filter
          (fun r => String.eqb (SessionRow.user_id r) uid
                    && String.eqb (SessionRow.status r) "completed")
          (sessions db))).

(** [category_performance[category].append(score)], the dictionary kept
    in insertion order. *)
Fixpoint group_append (cat : string) (score : float)
    (cp : list (string * list float)) : list (string * list float) :=
  match cp with
  | [] => [(cat, [score])]
  | (c, scores) :: rest =>
      if String.eqb cat c then (c, scores ++ [score]) :: rest
      else (c, scores) :: group_append cat score rest
  end.

Definition category_performance (metrics : list MetricRow.t)
    : list (string * list float) :=
  fold_left
    (fun cp m => group_append (MetricRow.category m) (MetricRow.metric_value m) cp)
    metrics [].

(** [sum(scores)] of floats is not the same function in every
    interpreter: up to CPython 3.11 the floats are added from the left,
    starting from zero; from CPython 3.12 on, the running sum carries
    Neumaier's compensation term, which is added at the end. *)
Inductive Interpreter : Set :=
| CPython311
| CPython312.
Existing Class Interpreter.

Definition sum_left (xs : list float) : float :=
  fold_left PrimFloat.add xs 0%float.

(** The loop of the compensated sum: [t = f_result + x], and the low
    part of the addition goes to [c]. *)
Fixpoint compensate (xs : list float) (f_result c : float) : float * float :=
  match xs with
  | [] => (f_result, c)
  | x :: rest =>
      let t := PrimFloat.add f_result x in
      compensate rest t
        (if PrimFloat.leb (PrimFloat.abs x) (PrimFloat.abs f_result)
         then PrimFloat.add c (PrimFloat.add (PrimFloat.sub f_result t) x)
         else PrimFloat.add c (PrimFloat.add (PrimFloat.sub x t) f_result))
  end.

(** The first float is added to the integer 0; [if (c && isfinite(c))]
    guards the final correction. *)
Definition sum_compensated (xs : list float) : float :=
  match xs with
  | [] => 0%float
  | x :: rest =>
      let '(f_result, c) := compensate rest (PrimFloat.add 0%float x) 0%float in
      if negb (PrimFloat.eqb c 0%float) && PrimFloat.is_finite c
      then PrimFloat.add f_result c
      else f_result
  end.

Definition sum_float {py : Interpreter} (xs : list float) : float :=
  match py with
  | CPython311 => sum_left xs
  | CPython312 => sum_compensated xs
  end.

Definition average {py : Interpreter} (scores : list float) : float :=
  PrimFloat.div (sum_float scores) (float_of_Z (Z.of_nat (length scores))).

(** [scores[-1] - scores[0]] *)
Definition trend_of (scores : list float) : float :=
  PrimFloat.sub (List.last scores 0%float) (hd 0%float scores).

Definition trend_label (trend : float) : string :=
  if PrimFloat.ltb f0_1 trend then "improving"
  else if PrimFloat.ltb trend (PrimFloat.opp f0_1) then "declining"
  else "stable".

End MemoryBank.

Module TrendEntry.
Record t := {
  current_score : float;
  average_score : float;
  trend : string;
  sessions_tracked : Z
}.
End TrendEntry.

Module Insights.
Record t := {
  user_id : string;
  total_sessions : Z;
  performance_trends : list (string * TrendEntry.t);
  improvement_areas : list string;
  strong_areas : list string;
  learning_velocity : string;
  recommendations : list string
}.
End Insights.

Module InsightEngine.
Import PyStr Planner MemoryBank.

Definition shell (uid : string) : Insights.t :=
  {| Insights.user_id := uid; Insights.total_sessions := 0;
     Insights.performance_trends := []; Insights.improvement_areas := [];
     Insights.strong_areas := []; Insights.learning_velocity := "moderate";
     Insights.recommendations := [] |}.

Definition trend_entry {py : Interpreter} (scores : list float) : TrendEntry.t :=
  {| TrendEntry.current_score := List.last scores 0%float;
     TrendEntry.average_score := average scores;
     TrendEntry.trend := trend_label (trend_of scores);
     TrendEntry.sessions_tracked := Z.of_nat (length scores) |}.

(** One iteration of the loop over [category_performance.items()]. *)
Definition analyse_category {py : Interpreter} (ins : Insights.t)
    (item : string * list float) : Insights.t :=
  let '(category, scores) := item in
  if 2 <=? Z.of_nat (length scores) then
    let avg_score := average scores in
    {| Insights.user_id := Insights.user_id ins;
       Insights.total_sessions := Insights.total_sessions ins;
       Insights.performance_trends :=
         Insights.performance_trends ins ++ [(category, trend_entry scores)];
       Insights.improvement_areas :=
         if PrimFloat.leb f0_7 avg_score then Insights.improvement_areas ins
         else if PrimFloat.ltb avg_score f0_5
         then Insights.improvement_areas ins ++ [category]
         else Insights.improvement_areas ins;
       Insights.strong_areas :=
         if PrimFloat.leb f0_7 avg_score
         then Insights.strong_areas ins ++ [category]
         else Insights.strong_areas ins;
       Insights.learning_velocity := Insights.learning_velocity ins;
       Insights.recommendations := Insights.recommendations ins |}
  else ins.

Definition underscores_to_spaces (s : string) : string :=
  replace_char "_"%char " "%char s.

Definition _generate_learning_recommendations (insights : Insights.t) : list string :=
  let focus :=
    List.map
      (fun area => "Focus on improving " +:+ underscores_to_spaces area +:+ " skills")
      (slice_to 3 (Insights.improvement_areas insights)) in
  let momentum :=
    if Insights.total_sessions insights <? 3
    then ["Complete more practice sessions to build momentum"]
    else if 5 <=? Insights.total_sessions insights
    then ["Consider tackling more advanced difficulty levels"]
    else [] in
  let strength :=
    match Insights.strong_areas insights with
    | [] => []
    | top :: _ =>
        ["Leverage your strength in " +:+ underscores_to_spaces top
         +:+ " for complex problems"]
    end in
  match focus ++ momentum ++ strength with
  | [] => ["Continue regular practice to build and maintain skills"]
  | recommendations => recommendations
  end.

Definition get_learning_insights {py : Interpreter} (uid : string) (db : Store)
    : Insights.t :=
  match select_category_scores uid db with
  | [] => shell uid
  | metrics =>
      let counted :=
        {| Insights.user_id := uid;
           Insights.total_sessions := count_completed_sessions uid db;
           Insights.performance_trends := []; Insights.improvement_areas := [];
           Insights.strong_areas := []; Insights.learning_velocity := "moderate";
           Insights.recommendations := [] |} in
      let analysed :=
        fold_left analyse_category (category_performance metrics) counted in
      {| Insights.user_id := Insights.user_id analysed;
         Insights.total_sessions := Insights.total_sessions analysed;
         Insights.performance_trends := Insights.performance_trends analysed;
         Insights.improvement_areas := Insights.improvement_areas analysed;
         Insights.strong_areas := Insights.strong_areas analysed;
         Insights.learning_velocity := Insights.learning_velocity analysed;
         Insights.recommendations :=
           _generate_learning_recommendations analysed |}
  end.

End InsightEngine.

(** *** Purge *)

Module Purge.
Import MemoryBank.

Definition old_metric (cutoff_date : string) (m : MetricRow.t) : bool :=
  String.ltb (MetricRow.recorded_at m) cutoff_date.

Definition old_completed_session (cutoff_date : string) (r : SessionRow.t) : bool :=
  String.ltb (SessionRow.created_at r) cutoff_date
  && String.eqb (SessionRow.status r) "completed".

(** [cleanup_old_data]: [cutoff_date] is the reading of
    [(datetime.now() - timedelta(days=days_old)).isoformat()]. The two
    DELETE statements, and the sum of their row counts. *)
Definition cleanup_old_data (cutoff_date : string) (db : Store) : Z * Store :=
  let deleted_metrics :=
    Z.of_nat (length (List.filter (old_metric cutoff_date) (performance_metrics db))) in
  let deleted_sessions :=
    Z.of_nat (length (List.filter (old_completed_session cutoff_date) (sessions db))) in
  (deleted_metrics + deleted_sessions,
   with_sessions
     (List.filter (fun r => negb (old_completed_session cutoff_date r)) (sessions db))
     (with_metrics
        (List.filter (fun m => negb (old_metric cutoff_date m)) (performance_metrics db))
        (metric_seq db) db)).

End Purge.

(** ** The session lifecycle: [sessions/session_manager.py] *)

Module SessionManager.
Import PyStr Extractor Planner SessionData MemoryBank.

(** What a call that may raise yields: a value, or the text [str(e)] of
    the exception. *)
Inductive outcome (A : Type) : Type :=
| Returned (a : A)
| Raised (msg : string).
Arguments Returned {A} a.
Arguments Raised {A} msg.

(** The body of the [try] block: it reads and mutates [session_data]
    and may raise; the handler sees the dictionary as the body left it. *)
Definition Body (A : Type) : Type := Session -> outcome A * Session.

#[global] Instance body_ret : MRet Body := fun A a s => (Returned a, s).

#[global] Instance body_bind : MBind Body := fun A B k m s =>
  match m s with
  | (Returned a, s') => k a s'
  | (Raised e, s') => (Raised e, s')
  end.

Definition call {A} (o : outcome A) : Body A := fun s => (o, s).

Definition modify (f : Session -> Session) : Body unit :=
  fun s => (Returned tt, f s).

(** The object: the injected store, the active dictionary, the history. *)
Record Manager := {
  memory_bank : Store;
  active_sessions : gmap string Session;
  session_history : list Session
}.

Definition new_manager (db : Store) : Manager :=
  {| memory_bank := db; active_sessions := ∅; session_history := [] |}.

(** What the console dialogue of step 1 leaves in the local variables. *)
Record ExperienceDialogue := {
  years_experience : Z;
  technical_field_input : string;
  current_role_input : string;
  company_size_input : string;
  previous_interviews_input : string;
  self_assessment_answers : list (string * Z)
}.

Definition _gather_experience_assessment (dialogue : outcome ExperienceDialogue)
    : outcome Experience :=
  match dialogue with
  | Raised e => Raised e
  | Returned d =>
      let technical_field := lower (strip (technical_field_input d)) in
      Returned
        {| years := years_experience d;
           field := technical_field;
           current_role := strip (current_role_input d);
           company_size := strip (company_size_input d);
           previous_interviews := strip (previous_interviews_input d);
           self_assessment := self_assessment_answers d;
           proficiency_areas := _get_skill_areas_for_field technical_field;
           experience_level :=
             _categorize_experience_level (years_experience d) |}
  end.

(** What the dialogue of step 2 collects. *)
Record JobDialogue := {
  company_input : string;
  role_input : string;
  timeline_input : string;
  job_description_lines : list string
}.

(** ["\n".join(lines)] *)
Fixpoint join_lines (lines : list string) : string :=
  match lines with
  | [] => ""
  | [l] => l
  | l :: rest => l +:+ String (ascii_of_nat 10) (join_lines rest)
  end.

Definition _gather_job_description_analysis (now : Clock)
    (dialogue : outcome JobDialogue) : outcome Job :=
  match dialogue with
  | Raised e => Raised e
  | Returned d =>
      let target_role := strip (role_input d) in
      let pasted := join_lines (job_description_lines d) in
      let job_description :=
        if blank pasted
        then "Generic " +:+ target_role
             +:+ " position requiring technical skills and problem-solving abilities."
        else pasted in
      Returned
        {| company := strip (company_input d);
           role := target_role;
           description := job_description;
           timeline := strip (timeline_input d);
           description_length := Z.of_nat (String.length job_description);
           collected_at := isoformat now |}
  end.

Definition set_experience (e : Experience) (s : Session) : Session :=
  set_user_profile
    {| user_id := user_id (user_profile s); experience := Some e;
       target_job := target_job (user_profile s);
       difficulty_level := difficulty_level (user_profile s) |} s.

Definition set_target_job (j : Job) (s : Session) : Session :=
  set_user_profile
    {| user_id := user_id (user_profile s);
       experience := experience (user_profile s); target_job := Some j;
       difficulty_level := difficulty_level (user_profile s) |} s.

Definition set_difficulty_level (d : string) (s : Session) : Session :=
  set_user_profile
    {| user_id := user_id (user_profile s);
       experience := experience (user_profile s);
       target_job := target_job (user_profile s);
       difficulty_level := Some d |} s.

Definition fresh_session (sid : string) (now : Clock) : Session :=
  {| session_id := sid; created_at := isoformat now;
     status := "initializing"; user_profile := empty_profile;
     context_data := None; interview_plan := None;
     agent_interactions := []; error := None; completed_at := None;
     last_updated := None; timestamp := None;
     performance_analysis := None; other := [] |}.

Section Initialization.

(** The four steps, each of which may raise. *)
Variable step1 : outcome Experience.
Variable step2 : outcome Job.
Variable step3 : string -> outcome Extraction.
Variable step4 : Experience -> Job -> Extraction -> outcome InterviewPlan.

(** The statements of the [try] block up to the registration. *)
Definition initialization_steps : Body unit :=
  experience_data ← call step1;
  modify (set_experience experience_data);;
  job_data ← call step2;
  modify (set_target_job job_data);;
  extracted_skills ← call (step3 (description job_data));
  modify (set_context_data (Some extracted_skills));;
  plan ← call (step4 experience_data job_data extracted_skills);
  modify (set_interview_plan (Some plan));;
  modify (set_status "initialized");;
  modify (set_difficulty_level
            (_calculate_initial_difficulty experience_data extracted_skills)).

(** [initialize_session] over given steps. On success the session is
    registered and handed to the store, whose write adds the generated
    [user_id] to the profile dictionary that the session shares. The
    handler marks the dictionary failed, records the message and
    registers it. In both cases the id is returned. *)
Definition initialize_session_with (sid : string) (now : Clock) (m : Manager)
    : string * Manager :=
  match initialization_steps (fresh_session sid now) with
  | (Returned _, session_data) =>
      let '(_, stored, db) :=
        store_session_initialization now session_data (memory_bank m) in
      (sid,
       {| memory_bank := db;
          active_sessions := <[sid := stored]> (active_sessions m);
          session_history := session_history m |})
  | (Raised e, session_data) =>
      (sid,
       {| memory_bank := memory_bank m;
          active_sessions :=
            <[sid := set_error (Some e) (set_status "failed" session_data)]>
              (active_sessions m);
          session_history := session_history m |})
  end.

End Initialization.

(** [initialize_session]: [sid] is the reading of [_generate_session_id],
    the dialogues are what the console returned or raised; steps 3 and 4
    are the extractor and the plan builder. *)
Definition initialize_session (sid : string) (now : Clock)
    (experience_dialogue : outcome ExperienceDialogue)
    (job_dialogue : outcome JobDialogue) (m : Manager) : string * Manager :=
  initialize_session_with
    (_gather_experience_assessment experience_dialogue)
    (_gather_job_description_analysis now job_dialogue)
    (fun jd => Returned (_perform_context_engineering jd))
    (fun e j x => Returned (_create_adaptive_interview_plan e j x))
    sid now m.

Definition get_session_data (sid : string) (m : Manager) : option Session :=
  active_sessions m !! sid.

Definition update_session_status (now : Clock) (sid status : string)
    (additional_data : option AdditionalData) (m : Manager) : bool * Manager :=
  match active_sessions m !! sid with
  | Some s =>
      let s1 := set_last_updated (Some (isoformat now)) (set_status status s) in
      let s2 :=
        match additional_data with
        | Some a => if additional_nonempty a then merge_additional a s1 else s1
        | None => s1
        end in
      (true,
       {| memory_bank := memory_bank m;
          active_sessions := <[sid := s2]> (active_sessions m);
          session_history := session_history m |})
  | None => (false, m)
  end.

Definition record_agent_interaction (now : Clock) (sid agent_name : string)
    (interaction_data : list (string * string)) (m : Manager) : bool * Manager :=
  match active_sessions m !! sid with
  | Some s =>
      let interaction_record :=
        {| Interaction.timestamp := isoformat now;
           Interaction.agent := agent_name;
           Interaction.interaction_type :=
             dict_get interaction_data "type" "unknown";
           Interaction.data := interaction_data |} in
      (true,
       {| memory_bank := memory_bank m;
          active_sessions :=
            <[sid := set_agent_interactions
                       (agent_interactions s ++ [interaction_record]) s]>
              (active_sessions m);
          session_history := session_history m |})
  | None => (false, m)
  end.

(** The result of [finalize_session]: the session dictionary, or [{}]. *)
Inductive finalize_result : Type :=
| EmptyDict
| SessionDict (s : Session).

Definition finalize_session (now : Clock) (sid : string) (m : Manager)
    : finalize_result * Manager :=
  match active_sessions m !! sid with
  | Some s =>
      let session_data :=
        set_completed_at (Some (isoformat now)) (set_status "completed" s) in
      let '(_, db) := store_completed_session session_data (memory_bank m) in
      (SessionDict session_data,
       {| memory_bank := db;
          active_sessions := delete sid (active_sessions m);
          session_history := session_history m ++ [session_data] |})
  | None => (EmptyDict, m)
  end.

End SessionManager.

(** ** More of Python's string operations, as the console dialogue uses them *)

Module PyText.
Import PyStr.

(** [all(p(c) for c in s)] *)
Fixpoint all_chars (p : ascii -> bool) (s : string) : bool :=
  match s with
  | EmptyString => true
  | String c t => p c && all_chars p t
  end.

Definition is_decimal (c : ascii) : bool :=
  ((48 <=? ord c) && (ord c <=? 57))%N.

Definition digit_value (c : ascii) : Z := Z.of_N (ord c) - 48.

(** [str.isdigit]: the decimal digits and the superscripts two, three
    and one; false on the empty string. *)
Definition isdigit_char (c : ascii) : bool :=
  (is_decimal c || (ord c =? 178) || (ord c =? 179) || (ord c =? 185))%N.

Definition isdigit (s : string) : bool :=
  match s with
  | EmptyString => false
  | _ => all_chars isdigit_char s
  end.

(** The white space that [int()] skips around a number: TAB..CR, SPACE,
    NEL and NBSP (the separators FS..US are not skipped). *)
Definition int_space (c : ascii) : bool :=
  ((9 <=? ord c) && (ord c <=? 13) || (ord c =? 32)
   || (ord c =? 133) || (ord c =? 160))%N.

Fixpoint lstrip_with (p : ascii -> bool) (s : string) : string :=
  match s with
  | EmptyString => EmptyString
  | String c t => if p c then lstrip_with p t else s
  end.

Fixpoint rstrip_with (p : ascii -> bool) (s : string) : string :=
  match s with
  | EmptyString => EmptyString
  | String c t =>
      match rstrip_with p t with
      | EmptyString => if p c then EmptyString else String c EmptyString
      | t' => String c t'
      end
  end.

(** The digits after a first digit: more digits, single underscores
    only between two digits. *)
Fixpoint int_digits (s : string) (acc : Z) : option Z :=
  match s with
  | EmptyString => Some acc
  | String c t =>
      if is_decimal c then int_digits t (10 * acc + digit_value c)
      else if Ascii.eqb c "_" then
        match t with
        | String c' t' =>
            if is_decimal c' then int_digits t' (10 * acc + digit_value c')
            else None
        | EmptyString => None
        end
      else None
  end.

Definition int_unsigned (s : string) : option Z :=
  match s with
  | String c t => if is_decimal c then int_digits t (digit_value c) else None
  | EmptyString => None
  end.

(** [int(s)] in base 10: [None] stands for ValueError. The limit that
    CPython 3.11 puts on the number of digits (4300 by default) is not
    part of the model. *)
Definition py_int (s : string) : option Z :=
  match rstrip_with int_space (lstrip_with int_space s) with
  | String "+" t => int_unsigned t
  | String "-" t => Z.opp <$> int_unsigned t
  | body => int_unsigned body
  end.

(** [str.upper] of one character, as the code points of the result:
    the sharp s becomes "SS", the micro sign and the y with diaeresis
    leave the range. *)
Definition upper_char (c : ascii) : list N :=
  let n := ord c in
  (if ((97 <=? n) && (n <=? 122))
      || ((224 <=? n) && (n <=? 254) && negb (n =? 247))
   then [n - 32]
   else if n =? 223 then [83; 83]
   else if n =? 181 then [924]
   else if n =? 255 then [376]
   else [n])%N.

Fixpoint upper (s : string) : list N :=
  match s with
  | EmptyString => []
  | String c t => upper_char c ++ upper t
  end.

Fixpoint code_points (s : string) : list N :=
  match s with
  | EmptyString => []
  | String c t => ord c :: code_points t
  end.

End PyText.

(** ** The console dialogues of steps 1 and 2 *)

Module Console.
Import PyStr PyText Planner SessionManager.

(** A dialogue reads lines from the standard input, kept as the list of
    the lines still to come; [input()] raises EOFError when none is
    left. What the dialogue prints is not recorded. *)
Definition Console (A : Type) : Type := list string -> outcome A * list string.

#[global] Instance console_ret : MRet Console := fun A a stdin => (Returned a, stdin).

#[global] Instance console_bind : MBind Console := fun A B k m stdin =>
  match m stdin with
  | (Returned a, rest) => k a rest
  | (Raised e, rest) => (Raised e, rest)
  end.

Definition EOFError : string := "EOF when reading a line".

Definition input : Console string := fun stdin =>
  match stdin with
  | [] => (Raised EOFError, [])
  | line :: rest => (Returned line, rest)
  end.

(** The loop that asks for the years of experience: a line that is not
    made of digits counts as 0; a line of digits that [int] refuses (a
    superscript digit) is asked again. *)
Fixpoint read_years (stdin : list string) : outcome Z * list string :=
  match stdin with
  | [] => (Raised EOFError, [])
  | years_input :: rest =>
      if isdigit years_input then
        match py_int years_input with
        | Some n => (Returned n, rest)
        | None => read_years rest
        end
      else (Returned 0, rest)
  end.

(** The loop that asks for the score of one skill. It yields the value
    to store in [self_assessment], if any: a blank line stores the
    default 3; a number from 1 to 5 leaves the loop at the first [break],
    before the assignment; anything else is asked again. *)
Fixpoint read_score (stdin : list string) : outcome (option Z) * list string :=
  match stdin with
  | [] => (Raised EOFError, [])
  | score_input :: rest =>
      if String.eqb (strip score_input) "" then (Returned (Some 3), rest)
      else
        match py_int score_input with
        | Some score =>
            if (1 <=? score) && (score <=? 5) then (Returned None, rest)
            else read_score rest
        | None => read_score rest
        end
  end.

(** [d[k] = v] on a dictionary kept as the list of its items. *)
Fixpoint assign (k : string) (v : Z) (d : list (string * Z)) : list (string * Z) :=
  match d with
  | [] => [(k, v)]
  | (k', v') :: rest =>
      if String.eqb k k' then (k', v) :: rest else (k', v') :: assign k v rest
  end.

Fixpoint read_scores (skills : list string) (self_assessment : list (string * Z))
    : Console (list (string * Z)) :=
  match skills with
  | [] => mret self_assessment
  | skill :: more =>
      score ← read_score;
      read_scores more
        match score with
        | Some v => assign skill v self_assessment
        | None => self_assessment
        end
  end.

(** The console part of [_gather_experience_assessment]. *)
Definition experience_dialogue : Console ExperienceDialogue :=
  years ← read_years;
  field_line ← input;
  role_line ← input;
  size_line ← input;
  previous_line ← input;
  answers ←
    read_scores
      (slice_to 5 (_get_skill_areas_for_field (lower (strip field_line)))) [];
  mret {| years_experience := years;
          technical_field_input := field_line;
          current_role_input := role_line;
          company_size_input := size_line;
          previous_interviews_input := previous_line;
          self_assessment_answers := answers |}.

Fixpoint codes_eqb (a b : list N) : bool :=
  match a, b with
  | [], [] => true
  | x :: a', y :: b' => N.eqb x y && codes_eqb a' b'
  | _, _ => false
  end.

(** [line.strip().upper() == 'DONE'] *)
Definition is_done (line : string) : bool :=
  codes_eqb (upper (strip line)) (code_points "DONE").

(** The loop that collects the pasted job description: it ends at a
    DONE line or at the second empty line in a row; empty lines are not
    kept. *)
Fixpoint read_description (consecutive_empty : Z)
    (job_description_lines : list string) (stdin : list string)
    : outcome (list string) * list string :=
  match stdin with
  | [] => (Raised EOFError, [])
  | line :: rest =>
      if is_done line then (Returned job_description_lines, rest)
      else if String.eqb line "" then
        if 2 <=? consecutive_empty + 1
        then (Returned job_description_lines, rest)
        else read_description (consecutive_empty + 1) job_description_lines rest
      else read_description 0 (job_description_lines ++ [line]) rest
  end.

(** The console part of [_gather_job_description_analysis]. *)
Definition job_dialogue : Console JobDialogue :=
  company_line ← input;
  role_line ← input;
  timeline_line ← input;
  lines ← read_description 0 [];
  mret {| company_input := company_line;
          role_input := role_line;
          timeline_input := timeline_line;
          job_description_lines := lines |}.

(** [initialize_session] fed from the console: step 2 reads what step 1
    left of the input. *)
Definition initialize_session_console (sid : string) (now : Clock)
    (stdin : list string) (m : Manager) : string * Manager :=
  let '(experience_outcome, rest) := experience_dialogue stdin in
  initialize_session sid now experience_outcome (fst (job_dialogue rest)) m.

End Console.

(** ** Queries of the profile store *)

Module StoreQueries.
Import PyStr SessionData MemoryBank.

(** The [db_metadata] entry that [get_user_profile] adds to the profile. *)
Record DbMetadata := {
  created_at : string;
  last_updated : string
}.

(** [get_user_profile]: the stored profile with its [db_metadata], or
    [None] when no row has the id. *)
Definition get_user_profile (uid : string) (db : Store)
    : option (UserProfile * DbMetadata) :=
  match List.find (fun r => String.eqb (UserProfileRow.user_id r) uid)
                  (user_profiles db) with
  | Some row =>
      Some (UserProfileRow.profile_data row,
            {| created_at := UserProfileRow.created_at row;
               last_updated := UserProfileRow.last_updated row |})
  | None => None
  end.






End StoreQueries.

(** ** The code execution tool: [tools/code_execution.py] *)

Module CodeSecurity.
Import PyStr.

Record SecurityResult := {
  is_safe : bool;
  violations : list string
}.

Definition dangerous_patterns : list string :=
  ["import os"; "import subprocess"; "exec("; "eval("; "__import__";
   "open("; "file("; "delete"; "remove"].

Definition java_patterns : list string :=
  ["Runtime.getRuntime"; "ProcessBuilder"; "System.exit"; "File(";
   "FileWriter"; "FileReader"].

Definition _validate_code_security (code language : string) : SecurityResult :=
  let code_lower := lower code in
  let patterns :=
    dangerous_patterns
    ++ (if String.eqb language "java" then java_patterns else []) in
  let found :=
    List.map (fun pattern => "Unsafe operation: " +:+ pattern)
      (List.filter (fun pattern => contains pattern code_lower) patterns) in
  {| is_safe := match found with [] => true | _ => false end;
     violations := found |}.

End CodeSecurity.

(** * Vocabulary of the properties, and example data *)

(** ** Example users and jobs *)

Module PlannerExamples.
Import PyStr Extractor Planner SessionManager.

(** A user with [n] years of experience, as step 1 returns it. *)
Definition user_with_years (n : Z) : Experience :=
  {| years := n; field := "back-end"; current_role := "developer";
     company_size := ""; previous_interviews := "";
     self_assessment := [];
     proficiency_areas := _get_skill_areas_for_field "back-end";
     experience_level := _categorize_experience_level n |}.

(** A target job with the description [text], as step 2 returns it. *)
Definition job_with_description (text : string) : Job :=
  {| company := "Acme"; role := "Engineer"; description := text;
     timeline := ""; description_length := Z.of_nat (String.length text);
     collected_at := "2024-05-01T10:00:00" |}.

(** The plan of a user with [n] years for the job described by [text]. *)
Definition plan_for (n : Z) (text : string) : InterviewPlan :=
  _create_adaptive_interview_plan (user_with_years n)
    (job_with_description text) (_perform_context_engineering text).

End PlannerExamples.

(** ** Purge *)

Module PurgeSpec.
Import MemoryBank Purge.

(** A session row that no purge may delete. *)
Definition not_completed (r : SessionRow.t) : bool :=
  negb (String.eqb (SessionRow.status r) "completed").

End PurgeSpec.

(** ** Learning insights *)

Module InsightSpec.
Import PyStr Planner MemoryBank InsightEngine.

(** The scores recorded for a category, in the order of the query. *)
Definition scores_of (cat : string) (ms : list MetricRow.t) : list float :=
  List.map MetricRow.metric_value
    (List.filter (fun m => String.eqb (MetricRow.category m) cat) ms).

(** The scores recorded for a user and a category, oldest first. *)
Definition recorded_scores (uid cat : string) (db : Store) : list float :=
  scores_of cat (select_category_scores uid db).

(** [d.get(c)] on the grouping dictionary. *)
Fixpoint assoc (c : string) (cp : list (string * list float))
    : option (list float) :=
  match cp with
  | [] => None
  | (k, v) :: rest => if String.eqb c k then Some v else assoc c rest
  end.

(** A key is present in the grouping dictionary only with a score. *)
Definition nonempty_opt (l : list float) : option (list float) :=
  match l with [] => None | _ => Some l end.

(** The body of the grouping loop. *)
Definition grouping_step (cp : list (string * list float)) (m : MetricRow.t) :=
  group_append (MetricRow.category m) (MetricRow.metric_value m) cp.

(** What one iteration of the analysis loop adds to each list. *)
Definition trend_item {py : Interpreter} (item : string * list float)
    : list (string * TrendEntry.t) :=
  if 2 <=? Z.of_nat (length (snd item))
  then [(fst item, trend_entry (snd item))] else [].

Definition strong_item {py : Interpreter} (item : string * list float)
    : list string :=
  if (2 <=? Z.of_nat (length (snd item)))
     && PrimFloat.leb f0_7 (average (snd item))
  then [fst item] else [].

Definition improvement_item {py : Interpreter} (item : string * list float)
    : list string :=
  if (2 <=? Z.of_nat (length (snd item)))
     && negb (PrimFloat.leb f0_7 (average (snd item)))
     && PrimFloat.ltb (average (snd item)) f0_5
  then [fst item] else [].

(** Example stores: category scores of the user "user_1". *)
Definition score_row (id : Z) (day : string) (cat : string) (v : float)
    : MetricRow.t :=
  {| MetricRow.metric_id := id; MetricRow.session_id := "atic_" +:+ day;
     MetricRow.user_id := "user_1"; MetricRow.recorded_at := day;
     MetricRow.category := cat; MetricRow.metric_name := "category_score";
     MetricRow.metric_value := v; MetricRow.additional_data := None |}.

(** The floats 0.2, 0.4, 0.6, 0.55 and 0.9. *)
Definition f0_2 : float := 0x1.999999999999ap-3%float.
Definition f0_4 : float := 0x1.999999999999ap-2%float.
Definition f0_6 : float := 0x1.3333333333333p-1%float.
Definition f0_9 : float := 0x1.ccccccccccccdp-1%float.

(** Scores 0.4, 0.4, 0.6 for "communication". *)
Definition store_improving : Store :=
  with_metrics
    [ score_row 1 "2024-01-01" "communication" f0_4;
      score_row 2 "2024-01-02" "communication" f0_4;
      score_row 3 "2024-01-03" "communication" f0_6 ] 3 empty_store.


(** One score 0.9 for "communication". *)
Definition store_single : Store :=
  with_metrics [ score_row 1 "2024-01-01" "communication" f0_9 ] 1 empty_store.

(** Three and six scores of 0.7 for "communication". *)
Definition store_three : Store :=
  with_metrics
    [ score_row 1 "2024-01-01" "communication" f0_7;
      score_row 2 "2024-01-02" "communication" f0_7;
      score_row 3 "2024-01-03" "communication" f0_7 ] 3 empty_store.

Definition store_six : Store :=
  with_metrics
    [ score_row 1 "2024-01-01" "communication" f0_7;
      score_row 2 "2024-01-02" "communication" f0_7;
      score_row 3 "2024-01-03" "communication" f0_7;
      score_row 4 "2024-01-04" "communication" f0_7;
      score_row 5 "2024-01-05" "communication" f0_7;
      score_row 6 "2024-01-06" "communication" f0_7 ] 6 empty_store.

(** Scores 0.9, 0.9 for "communication". *)
Definition store_strong : Store :=
  with_metrics
    [ score_row 1 "2024-01-01" "communication" f0_9;
      score_row 2 "2024-01-02" "communication" f0_9 ] 2 empty_store.

(** The rows that the insight of a user reads for a category, and the
    order of their timestamps. *)
Definition scored_in (uid cat : string) (db : Store) (m : MetricRow.t) : Prop :=
  m ∈ performance_metrics db /\ MetricRow.user_id m = uid
  /\ MetricRow.metric_name m = "category_score"
  /\ MetricRow.category m = cat.

Definition not_after (a b : MetricRow.t) : Prop :=
  String.leb (MetricRow.recorded_at a) (MetricRow.recorded_at b) = true.


End InsightSpec.

(** ** Session lifecycle *)

Module ManagerSpec.
Import PyStr Extractor Planner SessionData MemoryBank SessionManager.

(** The session dictionary as [finalize_session] leaves it. *)
Definition completed (now : Clock) (s : Session) : Session :=
  set_completed_at (Some (isoformat now)) (set_status "completed" s).

(** An example run: two clock readings and the answers of a user. *)
Definition clock_1 : Clock :=
  {| isoformat := "2024-05-01T10:00:00"; compact := "20240501_100000" |}.

Definition clock_2 : Clock :=
  {| isoformat := "2024-05-01T11:00:00"; compact := "20240501_110000" |}.

Definition experience_answers : ExperienceDialogue :=
  {| years_experience := 1; technical_field_input := " Front-End ";
     current_role_input := "developer"; company_size_input := "";
     previous_interviews_input := "";
     self_assessment_answers := [("Testing", 3)] |}.

Definition job_answers : JobDialogue :=
  {| company_input := "Acme"; role_input := "Engineer"; timeline_input := "";
     job_description_lines := ["Junior React developer"] |}.

(** A manager with the one session "atic_1" initialized. *)
Definition manager_1 : Manager :=
  snd (initialize_session "atic_1" clock_1 (Returned experience_answers)
         (Returned job_answers) (new_manager empty_store)).

(** One call on the manager, whatever its arguments. The session id
    that [_generate_session_id] draws, the clock, and the outcomes of
    the four steps of an initialization are arguments. *)
Inductive api_call : Manager -> Manager -> Prop :=
| api_initialize step1 step2 step3 step4 sid now m :
    api_call m (snd (initialize_session_with step1 step2 step3 step4 sid now m))
| api_update now sid status additional_data m :
    api_call m (snd (update_session_status now sid status additional_data m))
| api_record now sid agent_name interaction_data m :
    api_call m (snd (record_agent_interaction now sid agent_name interaction_data m))
| api_finalize now sid m :
    api_call m (snd (finalize_session now sid m)).

(** The managers that calls can produce from a new one. *)
Inductive produced : Manager -> Prop :=
| produced_new db : produced (new_manager db)
| produced_call m m' : produced m -> api_call m m' -> produced m'.

(** An [additional_data] that has no entry under 'session_id'. *)
Definition keeps_session_id (additional_data : option AdditionalData) : Prop :=
  match additional_data with
  | Some a => ad_session_id a = None
  | None => True
  end.

(** An orderly call: an initialization draws a session id that no
    finalized session carries, and an update does not overwrite the
    'session_id' entry of the session. Neither is enforced by the
    code. *)
Inductive orderly_call : Manager -> Manager -> Prop :=
| orderly_initialize step1 step2 step3 step4 sid now m :
    sid ∉ List.map session_id (session_history m) ->
    orderly_call m
      (snd (initialize_session_with step1 step2 step3 step4 sid now m))
| orderly_update now sid status additional_data m :
    keeps_session_id additional_data ->
    orderly_call m (snd (update_session_status now sid status additional_data m))
| orderly_record now sid agent_name interaction_data m :
    orderly_call m
      (snd (record_agent_interaction now sid agent_name interaction_data m))
| orderly_finalize now sid m :
    orderly_call m (snd (finalize_session now sid m)).

(** The managers that orderly calls produce from a new one. *)
Inductive orderly : Manager -> Prop :=
| orderly_new db : orderly (new_manager db)
| orderly_step m m' : orderly m -> orderly_call m m' -> orderly m'.

(** An update that puts the id "atic_2" into the session. *)
Definition rename_to_atic_2 : AdditionalData :=
  {| ad_session_id := Some "atic_2"; ad_created_at := None;
     ad_status := None; ad_user_profile := None; ad_context_data := None;
     ad_interview_plan := None; ad_agent_interactions := None;
     ad_error := None; ad_completed_at := None; ad_last_updated := None;
     ad_timestamp := None; ad_performance_analysis := None;
     ad_other := []; ad_other_keys := eq_refl |}.

(** Two sessions are initialized, the first is given the id of the
    second by an update, and is finalized. *)
Definition manager_2 : Manager :=
  snd (initialize_session "atic_2" clock_2 (Returned experience_answers)
         (Returned job_answers) manager_1).

Definition manager_3 : Manager :=
  snd (update_session_status clock_2 "atic_1" "in_progress"
         (Some rename_to_atic_2) manager_2).

Definition manager_4 : Manager :=
  snd (finalize_session clock_2 "atic_1" manager_3).

(** Every active session is registered under its own id, and no id of
    the history is active. *)
Definition keyed_by_id (m : Manager) : Prop :=
  forall sid s, active_sessions m !! sid = Some s -> session_id s = sid.

Definition history_inactive (m : Manager) : Prop :=
  forall s, s ∈ session_history m -> active_sessions m !! session_id s = None.

(** The exception raised by the steps, if any: the first step that
    raises ends the [try] body. *)
Definition raised_by_steps (step1 : outcome Experience) (step2 : outcome Job)
    (step3 : string -> outcome Extraction)
    (step4 : Experience -> Job -> Extraction -> outcome InterviewPlan)
    : option string :=
  match step1 with
  | Raised e => Some e
  | Returned x =>
      match step2 with
      | Raised e => Some e
      | Returned j =>
          match step3 (description j) with
          | Raised e => Some e
          | Returned ext =>
              match step4 x j ext with
              | Raised e => Some e
              | Returned _ => None
              end
          end
      end
  end.

End ManagerSpec.

(** ** Requirement extraction, continued *)

Module ExtractorSpec.
Import PyStr Extractor.

(** Every keyword of the five technical categories, in table order. *)
Definition all_keywords : list string :=
  concat (List.map snd technical_keywords).

Definition senior_indicators : list string := dict_get seniority_table "senior" [].
Definition mid_indicators : list string := dict_get seniority_table "mid" [].
Definition junior_indicators : list string := dict_get seniority_table "junior" [].

(** The five focus areas an extraction can name. *)
Definition known_focus_areas : list string :=
  ["technical_knowledge"; "coding_problems"; "system_design";
   "behavioral_leadership"; "general_technical"].

(** Some word of the list occurs in the description, whatever its case. *)
Definition mentions (job_description : string) (words : list string) : Prop :=
  exists k, k ∈ words /\ contains k (lower job_description) = true.

End ExtractorSpec.

(** ** Plan building, continued *)

Module PlannerSpec.
Import PyStr Planner.

(** The four phases in the order of the plan builder, with their fixed
    duration and question count. *)
Definition phase_table : list (string * Z * Z) :=
  [ ("coding_assessment", 30, 2); ("system_design", 25, 1);
    ("technical_concepts", 15, 3); ("behavioral", 10, 2) ].

Definition phase_order : list string := List.map (fun r => fst (fst r)) phase_table.

Definition phase_row (p : Phase) : string * Z * Z :=
  (phase p, duration_minutes p, question_count p).

(** The question categories of the five known focus areas. *)
Definition known_question_categories : list string :=
  concat (List.map snd category_mapping).

(** The rank of an experience level in the table junior < mid < senior. *)
Definition level_rank (level : string) : Z := dict_get seniority_levels level 2.

End PlannerSpec.

(** ** The profile store, continued *)

Module StoreSpec.
Import SessionData MemoryBank.

Definition user_ids (db : Store) : list string :=
  List.map UserProfileRow.user_id (user_profiles db).

Definition session_ids (db : Store) : list string :=
  List.map SessionRow.session_id (sessions db).

Definition metric_ids (db : Store) : list Z :=
  List.map MetricRow.metric_id (performance_metrics db).

(** What the PRIMARY KEY and AUTOINCREMENT declarations promise: no
    two rows of a table share their key, and no metric id exceeds the
    counter. *)
Definition well_keyed (db : Store) : Prop :=
  NoDup (user_ids db)
  /\ NoDup (session_ids db)
  /\ NoDup (metric_ids db)
  /\ Forall (fun i => i <= metric_seq db) (metric_ids db).

(** The id under which [store_user_profile] files a profile. *)
Definition filed_under (now : Clock) (profile_data : UserProfile) : string :=
  match user_id profile_data with
  | Some u => u
  | None => _generate_user_id now profile_data
  end.

(** The rows that the history query selects from. *)
Definition completed_sessions_of (uid : string) (db : Store)
    : list SessionRow.t :=
  List.filter
    (fun r => String.eqb (SessionRow.user_id r) uid
              && String.eqb (SessionRow.status r) "completed")
    (sessions db).


End StoreSpec.

(** ** Console dialogues *)

Module ConsoleSpec.
Import PyStr PyText Planner SessionManager Console.

(** A dialogue that can only fail by running out of input. *)
Definition eof_only {A} (m : Console A) : Prop :=
  forall stdin e rest, m stdin = (Raised e, rest) -> e = EOFError /\ rest = [].

(** The lines of a paste that are kept. *)
Definition kept_lines (consumed : list string) : list string :=
  List.filter (fun line => negb (String.eqb line "")) consumed.

End ConsoleSpec.

(** * Properties *)

(** ** Python strings *)

Module PyStrProps.
Import PyStr.

Lemma mem_true_iff x xs : mem x xs = true <-> x ∈ xs.
Proof.
  unfold mem. rewrite existsb_exists. split.
  - intros [y [Hin Heq]]. apply String.eqb_eq in Heq. subst.
    by apply list_elem_of_In.
  - intros Hin. exists x. split; [by apply list_elem_of_In|].
    apply String.eqb_refl.
Qed.

Lemma mem_false_iff x xs : mem x xs = false <-> x ∉ xs.
Proof.
  rewrite <- mem_true_iff. destruct (mem x xs); split; congruence.
Qed.

End PyStrProps.

(** ** Requirement extraction *)

Module ExtractorProps.
Import PyStr Extractor.







End ExtractorProps.

(** ** Plan building *)

Module PlannerProps.
Import PyStr Extractor Planner SessionManager PlannerExamples PyStrProps.

Lemma app_nil_iff {A} (xs ys : list A) : xs ++ ys = [] <-> xs = [] /\ ys = [].
Proof.
  split.
  - intros H. by apply app_eq_nil.
  - intros [-> ->]. reflexivity.
Qed.

Lemma build_phases_nil (user job : string) (focus : list string) :
  build_phases user job focus = []
  <-> mem "coding_problems" focus = false
      /\ mem "system_design" focus = false
      /\ mem "technical_knowledge" focus = false
      /\ (mem "behavioral_leadership" focus || mem user ["mid"; "senior"]) = false.
Proof.
  unfold build_phases. rewrite !app_nil_iff.
  destruct (mem "coding_problems" focus), (mem "system_design" focus),
    (mem "technical_knowledge" focus),
    (mem "behavioral_leadership" focus || mem user ["mid"; "senior"]);
    split; intros H; decompose [and] H; repeat split; congruence.
Qed.

(** C2, as stated, fails: a junior user whose extraction has the focus
    areas ['general_technical'] gets a plan with no phase. *)
Lemma C2_junior_general_counterexample :
  experience_level (user_with_years 1) = "junior"
  /\ interview_focus_areas (_perform_context_engineering "hello")
     = ["general_technical"]
  /\ session_structure (plan_for 1 "hello") = []
  /\ estimated_duration (plan_for 1 "hello") = 0.
Proof. repeat split. Qed.

(** C2 (amended): the plan has at least one phase exactly when the
    focus areas contain coding_problems, system_design,
    technical_knowledge or behavioral_leadership, or the user level is
    mid or senior. With the focus areas ['general_technical'] the phase
    list is the single behavioral phase for a mid or senior user, and
    empty for any other level. *)
Theorem C2_phase_count (experience_data : Experience) (job_data : Job)
    (extracted_skills : Extraction) :
  let plan :=
    _create_adaptive_interview_plan experience_data job_data extracted_skills in
  let focus := interview_focus_areas extracted_skills in
  let level := experience_level experience_data in
  ((1 <= length (session_structure plan))%nat
   <-> "coding_problems" ∈ focus \/ "system_design" ∈ focus
       \/ "technical_knowledge" ∈ focus \/ "behavioral_leadership" ∈ focus
       \/ level = "mid" \/ level = "senior")
  /\ (focus = ["general_technical"] ->
      level = "mid" \/ level = "senior" ->
      session_structure plan
      = [ {| phase := "behavioral"; duration_minutes := 10;
             question_count := 2; difficulty := level |} ])
  /\ (focus = ["general_technical"] ->
      level <> "mid" -> level <> "senior" ->
      session_structure plan = []).
Proof.
  cbn zeta. split; [|split].
  - cbn [_create_adaptive_interview_plan session_structure].
    set (ph := build_phases _ _ _).
    assert (Hnil : (1 <= length ph)%nat <-> ph <> []).
    { destruct ph; cbn; split; intros; try congruence; lia. }
    rewrite Hnil. unfold ph. rewrite build_phases_nil.
    rewrite orb_false_iff. rewrite !mem_false_iff.
    rewrite !elem_of_cons, elem_of_nil.
    split.
    + intros Hn.
      destruct (decide ("coding_problems" ∈ interview_focus_areas extracted_skills)); [tauto|].
      destruct (decide ("system_design" ∈ interview_focus_areas extracted_skills)); [tauto|].
      destruct (decide ("technical_knowledge" ∈ interview_focus_areas extracted_skills)); [tauto|].
      destruct (decide ("behavioral_leadership" ∈ interview_focus_areas extracted_skills)); [tauto|].
      destruct (decide (experience_level experience_data = "mid")); [tauto|].
      destruct (decide (experience_level experience_data = "senior")); [tauto|].
      exfalso. apply Hn. tauto.
    + tauto.
  - intros Hfocus Hlevel.
    cbn [_create_adaptive_interview_plan session_structure].
    rewrite Hfocus. unfold build_phases.
    destruct Hlevel as [-> | ->]; reflexivity.
  - intros Hfocus Hmid Hsenior.
    cbn [_create_adaptive_interview_plan session_structure].
    rewrite Hfocus. apply build_phases_nil.
    do 3 (split; [reflexivity|]). cbn.
    apply String.eqb_neq in Hmid, Hsenior. by rewrite Hmid, Hsenior.
Qed.

Lemma C2_phase_count_witness :
  (1 <= length (session_structure (plan_for 4 "hello")))%nat
  /\ session_structure (plan_for 4 "hello")
     = [ {| phase := "behavioral"; duration_minutes := 10;
            question_count := 2; difficulty := "mid" |} ].
Proof.
  pose proof (C2_phase_count (user_with_years 4) (job_with_description "hello")
                (_perform_context_engineering "hello")) as (Hcount & Hgeneral & _).
  split.
  - apply Hcount. right. right. right. right. left. reflexivity.
  - apply Hgeneral; [reflexivity | left; reflexivity].
Defined.

(** C3, as stated, fails on its last clause: a senior user facing a
    beginner job is given 'beginner', by the junior-or-beginner rule. *)
Lemma C3_senior_beginner_counterexample :
  experience_level (user_with_years 8) = "senior"
  /\ complexity_level (_perform_context_engineering "Junior developer wanted")
     = "beginner"
  /\ _calculate_initial_difficulty (user_with_years 8)
       (_perform_context_engineering "Junior developer wanted")
     = "beginner"
  /\ _calculate_initial_difficulty (user_with_years 8)
       (_perform_context_engineering "Junior developer wanted")
     <> "intermediate".
Proof. repeat split. discriminate. Qed.

(** C3 (amended): the initial difficulty is 'advanced' exactly for a
    senior user with an advanced job, 'beginner' exactly for a junior
    user or a beginner job, and 'intermediate' for every other
    combination; in particular a senior user facing a beginner job
    yields 'beginner'. *)
Theorem C3_initial_difficulty (experience_data : Experience)
    (extracted_skills : Extraction) :
  let user_level := experience_level experience_data in
  let job_complexity := complexity_level extracted_skills in
  let d := _calculate_initial_difficulty experience_data extracted_skills in
  (d = "advanced" <-> user_level = "senior" /\ job_complexity = "advanced")
  /\ (d = "beginner" <-> user_level = "junior" \/ job_complexity = "beginner")
  /\ (d = "intermediate"
      <-> ~ (user_level = "senior" /\ job_complexity = "advanced")
          /\ ~ (user_level = "junior" \/ job_complexity = "beginner"))
  /\ (user_level = "senior" -> job_complexity = "beginner" -> d = "beginner").
Proof.
  cbn zeta. unfold _calculate_initial_difficulty.
  destruct (String.eqb_spec (experience_level experience_data) "senior") as [Hs|Hs];
  destruct (String.eqb_spec (complexity_level extracted_skills) "advanced") as [Ha|Ha];
  destruct (String.eqb_spec (experience_level experience_data) "junior") as [Hj|Hj];
  destruct (String.eqb_spec (complexity_level extracted_skills) "beginner") as [Hb|Hb];
  cbn [andb orb];
  try (rewrite Hs in Hj; discriminate Hj);
  try (rewrite Ha in Hb; discriminate Hb);
  repeat split; intros; try discriminate; try tauto; try congruence.
Qed.

Lemma C3_initial_difficulty_witness :
  _calculate_initial_difficulty (user_with_years 8)
    (_perform_context_engineering "Junior developer wanted")
  = "beginner".
Proof.
  apply (C3_initial_difficulty (user_with_years 8)
           (_perform_context_engineering "Junior developer wanted"));
    reflexivity.
Defined.

(** On two levels of the table junior < mid < senior, the gap matching
    returns the higher one. *)
Lemma match_difficulty_is_max_on_table (user job : string) :
  user ∈ ["junior"; "mid"; "senior"] ->
  job ∈ ["junior"; "mid"; "senior"] ->
  let rank s := dict_get seniority_levels s 2 in
  rank (_match_difficulty_to_gap user job) = Z.max (rank user) (rank job).
Proof.
  rewrite !elem_of_cons, !elem_of_nil.
  intros [-> | [-> | [-> | []]]] [-> | [-> | [-> | []]]]; reflexivity.
Qed.

(** The level that the plan builder passes for the job is the
    extractor's complexity level, which is never a key of the table:
    its rank is the default 2 for every description. *)
Lemma job_level_rank_is_default (job_description : string) :
  dict_get seniority_levels
    (complexity_level (_perform_context_engineering job_description)) 2 = 2.
Proof.
  unfold _perform_context_engineering.
  destruct (blank job_description); [reflexivity|].
  destruct (detect_seniority _ _) as [level indicators].
  cbn [complexity_level]. unfold derive_complexity.
  destruct (_ || _); [reflexivity|].
  destruct (String.eqb level "junior"); reflexivity.
Qed.

(** Whenever 'coding_problems' is a focus area, the plan starts with
    the coding assessment phase, at the gap-matched difficulty. *)
Lemma coding_phase_included (experience_data : Experience) (job_data : Job)
    (extracted_skills : Extraction) :
  "coding_problems" ∈ interview_focus_areas extracted_skills ->
  hd_error
    (session_structure
       (_create_adaptive_interview_plan experience_data job_data
          extracted_skills))
  = Some {| phase := "coding_assessment"; duration_minutes := 30;
            question_count := 2;
            difficulty :=
              _match_difficulty_to_gap (experience_level experience_data)
                (complexity_level extracted_skills) |}.
Proof.
  intros Hfocus. apply mem_true_iff in Hfocus.
  cbn [_create_adaptive_interview_plan session_structure].
  unfold build_phases. by rewrite Hfocus.
Qed.

(** C4 at a mid-level user and an advanced job: the coding assessment
    phase is included, and its difficulty is the user's level 'mid',
    not the higher level of the job. *)
Theorem C4_coding_difficulty_mid_user_advanced_job :
  let text := "Senior backend engineer: coding and development in Python" in
  experience_level (user_with_years 4) = "mid"
  /\ complexity_level (_perform_context_engineering text) = "advanced"
  /\ "coding_problems" ∈ interview_focus_areas (_perform_context_engineering text)
  /\ hd_error (session_structure (plan_for 4 text))
     = Some {| phase := "coding_assessment"; duration_minutes := 30;
               question_count := 2; difficulty := "mid" |}.
Proof.
  cbn zeta. split; [reflexivity|]. split; [reflexivity|].
  split; [apply mem_true_iff; reflexivity | reflexivity].
Qed.


End PlannerProps.

(** ** Purge *)

Module PurgeProps.
Import MemoryBank Purge PurgeSpec.

Lemma filter_none {A} (p : A -> bool) (l : list A) :
  (forall x, In x l -> p x = false) -> List.filter p l = [].
Proof.
  induction l as [|a l IH]; intros H; [reflexivity|].
  cbn. rewrite (H a (or_introl eq_refl)). apply IH.
  intros x Hx. apply H. by right.
Qed.

Lemma filter_all {A} (p : A -> bool) (l : list A) :
  (forall x, In x l -> p x = true) -> List.filter p l = l.
Proof.
  induction l as [|a l IH]; intros H; [reflexivity|].
  cbn. rewrite (H a (or_introl eq_refl)). f_equal. apply IH.
  intros x Hx. apply H. by right.
Qed.

(** After a DELETE, no remaining row matches its WHERE clause. *)
Lemma deleted_rows_gone {A} (p : A -> bool) (l : list A) :
  List.filter p (List.filter (fun x => negb (p x)) l) = [].
Proof.
  apply filter_none. intros x Hx. apply filter_In in Hx as [_ Hx].
  by apply negb_true_iff.
Qed.

Lemma delete_twice {A} (p : A -> bool) (l : list A) :
  List.filter (fun x => negb (p x)) (List.filter (fun x => negb (p x)) l)
  = List.filter (fun x => negb (p x)) l.
Proof.
  apply filter_all. intros x Hx. by apply filter_In in Hx as [_ Hx].
Qed.

Lemma filter_comm {A} (p q : A -> bool) (l : list A) :
  List.filter p (List.filter q l) = List.filter q (List.filter p l).
Proof.
  induction l as [|a l IH]; [reflexivity|]. cbn.
  destruct (p a) eqn:Hp, (q a) eqn:Hq; cbn; rewrite ?Hp, ?Hq, IH; reflexivity.
Qed.

Lemma kept_if_not_completed (cutoff_date : string) (l : list SessionRow.t) :
  List.filter not_completed
    (List.filter (fun r => negb (old_completed_session cutoff_date r)) l)
  = List.filter not_completed l.
Proof.
  rewrite filter_comm. apply filter_all.
  intros r Hr. apply filter_In in Hr as [_ Hr].
  unfold not_completed in Hr. unfold old_completed_session.
  apply negb_true_iff in Hr. rewrite Hr. by rewrite andb_false_r.
Qed.

(** C5: for every store and every cutoff, a second purge with the same
    cutoff removes 0 records and leaves the store as the first purge
    left it; neither run touches the user profiles, and every session
    row whose status is not 'completed' survives both runs (the rows
    that are not completed are the same, in the same order). *)
Theorem C5_purge_idempotent (cutoff_date : string) (db : Store) :
  let first := cleanup_old_data cutoff_date db in
  let second := cleanup_old_data cutoff_date (snd first) in
  fst second = 0
  /\ snd second = snd first
  /\ user_profiles (snd first) = user_profiles db
  /\ user_profiles (snd second) = user_profiles db
  /\ List.filter not_completed (sessions (snd first))
     = List.filter not_completed (sessions db)
  /\ List.filter not_completed (sessions (snd second))
     = List.filter not_completed (sessions db)
  /\ (forall r, r ∈ sessions db -> SessionRow.status r <> "completed" ->
        r ∈ sessions (snd first) /\ r ∈ sessions (snd second)).
Proof.
  cbn zeta. unfold cleanup_old_data.
  cbn [fst snd with_sessions with_metrics sessions performance_metrics
       user_profiles learning_adaptations question_performance metric_seq].
  rewrite !deleted_rows_gone, !delete_twice, !kept_if_not_completed.
  do 6 (split; [reflexivity|]).
  intros r Hr Hstatus.
  assert (Hkept : r ∈ List.filter
                    (fun r => negb (old_completed_session cutoff_date r))
                    (sessions db)).
  { apply list_elem_of_In, filter_In. split; [by apply list_elem_of_In|].
    unfold old_completed_session. apply negb_true_iff.
    apply String.eqb_neq in Hstatus. rewrite Hstatus. apply andb_false_r. }
  split; exact Hkept.
Qed.

(** The count of a purge is the number of rows it removed. *)
Lemma cleanup_count (cutoff_date : string) (db : Store) :
  let '(n, db') := cleanup_old_data cutoff_date db in
  n = Z.of_nat (length (performance_metrics db)) - Z.of_nat (length (performance_metrics db'))
      + (Z.of_nat (length (sessions db)) - Z.of_nat (length (sessions db'))).
Proof.
  unfold cleanup_old_data.
  cbn [with_sessions with_metrics sessions performance_metrics].
  assert (Hlen : forall A (p : A -> bool) (l : list A),
            length l = (length (List.filter p l)
                        + length (List.filter (fun x => negb (p x)) l))%nat).
  { intros A p l. induction l as [|a l IH]; [reflexivity|]. cbn.
    destruct (p a); cbn; lia. }
  pose proof (Hlen _ (old_metric cutoff_date) (performance_metrics db)).
  pose proof (Hlen _ (old_completed_session cutoff_date) (sessions db)).
  lia.
Qed.


End PurgeProps.

(** ** Learning insights *)

Module InsightProps.
Import PyStr Planner MemoryBank InsightEngine InsightSpec PyStrProps.

Section Interpreted.

(** The properties hold under both summations. *)
Context {py : Interpreter}.

Lemma nonempty_opt_default (l : list float) : default [] (nonempty_opt l) = l.
Proof. by destruct l. Qed.

Lemma nonempty_opt_snoc (l : list float) (v : float) :
  nonempty_opt (l ++ [v]) = Some (l ++ [v]).
Proof. by destruct l. Qed.

Lemma assoc_group_append (c cat : string) (v : float)
    (cp : list (string * list float)) :
  assoc c (group_append cat v cp)
  = if String.eqb c cat then Some (default [] (assoc cat cp) ++ [v])
    else assoc c cp.
Proof.
  induction cp as [|[k vs] cp IH]; cbn.
  - by destruct (String.eqb c cat).
  - destruct (String.eqb_spec cat k) as [->|Hck]; cbn.
    + destruct (String.eqb_spec c k) as [->|Hk]; reflexivity.
    + rewrite IH.
      destruct (String.eqb_spec c k) as [Hk|Hk];
        destruct (String.eqb_spec c cat) as [Hc|Hc];
        try reflexivity; congruence.
Qed.

Lemma keys_group_append (cat : string) (v : float)
    (cp : list (string * list float)) :
  List.map fst (group_append cat v cp)
  = if mem cat (List.map fst cp) then List.map fst cp
    else List.map fst cp ++ [cat].
Proof.
  unfold mem. induction cp as [|[k vs] cp IH]; cbn; [reflexivity|].
  destruct (String.eqb cat k); cbn; [reflexivity|].
  rewrite IH. by destruct (existsb _ _).
Qed.

Lemma nodup_group_append (cat : string) (v : float)
    (cp : list (string * list float)) :
  List.NoDup (List.map fst cp) ->
  List.NoDup (List.map fst (group_append cat v cp)).
Proof.
  intros Hnd. rewrite keys_group_append.
  destruct (mem cat (List.map fst cp)) eqn:Hmem; [done|].
  apply mem_false_iff in Hmem.
  apply NoDup_ListNoDup, NoDup_app. apply NoDup_ListNoDup in Hnd.
  split; [done|]. split.
  - intros x Hx Hx'. apply list_elem_of_singleton in Hx'. by subst.
  - apply NoDup_singleton.
Qed.

Lemma scores_of_snoc (c : string) (ms : list MetricRow.t) (m : MetricRow.t) :
  scores_of c (ms ++ [m])
  = scores_of c ms
    ++ (if String.eqb (MetricRow.category m) c then [MetricRow.metric_value m]
        else []).
Proof.
  unfold scores_of. rewrite List.filter_app, List.map_app. cbn.
  by destruct (String.eqb (MetricRow.category m) c).
Qed.

(** The loop invariant of the grouping: the dictionary has one key per
    category seen so far, holding that category's scores in order. *)
Lemma grouping_invariant (ms pre : list MetricRow.t)
    (cp : list (string * list float)) :
  List.NoDup (List.map fst cp) ->
  (forall c, assoc c cp = nonempty_opt (scores_of c pre)) ->
  List.NoDup (List.map fst (fold_left grouping_step ms cp))
  /\ forall c, assoc c (fold_left grouping_step ms cp)
               = nonempty_opt (scores_of c (pre ++ ms)).
Proof.
  revert pre cp. induction ms as [|m ms IH]; intros pre cp Hnd Hcp.
  - cbn. by rewrite app_nil_r.
  - cbn [fold_left].
    replace (pre ++ m :: ms) with ((pre ++ [m]) ++ ms)
      by (by rewrite <- app_assoc).
    apply IH.
    + by apply nodup_group_append.
    + intros c. unfold grouping_step. rewrite assoc_group_append.
      rewrite scores_of_snoc, Hcp, nonempty_opt_default.
      destruct (String.eqb_spec c (MetricRow.category m)) as [->|Hne].
      * rewrite String.eqb_refl. by rewrite nonempty_opt_snoc.
      * destruct (String.eqb_spec (MetricRow.category m) c) as [Heq|_];
          [congruence|]. by rewrite app_nil_r, Hcp.
Qed.

Lemma in_assoc (c : string) (ss : list float) (cp : list (string * list float)) :
  List.NoDup (List.map fst cp) ->
  (In (c, ss) cp <-> assoc c cp = Some ss).
Proof.
  induction cp as [|[k vs] cp IH]; cbn; intros Hnd.
  - split; [tauto | discriminate].
  - inversion Hnd as [|? ? Hk Hnd']; subst.
    destruct (String.eqb_spec c k) as [->|Hne].
    + split.
      * intros [Heq | Hin]; [congruence|].
        exfalso. apply Hk. apply in_map_iff. by exists (k, ss).
      * intros [= ->]. by left.
    + rewrite <- (IH Hnd'). split.
      * intros [Heq | Hin]; [congruence | done].
      * by right.
Qed.

(** What the grouping loop builds from the rows of the query. *)
Lemma category_performance_spec (ms : list MetricRow.t) (c : string)
    (ss : list float) :
  In (c, ss) (category_performance ms) <-> ss = scores_of c ms /\ ss <> [].
Proof.
  destruct (grouping_invariant ms [] []) as [Hnd Hassoc].
  - constructor.
  - done.
  - unfold category_performance. fold grouping_step.
    rewrite (in_assoc _ _ _ Hnd), Hassoc. cbn [app].
    destruct (scores_of c ms) as [|s l]; cbn.
    + split; [discriminate | intros [-> H]; congruence].
    + split; [intros [= <-]; split; [done | discriminate] | intros [-> _]; done].
Qed.

Lemma analyse_fold (cp : list (string * list float)) (ins : Insights.t) :
  let r := fold_left analyse_category cp ins in
  Insights.performance_trends r
  = Insights.performance_trends ins ++ flat_map trend_item cp
  /\ Insights.strong_areas r
     = Insights.strong_areas ins ++ flat_map strong_item cp
  /\ Insights.improvement_areas r
     = Insights.improvement_areas ins ++ flat_map improvement_item cp
  /\ Insights.total_sessions r = Insights.total_sessions ins.
Proof.
  revert ins. induction cp as [|[c ss] cp IH]; intros ins.
  - cbn. by rewrite !app_nil_r.
  - cbn [fold_left flat_map]. cbn zeta in IH |- *.
    destruct (IH (analyse_category ins (c, ss))) as (Ht & Hs & Hi & Hn).
    rewrite Ht, Hs, Hi, Hn. clear IH Ht Hs Hi Hn.
    unfold analyse_category, trend_item, strong_item, improvement_item.
    cbn [fst snd].
    destruct (2 <=? Z.of_nat (length ss)); cbn [andb];
      [|repeat split; reflexivity].
    cbn [Insights.performance_trends Insights.strong_areas
         Insights.improvement_areas Insights.total_sessions].
    destruct (PrimFloat.leb f0_7 (average ss)); cbn [negb andb];
      [repeat split; cbn [app]; rewrite <- ?app_assoc; reflexivity|].
    destruct (PrimFloat.ltb (average ss) f0_5);
      repeat split; cbn [app]; rewrite <- ?app_assoc; reflexivity.
Qed.

Lemma insights_lists (uid : string) (db : Store) :
  let cp := category_performance (select_category_scores uid db) in
  let ins := get_learning_insights uid db in
  Insights.performance_trends ins = flat_map trend_item cp
  /\ Insights.strong_areas ins = flat_map strong_item cp
  /\ Insights.improvement_areas ins = flat_map improvement_item cp.
Proof.
  cbn zeta. unfold get_learning_insights.
  destruct (select_category_scores uid db) as [|m ms] eqn:Hsel.
  - by cbn.
  - cbn [Insights.performance_trends Insights.strong_areas
         Insights.improvement_areas].
    match goal with
    | |- context [fold_left analyse_category ?cp ?i] =>
        destruct (analyse_fold cp i) as (Ht & Hs & Hi & _)
    end.
    by rewrite Ht, Hs, Hi.
Qed.

Lemma two_scores (l : list float) :
  (2 <=? Z.of_nat (length l)) = true <-> (2 <= length l)%nat.
Proof. rewrite Z.leb_le. lia. Qed.

Lemma two_scores_nonempty (l : list float) : (2 <= length l)%nat -> l <> [].
Proof. destruct l; cbn; [lia | discriminate]. Qed.

(** A category has a trend entry exactly when it has at least two
    recorded scores, and the entry is computed from those scores. *)
Lemma trends_spec (uid cat : string) (db : Store) (e : TrendEntry.t) :
  (cat, e) ∈ Insights.performance_trends (get_learning_insights uid db)
  <-> (2 <= length (recorded_scores uid cat db))%nat
      /\ e = trend_entry (recorded_scores uid cat db).
Proof.
  destruct (insights_lists uid db) as (-> & _ & _).
  rewrite list_elem_of_In, in_flat_map. unfold recorded_scores. split.
  - intros ([c ss] & Hin & Hitem). unfold trend_item in Hitem. cbn [fst snd] in Hitem.
    destruct (2 <=? Z.of_nat (length ss)) eqn:Hlen; [|done].
    destruct Hitem as [[= -> <-]|[]].
    apply category_performance_spec in Hin as [-> _].
    by apply two_scores in Hlen.
  - intros [Hlen ->]. eexists (cat, _). split.
    + apply category_performance_spec. split; [done|].
      by apply two_scores_nonempty.
    + unfold trend_item. cbn [fst snd].
      apply two_scores in Hlen. rewrite Hlen. by left.
Qed.

Lemma strong_spec (uid cat : string) (db : Store) :
  cat ∈ Insights.strong_areas (get_learning_insights uid db)
  <-> (2 <= length (recorded_scores uid cat db))%nat
      /\ PrimFloat.leb f0_7 (average (recorded_scores uid cat db)) = true.
Proof.
  destruct (insights_lists uid db) as (_ & -> & _).
  rewrite list_elem_of_In, in_flat_map. unfold recorded_scores. split.
  - intros ([c ss] & Hin & Hitem). unfold strong_item in Hitem. cbn [fst snd] in Hitem.
    destruct (2 <=? Z.of_nat (length ss)) eqn:Hlen; [|done].
    destruct (PrimFloat.leb f0_7 (average ss)) eqn:Havg; [|done].
    destruct Hitem as [->|[]].
    apply category_performance_spec in Hin as [-> _].
    by apply two_scores in Hlen.
  - intros [Hlen Havg]. eexists (cat, _). split.
    + apply category_performance_spec. split; [done|].
      by apply two_scores_nonempty.
    + unfold strong_item. cbn [fst snd].
      apply two_scores in Hlen. rewrite Hlen, Havg. by left.
Qed.

Lemma improvement_spec (uid cat : string) (db : Store) :
  cat ∈ Insights.improvement_areas (get_learning_insights uid db)
  <-> (2 <= length (recorded_scores uid cat db))%nat
      /\ PrimFloat.leb f0_7 (average (recorded_scores uid cat db)) = false
      /\ PrimFloat.ltb (average (recorded_scores uid cat db)) f0_5 = true.
Proof.
  destruct (insights_lists uid db) as (_ & _ & ->).
  rewrite list_elem_of_In, in_flat_map. unfold recorded_scores. split.
  - intros ([c ss] & Hin & Hitem). unfold improvement_item in Hitem.
    cbn [fst snd] in Hitem.
    destruct (2 <=? Z.of_nat (length ss)) eqn:Hlen; [|done].
    destruct (PrimFloat.leb f0_7 (average ss)) eqn:Havg; [done|].
    destruct (PrimFloat.ltb (average ss) f0_5) eqn:Hlow; [|done].
    destruct Hitem as [->|[]].
    apply category_performance_spec in Hin as [-> _].
    by apply two_scores in Hlen.
  - intros (Hlen & Havg & Hlow). eexists (cat, _). split.
    + apply category_performance_spec. split; [done|].
      by apply two_scores_nonempty.
    + unfold improvement_item. cbn [fst snd].
      apply two_scores in Hlen. rewrite Hlen, Havg, Hlow. by left.
Qed.

(** *** The thresholds as binary64 numbers *)




Lemma f0_5_spec : Prim2SF f0_5 = S754_finite false 4503599627370496 (-53).
Proof. vm_compute. reflexivity. Qed.

Lemma f0_7_spec : Prim2SF f0_7 = S754_finite false 6305039478318694 (-53).
Proof. vm_compute. reflexivity. Qed.

Lemma SFcompare_positive_finite (m1 m2 : positive) (e1 e2 : Z) :
  SFcompare (S754_finite false m1 e1) (S754_finite false m2 e2)
  = Some match Z.compare e1 e2 with
         | Lt => Lt
         | Gt => Gt
         | Eq => Pos.compare m1 m2
         end.
Proof. reflexivity. Qed.

(** No float is both below 0.5 and at least 0.7. *)
Lemma below_half_not_strong (x : float) :
  PrimFloat.ltb x f0_5 = true -> PrimFloat.leb f0_7 x = false.
Proof.
  rewrite ltb_spec, leb_spec, f0_5_spec, f0_7_spec.
  assert (Hm : (4503599627370496 < 6305039478318694)%positive) by lia.
  revert Hm.
  generalize 4503599627370496%positive 6305039478318694%positive.
  intros m5 m7 Hm.
  unfold SFltb, SFleb.
  destruct (Prim2SF x) as [s|s| |s m e].
  - by destruct s.
  - by destruct s.
  - done.
  - destruct s; [done|].
    rewrite !SFcompare_positive_finite.
    destruct (Z.compare_spec e (-53)) as [->|Hlt|Hgt].
    + rewrite Z.compare_refl.
      destruct (Pos.compare_spec m m5) as [->|Hlow|Hlow]; try discriminate.
      intros _.
      destruct (Pos.compare_spec m7 m) as [<-|Hup|Hup]; try reflexivity; lia.
    + intros _.
      destruct (Z.compare_spec (-53) e) as [<-|He|He]; try reflexivity; lia.
    + discriminate.
Qed.


End Interpreted.


(** C7, as stated, fails in two ways, under both summations. A category
    with a single recorded score is never classified: its average 0.9
    is at least 0.7, yet it is not a strong area (the classification
    sits under the two-scores guard of the trend). And the average is
    the binary64 quotient that the code computes, which can lie below
    the exact one: three scores of 0.7 have the computed average
    0.6999999999999998, and the category is in neither list. *)
Lemma C7_misclassified_counterexample :
  (recorded_scores "user_1" "communication" store_single = [f0_9]
   /\ PrimFloat.leb f0_7 (average (py := CPython311) [f0_9]) = true
   /\ PrimFloat.leb f0_7 (average (py := CPython312) [f0_9]) = true
   /\ Insights.strong_areas
        (get_learning_insights (py := CPython311) "user_1" store_single) = []
   /\ Insights.strong_areas
        (get_learning_insights (py := CPython312) "user_1" store_single) = [])
  /\ (recorded_scores "user_1" "communication" store_three
      = [f0_7; f0_7; f0_7]
      /\ average (py := CPython311) [f0_7; f0_7; f0_7]
         = 0x1.6666666666665p-1%float
      /\ average (py := CPython312) [f0_7; f0_7; f0_7]
         = 0x1.6666666666665p-1%float
      /\ Insights.strong_areas
           (get_learning_insights (py := CPython311) "user_1" store_three) = []
      /\ Insights.improvement_areas
           (get_learning_insights (py := CPython311) "user_1" store_three) = []
      /\ Insights.strong_areas
           (get_learning_insights (py := CPython312) "user_1" store_three) = []
      /\ Insights.improvement_areas
           (get_learning_insights (py := CPython312) "user_1" store_three) = []).
Proof. vm_compute. repeat split. Qed.

Section Classification.

Context {py : Interpreter}.

(** A category with fewer than two recorded scores is in neither list
    and has no trend entry. *)
Lemma few_scores_unclassified (uid cat : string) (db : Store) :
  (length (recorded_scores uid cat db) < 2)%nat ->
  (cat ∉ Insights.strong_areas (get_learning_insights uid db))
  /\ (cat ∉ Insights.improvement_areas (get_learning_insights uid db))
  /\ forall e,
       (cat, e) ∉ Insights.performance_trends (get_learning_insights uid db).
Proof.
  intros Hlen. rewrite strong_spec, improvement_spec.
  split; [|split].
  - intros [H _]. lia.
  - intros [H _]. lia.
  - intros e He. apply trends_spec in He as [H _]. lia.
Qed.

(** C7 (amended): let avg be the average as the code computes it, the
    binary64 quotient of [sum(scores)] (added from the left up to
    CPython 3.11, compensated from 3.12 on) by the number of scores.
    A category with at least two recorded scores is a strong area when
    avg >= 0.7, an improvement area when avg < 0.5, and neither
    otherwise; in no case is it in both lists. A category with fewer
    than two recorded scores is in neither list, whatever its average.
    The computed average decides, not the exact one: two scores of 0.9
    make a strong area; three scores of 0.7 make none (avg is
    0.6999999999999998); six scores of 0.7 make a strong area where
    the sum is taken from the left (avg 0.7000000000000001) and none
    where it is compensated (avg 0.6999999999999998). The two sums
    differ on 0.1, 0.2, 0.3 as well: 0.6000000000000001 from the left,
    0.6 compensated. *)
Theorem C7_strong_and_improvement_areas (uid cat : string) (db : Store) :
  let scores := recorded_scores uid cat db in
  let avg :=
    PrimFloat.div (sum_float scores)
      (float_of_Z (Z.of_nat (length scores))) in
  let ins := get_learning_insights uid db in
  ((2 <= length scores)%nat ->
     (PrimFloat.leb f0_7 avg = true ->
        cat ∈ Insights.strong_areas ins /\ cat ∉ Insights.improvement_areas ins)
     /\ (PrimFloat.ltb avg f0_5 = true ->
           cat ∈ Insights.improvement_areas ins
           /\ cat ∉ Insights.strong_areas ins)
     /\ (PrimFloat.leb f0_7 avg = false -> PrimFloat.ltb avg f0_5 = false ->
           (cat ∉ Insights.strong_areas ins)
           /\ (cat ∉ Insights.improvement_areas ins)))
  /\ ((length scores < 2)%nat ->
        (cat ∉ Insights.strong_areas ins)
        /\ (cat ∉ Insights.improvement_areas ins))
  /\ (Insights.strong_areas (get_learning_insights "user_1" store_strong)
      = ["communication"]
      /\ Insights.strong_areas (get_learning_insights "user_1" store_three) = []
      /\ Insights.improvement_areas (get_learning_insights "user_1" store_three)
         = []
      /\ Insights.strong_areas (get_learning_insights "user_1" store_six)
         = match py with
           | CPython311 => ["communication"]
           | CPython312 => []
           end
      /\ Insights.improvement_areas (get_learning_insights "user_1" store_six)
         = []
      /\ sum_float [f0_1; f0_2; f0_3]
         = match py with
           | CPython311 => 0x1.3333333333334p-1%float
           | CPython312 => 0x1.3333333333333p-1%float
           end).
Proof.
  cbn zeta. fold (average (recorded_scores uid cat db)).
  split; [|split].
  - intros Hlen. rewrite strong_spec, improvement_spec.
    split; [|split].
    + intros Hstrong. split; [done|]. intros (_ & Hno & _). congruence.
    + intros Hlow. pose proof (below_half_not_strong _ Hlow) as Hno.
      split; [done|]. intros [_ Hyes]. congruence.
    + intros Hno Hmid. split.
      * intros [_ Hyes]. congruence.
      * intros (_ & _ & Hlow). congruence.
  - intros Hlen.
    destruct (few_scores_unclassified uid cat db Hlen) as (Hs & Hi & _).
    by split.
  - destruct py; by vm_compute.
Qed.

End Classification.

Lemma C7_strong_and_improvement_areas_witness :
  "communication"
    ∈ Insights.strong_areas
        (get_learning_insights (py := CPython312) "user_1" store_strong)
  /\ "communication"
       ∉ Insights.improvement_areas
           (get_learning_insights (py := CPython312) "user_1" store_strong).
Proof.
  apply (C7_strong_and_improvement_areas (py := CPython312)
           "user_1" "communication" store_strong).
  - vm_compute. lia.
  - vm_compute. reflexivity.
Defined.

End InsightProps.

(** ** Session lifecycle *)

Module ManagerProps.
Import PyStr Extractor Planner SessionData MemoryBank SessionManager ManagerSpec.

(** *** Finalization *)

Lemma finalize_active (now : Clock) (sid : string) (m : Manager) (s : Session) :
  active_sessions m !! sid = Some s ->
  finalize_session now sid m
  = (SessionDict (completed now s),
     {| memory_bank :=
          snd (store_completed_session (completed now s) (memory_bank m));
        active_sessions := delete sid (active_sessions m);
        session_history := session_history m ++ [completed now s] |}).
Proof.
  intros Hs. unfold finalize_session. rewrite Hs. fold (completed now s).
  by destruct (store_completed_session _ _).
Qed.

Lemma finalize_unknown (now : Clock) (sid : string) (m : Manager) :
  active_sessions m !! sid = None ->
  finalize_session now sid m = (EmptyDict, m).
Proof. intros Hs. unfold finalize_session. by rewrite Hs. Qed.

(** C8: finalize on a session id that is not active returns the empty
    dictionary and leaves the manager (active set, history, store) as
    it was; finalize on an active id returns the session stamped
    'completed' with the completion time, removes the id from the active
    set and appends that session to the history. *)
Theorem C8_finalize (now : Clock) (sid : string) (m : Manager) :
  (active_sessions m !! sid = None ->
     fst (finalize_session now sid m) = EmptyDict
     /\ snd (finalize_session now sid m) = m
     /\ active_sessions (snd (finalize_session now sid m)) = active_sessions m
     /\ session_history (snd (finalize_session now sid m)) = session_history m
     /\ memory_bank (snd (finalize_session now sid m)) = memory_bank m)
  /\ (forall s, active_sessions m !! sid = Some s ->
        let m' := snd (finalize_session now sid m) in
        let s' := completed now s in
        fst (finalize_session now sid m) = SessionDict s'
        /\ active_sessions m' = delete sid (active_sessions m)
        /\ active_sessions m' !! sid = None
        /\ (forall other, other <> sid ->
              active_sessions m' !! other = active_sessions m !! other)
        /\ status s' = "completed"
        /\ completed_at s' = Some (isoformat now)
        /\ session_id s' = session_id s
        /\ session_history m' = session_history m ++ [s']).
Proof.
  split.
  - intros Hs. by rewrite (finalize_unknown _ _ _ Hs).
  - intros s Hs. cbn zeta. rewrite (finalize_active _ _ _ _ Hs).
    cbn [fst snd active_sessions session_history].
    split; [done|]. split; [done|].
    split; [apply lookup_delete_eq|].
    split; [intros other Hne; by apply lookup_delete_ne|].
    done.
Qed.

Lemma C8_finalize_witness :
  fst (finalize_session clock_2 "atic_2" manager_1) = EmptyDict
  /\ snd (finalize_session clock_2 "atic_2" manager_1) = manager_1
  /\ active_sessions (snd (finalize_session clock_2 "atic_2" manager_1))
     = active_sessions manager_1
  /\ session_history (snd (finalize_session clock_2 "atic_2" manager_1))
     = session_history manager_1
  /\ memory_bank (snd (finalize_session clock_2 "atic_2" manager_1))
     = memory_bank manager_1.
Proof.
  apply (C8_finalize clock_2 "atic_2" manager_1). vm_compute. reflexivity.
Defined.

(** *** Initialization *)

Section InitializationProps.

Variable step1 : outcome Experience.
Variable step2 : outcome Job.
Variable step3 : string -> outcome Extraction.
Variable step4 : Experience -> Job -> Extraction -> outcome InterviewPlan.

Lemma steps_keep_identity (s : Session) :
  let s' := snd (initialization_steps step1 step2 step3 step4 s) in
  session_id s' = session_id s
  /\ created_at s' = created_at s
  /\ agent_interactions s' = agent_interactions s
  /\ error s' = error s
  /\ completed_at s' = completed_at s.
Proof.
  unfold initialization_steps, mbind, body_bind, call, modify.
  destruct step1 as [x|e]; [|done]. cbn.
  destruct step2 as [j|e]; [|done]. cbn.
  destruct (step3 (description j)) as [ext|e]; [|done]. cbn.
  destruct (step4 x j ext) as [p|e]; done.
Qed.

(** The body raises exactly when one of the four steps does, with that
    step's message; the status is then still 'initializing' and the
    profile holds what the completed steps stored. *)
Lemma steps_raise (s : Session) :
  match initialization_steps step1 step2 step3 step4 s with
  | (Raised e, s') =>
      raised_by_steps step1 step2 step3 step4 = Some e
      /\ status s' = status s
      /\ experience (user_profile s')
         = match step1 with
           | Returned x => Some x
           | Raised _ => experience (user_profile s)
           end
      /\ target_job (user_profile s')
         = match step1, step2 with
           | Returned _, Returned j => Some j
           | _, _ => target_job (user_profile s)
           end
  | (Returned _, s') =>
      raised_by_steps step1 step2 step3 step4 = None
      /\ status s' = "initialized"
  end.
Proof.
  unfold initialization_steps, raised_by_steps, mbind, body_bind, call, modify.
  destruct step1 as [x|e]; [|done]. cbn.
  destruct step2 as [j|e]; [|done]. cbn.
  destruct (step3 (description j)) as [ext|e]; [|done]. cbn.
  destruct (step4 x j ext) as [p|e]; done.
Qed.

End InitializationProps.

(** C9: if any of the four initialization steps raises, with message
    [e], then [initialize_session] still returns the session id (it
    does not raise), the session registered under that id in the active
    set has status 'failed' and the error message [e] and keeps what the
    completed steps stored, and neither the store, the history nor the
    other active sessions change. *)
Theorem C9_initialization_fails_soft
    (step1 : outcome Experience) (step2 : outcome Job)
    (step3 : string -> outcome Extraction)
    (step4 : Experience -> Job -> Extraction -> outcome InterviewPlan)
    (sid : string) (now : Clock) (m : Manager) (e : string) :
  raised_by_steps step1 step2 step3 step4 = Some e ->
  let result := initialize_session_with step1 step2 step3 step4 sid now m in
  fst result = sid
  /\ (exists s,
        active_sessions (snd result) !! sid = Some s
        /\ get_session_data sid (snd result) = Some s
        /\ status s = "failed"
        /\ error s = Some e
        /\ session_id s = sid
        /\ created_at s = isoformat now
        /\ experience (user_profile s)
           = match step1 with Returned x => Some x | Raised _ => None end
        /\ target_job (user_profile s)
           = match step1, step2 with
             | Returned _, Returned j => Some j
             | _, _ => None
             end)
  /\ memory_bank (snd result) = memory_bank m
  /\ session_history (snd result) = session_history m
  /\ (forall other, other <> sid ->
        active_sessions (snd result) !! other = active_sessions m !! other).
Proof.
  intros Hraised. cbn zeta. unfold initialize_session_with.
  pose proof (steps_raise step1 step2 step3 step4 (fresh_session sid now))
    as Hsteps.
  pose proof (steps_keep_identity step1 step2 step3 step4 (fresh_session sid now))
    as (Hid & Hcreated & _).
  destruct (initialization_steps step1 step2 step3 step4 (fresh_session sid now))
    as [[u|e'] partial].
  { destruct Hsteps as [Hnone _]. congruence. }
  destruct Hsteps as (Hsome & _ & Hexp & Hjob).
  assert (e' = e) as -> by congruence.
  cbn [fst snd active_sessions memory_bank session_history] in *.
  split; [done|]. split.
  - eexists. split; [apply lookup_insert_eq|].
    split; [unfold get_session_data; apply lookup_insert_eq|].
    cbn. rewrite Hexp, Hjob. cbn. by destruct step1, step2.
  - split; [done|]. split; [done|].
    intros other Hne. by apply lookup_insert_ne.
Qed.

Lemma C9_initialization_fails_soft_witness :
  let result :=
    initialize_session "atic_2" clock_2 (Returned experience_answers)
      (Raised "EOF when reading a line") manager_1 in
  fst result = "atic_2"
  /\ (exists s,
        active_sessions (snd result) !! "atic_2" = Some s
        /\ get_session_data "atic_2" (snd result) = Some s
        /\ status s = "failed"
        /\ error s = Some "EOF when reading a line"
        /\ session_id s = "atic_2"
        /\ created_at s = isoformat clock_2
        /\ experience (user_profile s)
           = match _gather_experience_assessment (Returned experience_answers) with
             | Returned x => Some x
             | Raised _ => None
             end
        /\ target_job (user_profile s)
           = match _gather_experience_assessment (Returned experience_answers),
                   _gather_job_description_analysis clock_2
                     (Raised "EOF when reading a line") with
             | Returned _, Returned j => Some j
             | _, _ => None
             end)
  /\ memory_bank (snd result) = memory_bank manager_1
  /\ session_history (snd result) = session_history manager_1
  /\ (forall other, other <> "atic_2" ->
        active_sessions (snd result) !! other
        = active_sessions manager_1 !! other).
Proof.
  apply (C9_initialization_fails_soft
           (_gather_experience_assessment (Returned experience_answers))
           (_gather_job_description_analysis clock_2
              (Raised "EOF when reading a line"))
           (fun jd => Returned (_perform_context_engineering jd))
           (fun e j x => Returned (_create_adaptive_interview_plan e j x))).
  reflexivity.
Defined.

(** *** Active set and history *)

Lemma store_initialization_keeps_id (now : Clock) (s : Session) (db : Store) :
  session_id (snd (fst (store_session_initialization now s db))) = session_id s.
Proof.
  unfold store_session_initialization.
  destruct (profile_nonempty (user_profile s)).
  - destruct (store_user_profile now (user_profile s) db) as [[ok p] d].
    by destruct (existsb _ _).
  - by destruct (existsb _ _).
Qed.

Lemma initialize_registers (step1 : outcome Experience) (step2 : outcome Job)
    (step3 : string -> outcome Extraction)
    (step4 : Experience -> Job -> Extraction -> outcome InterviewPlan)
    (sid : string) (now : Clock) (m : Manager) :
  let m' := snd (initialize_session_with step1 step2 step3 step4 sid now m) in
  session_history m' = session_history m
  /\ exists s, session_id s = sid
               /\ active_sessions m' = <[sid := s]> (active_sessions m).
Proof.
  cbn zeta. unfold initialize_session_with.
  pose proof (steps_keep_identity step1 step2 step3 step4 (fresh_session sid now))
    as (Hid & _).
  change (session_id (fresh_session sid now)) with sid in Hid.
  destruct (initialization_steps step1 step2 step3 step4 (fresh_session sid now))
    as [[u|e] body].
  - pose proof (store_initialization_keeps_id now body (memory_bank m)) as Hkeep.
    destruct (store_session_initialization now body (memory_bank m))
      as [[ok stored] db].
    cbn [fst snd session_history active_sessions] in *.
    split; [done|]. exists stored. split; [congruence | done].
  - cbn [fst snd session_history active_sessions] in *.
    split; [done|]. eexists. split; [|done]. cbn. exact Hid.
Qed.

Lemma orderly_call_preserves (m m' : Manager) :
  orderly_call m m' ->
  keyed_by_id m /\ history_inactive m ->
  keyed_by_id m' /\ history_inactive m'.
Proof.
  intros Hstep [Hkey Hhist]. destruct Hstep as
    [step1 step2 step3 step4 sid now m Hfresh
    | now sid status additional_data m Hkeeps
    | now sid agent_name interaction_data m
    | now sid m].
  - destruct (initialize_registers step1 step2 step3 step4 sid now m)
      as (Hh & s & Hid & Ha).
    split.
    + intros k v. rewrite Ha, lookup_insert.
      case_decide as Hk; [intros [= <-]; congruence | apply Hkey].
    + intros h Hin. rewrite Hh in Hin. rewrite Ha.
      rewrite lookup_insert_ne; [by apply Hhist|].
      intros ->. apply Hfresh. apply list_elem_of_In, in_map.
      by apply list_elem_of_In.
  - unfold update_session_status.
    destruct (active_sessions m !! sid) as [s|] eqn:Hs; [|done].
    cbn [snd]. split.
    + intros k v. cbn [active_sessions]. rewrite lookup_insert.
      case_decide as Hk; [|apply Hkey].
      intros [= <-]. subst k. rewrite <- (Hkey _ _ Hs).
      destruct additional_data as [a|]; [|reflexivity].
      destruct (additional_nonempty a); [|reflexivity].
      cbn in Hkeeps. cbn [merge_additional session_id]. by rewrite Hkeeps.
    + intros h Hin. cbn [active_sessions session_history] in *.
      rewrite lookup_insert_ne; [by apply Hhist|].
      intros ->. rewrite (Hhist h Hin) in Hs. discriminate.
  - unfold record_agent_interaction.
    destruct (active_sessions m !! sid) as [s|] eqn:Hs; [|done].
    cbn [snd]. split.
    + intros k v. cbn [active_sessions]. rewrite lookup_insert.
      case_decide as Hk; [|apply Hkey].
      intros [= <-]. subst k. by rewrite <- (Hkey _ _ Hs).
    + intros h Hin. cbn [active_sessions session_history] in *.
      rewrite lookup_insert_ne; [by apply Hhist|].
      intros ->. rewrite (Hhist h Hin) in Hs. discriminate.
  - destruct (active_sessions m !! sid) as [s|] eqn:Hs.
    + rewrite (finalize_active _ _ _ _ Hs). cbn [snd]. split.
      * intros k v. cbn [active_sessions]. rewrite lookup_delete.
        case_decide; [done | apply Hkey].
      * intros h Hin. cbn [active_sessions session_history] in *.
        apply elem_of_app in Hin as [Hin | Hin].
        -- rewrite lookup_delete. case_decide; [done | by apply Hhist].
        -- apply list_elem_of_singleton in Hin as ->.
           change (session_id (completed now s)) with (session_id s).
           rewrite (Hkey _ _ Hs). apply lookup_delete_eq.
    + by rewrite (finalize_unknown _ _ _ Hs).
Qed.

Lemma orderly_invariant (m : Manager) :
  orderly m -> keyed_by_id m /\ history_inactive m.
Proof.
  induction 1 as [db | m m' _ IH Hstep].
  - split.
    + intros sid s. cbn. by rewrite lookup_empty.
    + intros s Hin. cbn in Hin. by apply elem_of_nil in Hin.
  - by apply (orderly_call_preserves m m').
Qed.

Lemma manager_1_orderly : orderly manager_1.
Proof.
  apply (orderly_step (new_manager empty_store)); [constructor|].
  unfold manager_1, initialize_session. apply orderly_initialize.
  cbn. apply not_elem_of_nil.
Qed.

Lemma manager_1_active : is_Some (active_sessions manager_1 !! "atic_1").
Proof.
  unfold manager_1, initialize_session.
  destruct (initialize_registers
              (_gather_experience_assessment (Returned experience_answers))
              (_gather_job_description_analysis clock_1 (Returned job_answers))
              (fun jd => Returned (_perform_context_engineering jd))
              (fun e j x => Returned (_create_adaptive_interview_plan e j x))
              "atic_1" clock_1 (new_manager empty_store))
    as (_ & s & _ & ->).
  rewrite lookup_insert_eq. by eexists.
Qed.

(** C10, as stated, fails in its last clause: the history and the
    active set can hold sessions with the same id. Calls of the manager
    produce [manager_4]: two sessions are initialized, an update of the
    first carries the entry 'session_id': "atic_2" (which [dict.update]
    writes into the session dictionary), and the first is finalized.
    The one session of the history then has the id "atic_2", under
    which the active set still answers. *)
Lemma C10_shared_id_counterexample :
  produced manager_4
  /\ List.map session_id (session_history manager_4) = ["atic_2"]
  /\ session_id <$> get_session_data "atic_2" manager_4 = Some "atic_2"
  /\ fst (record_agent_interaction clock_2 "atic_2" "interviewer" [] manager_4)
     = true
  /\ fst (update_session_status clock_2 "atic_2" "in_progress" None manager_4)
     = true.
Proof.
  split.
  - unfold manager_4, manager_3, manager_2, manager_1, initialize_session.
    repeat (eapply produced_call; [|constructor]). constructor.
  - by vm_compute.
Qed.

(** C10 (amended): after the finalize of an active session id, that id
    is no longer addressable, whatever the manager: [get_session_data]
    returns None, [record_agent_interaction] and
    [update_session_status] return False and change nothing, the id is
    not a key of the active set, and the session that was registered
    under it is the last one of the history. That no id of a history
    session is a key of the active set holds for the managers of
    orderly calls only, in which no initialization draws the id of a
    finalized session and no update overwrites 'session_id'; there
    the finalized session carries the id and status 'completed'. *)
Theorem C10_finalized_not_addressable (m : Manager) (now : Clock) (sid : string) :
  is_Some (active_sessions m !! sid) ->
  let m' := snd (finalize_session now sid m) in
  get_session_data sid m' = None
  /\ (forall now' agent_name interaction_data,
        record_agent_interaction now' sid agent_name interaction_data m'
        = (false, m'))
  /\ (forall now' status additional_data,
        update_session_status now' sid status additional_data m' = (false, m'))
  /\ (sid ∉ dom (active_sessions m'))
  /\ (exists s, active_sessions m !! sid = Some s
                /\ session_history m' = session_history m ++ [completed now s]
                /\ status (completed now s) = "completed")
  /\ (orderly m ->
        (exists s, s ∈ session_history m' /\ session_id s = sid
                   /\ status s = "completed")
        /\ (forall s, s ∈ session_history m' ->
              active_sessions m' !! session_id s = None)).
Proof.
  intros [s Hs]. cbn zeta.
  assert (Hgone : active_sessions (snd (finalize_session now sid m)) !! sid = None).
  { rewrite (finalize_active _ _ _ _ Hs). apply lookup_delete_eq. }
  split; [exact Hgone|].
  split; [intros; unfold record_agent_interaction; by rewrite Hgone|].
  split; [intros; unfold update_session_status; by rewrite Hgone|].
  split; [by apply not_elem_of_dom|].
  split.
  { exists s. split; [done|]. by rewrite (finalize_active _ _ _ _ Hs). }
  intros Horderly.
  assert (Horderly' : orderly (snd (finalize_session now sid m))).
  { apply (orderly_step m); [done | constructor]. }
  destruct (orderly_invariant _ Horderly) as [Hkey _].
  destruct (orderly_invariant _ Horderly') as [_ Hhist'].
  split; [|exact Hhist'].
  exists (completed now s). rewrite (finalize_active _ _ _ _ Hs).
  cbn [snd session_history]. split; [|split].
  - apply elem_of_app. right. by apply list_elem_of_singleton.
  - exact (Hkey _ _ Hs).
  - reflexivity.
Qed.

Lemma C10_finalized_not_addressable_witness :
  let m' := snd (finalize_session clock_2 "atic_1" manager_1) in
  get_session_data "atic_1" m' = None
  /\ (forall now' agent_name interaction_data,
        record_agent_interaction now' "atic_1" agent_name interaction_data m'
        = (false, m'))
  /\ (forall now' status additional_data,
        update_session_status now' "atic_1" status additional_data m'
        = (false, m'))
  /\ ("atic_1" ∉ dom (active_sessions m'))
  /\ (exists s, active_sessions manager_1 !! "atic_1" = Some s
                /\ session_history m'
                   = session_history manager_1 ++ [completed clock_2 s]
                /\ status (completed clock_2 s) = "completed")
  /\ (orderly manager_1 ->
        (exists s, s ∈ session_history m' /\ session_id s = "atic_1"
                   /\ status s = "completed")
        /\ (forall s, s ∈ session_history m' ->
              active_sessions m' !! session_id s = None)).
Proof.
  exact (C10_finalized_not_addressable manager_1 clock_2 "atic_1"
           manager_1_active).
Defined.

(** The description that step 2 hands to the extractor is never blank
    (a blank paste is replaced by the generic sentence), so within
    [initialize_session] the extractor never returns the default
    template. *)
Lemma gathered_description_not_blank (now : Clock) (d : JobDialogue) (j : Job) :
  _gather_job_description_analysis now (Returned d) = Returned j ->
  blank (description j) = false.
Proof.
  unfold _gather_job_description_analysis. intros [= <-]. cbn [description].
  destruct (blank (join_lines (job_description_lines d))) eqn:Hpaste;
    [|exact Hpaste].
  unfold blank, strip.
  change ("Generic " +:+ ?x) with (String "G" ("eneric " +:+ x)).
  assert (Hlstrip : forall t, lstrip (String "G" t) = String "G" t) by done.
  rewrite Hlstrip. cbn [rstrip].
  by destruct (rstrip _).
Qed.


End ManagerProps.

(** * Further properties of the code *)

(** ** Python strings, continued *)

Module PyStrFacts.
Import PyStr.

Ltac each_char c := destruct c as [[] [] [] [] [] [] [] []]; reflexivity.

Lemma lower_char_not_upper (c : ascii) : isupper (lower_char c) = false.
Proof. each_char c. Qed.

Lemma lower_char_idem (c : ascii) : lower_char (lower_char c) = lower_char c.
Proof. each_char c. Qed.

Lemma isspace_lower_char (c : ascii) : isspace (lower_char c) = isspace c.
Proof. each_char c. Qed.

Lemma lower_idem (s : string) : lower (lower s) = lower s.
Proof.
  induction s as [|c s IH]; [reflexivity|]. cbn. by rewrite lower_char_idem, IH.
Qed.

Lemma lstrip_lower (s : string) : lstrip (lower s) = lower (lstrip s).
Proof.
  induction s as [|c s IH]; [reflexivity|]. cbn.
  rewrite isspace_lower_char. by destruct (isspace c).
Qed.

Lemma rstrip_lower (s : string) : rstrip (lower s) = lower (rstrip s).
Proof.
  induction s as [|c s IH]; [reflexivity|]. cbn [lower rstrip].
  rewrite IH, isspace_lower_char.
  destruct (rstrip s); cbn [lower]; [by destruct (isspace c) | done].
Qed.

Lemma strip_lower (s : string) : strip (lower s) = lower (strip s).
Proof. unfold strip. by rewrite lstrip_lower, rstrip_lower. Qed.

Lemma blank_lower (s : string) : blank (lower s) = blank s.
Proof.
  unfold blank. rewrite strip_lower. by destruct (strip s).
Qed.

Lemma append_cons (c : ascii) (a b : string) :
  String c a +:+ b = String c (a +:+ b).
Proof. reflexivity. Qed.

Lemma append_empty (b : string) : "" +:+ b = b.
Proof. reflexivity. Qed.

(** A prefix is what a string starts with. *)
Lemma prefix_iff (a s : string) :
  String.prefix a s = true <-> exists post, s = a +:+ post.
Proof.
  revert s. induction a as [|c a IH]; intros s.
  - split; [intros _; by exists s | intros _; by destruct s].
  - destruct s as [|d s]; cbn [String.prefix].
    + split; [discriminate | intros [post Hpost]; discriminate].
    + destruct (Ascii.ascii_dec c d) as [->|Hne].
      * rewrite IH. split; intros [post Hpost]; exists post;
          rewrite append_cons in *; congruence.
      * split; [discriminate|].
        intros [post Hpost]. rewrite append_cons in Hpost. congruence.
Qed.

(** [needle in hay]: the needle lies somewhere inside the string. *)
Lemma contains_iff (a s : string) :
  contains a s = true <-> exists pre post, s = pre +:+ a +:+ post.
Proof.
  induction s as [|d s IH].
  - cbn [contains]. rewrite orb_false_r, prefix_iff. split.
    + intros [post Hpost]. by exists "", post.
    + intros (pre & post & Hs). destruct pre; [by exists post|discriminate].
  - cbn [contains]. rewrite orb_true_iff, prefix_iff, IH. split.
    + intros [[post Hpost] | (pre & post & Hs)].
      * by exists "", post.
      * exists (String d pre), post. by rewrite append_cons, Hs.
    + intros (pre & post & Hs). destruct pre as [|e pre].
      * left. by exists post.
      * right. exists pre, post. rewrite append_cons in Hs. congruence.
Qed.

Lemma append_assoc (a b c : string) : (a +:+ b) +:+ c = a +:+ b +:+ c.
Proof.
  induction a as [|x a IH]; [done|]. by rewrite !append_cons, IH.
Qed.

(** A part of a part is a part. *)
Lemma contains_trans (a b s : string) :
  contains a b = true -> contains b s = true -> contains a s = true.
Proof.
  rewrite !contains_iff. intros (p1 & q1 & ->) (p2 & q2 & ->).
  exists (p2 +:+ p1), (q1 +:+ q2). by rewrite !append_assoc.
Qed.

End PyStrFacts.

(** ** Requirement extraction, continued *)

Module ExtractorExtras.
Import PyStr Extractor ExtractorSpec PyStrProps PyStrFacts.

(** X1: the extraction does not depend on the case of the letters: two
    descriptions with the same lower-case form have the same extraction. *)
Theorem extraction_ignores_case (a b : string) :
  lower a = lower b ->
  _perform_context_engineering a = _perform_context_engineering b.
Proof.
  intros Hlower.
  assert (Hblank : blank a = blank b).
  { rewrite <- (blank_lower a), <- (blank_lower b). by rewrite Hlower. }
  unfold _perform_context_engineering. by rewrite Hblank, Hlower.
Qed.

Lemma extraction_ignores_case_witness :
  _perform_context_engineering "SENIOR Python Developer"
  = _perform_context_engineering "senior python developer".
Proof. apply extraction_ignores_case. reflexivity. Defined.

Lemma concat_map_filter {A} (p : A -> bool) (ls : list (list A)) :
  concat (List.map (List.filter p) ls) = List.filter p (concat ls).
Proof.
  induction ls as [|l ls IH]; [reflexivity|].
  cbn. by rewrite IH, List.filter_app.
Qed.

Lemma extract_stack_filter (jd_lower : string) :
  extract_stack jd_lower
  = List.filter (fun k => contains k jd_lower) all_keywords.
Proof.
  unfold extract_stack, all_keywords, found_in.
  rewrite <- concat_map_filter. by rewrite List.map_map.
Qed.

Lemma NoDup_list_filter {A} (p : A -> bool) (l : list A) :
  NoDup l -> NoDup (List.filter p l).
Proof.
  induction 1 as [|x l Hx Hnd IH]; cbn; [constructor|].
  destruct (p x); [|done]. constructor; [|done].
  intros Hin. apply Hx. apply list_elem_of_In, filter_In in Hin as [Hin _].
  by apply list_elem_of_In.
Qed.

Lemma all_keywords_NoDup : NoDup all_keywords.
Proof. apply (bool_decide_unpack _). by vm_compute. Qed.

Lemma stack_of_description (job_description : string) :
  blank job_description = false ->
  technology_stack (_perform_context_engineering job_description)
  = extract_stack (lower job_description).
Proof.
  intros Hblank. unfold _perform_context_engineering. rewrite Hblank.
  by destruct (detect_seniority _ _).
Qed.

Lemma stack_membership (job_description k : string) :
  blank job_description = false ->
  k ∈ technology_stack (_perform_context_engineering job_description)
  <-> k ∈ all_keywords /\ contains k (lower job_description) = true.
Proof.
  intros Hblank.
  rewrite (stack_of_description _ Hblank), extract_stack_filter.
  rewrite list_elem_of_In, filter_In, <- list_elem_of_In. tauto.
Qed.

(** X2: for a description that is not blank, the technology stack lists
    exactly the keywords of the five tables that occur in the lower-case
    description, each of them once (so at most 40 entries). *)
Theorem technology_stack_exact (job_description : string) :
  blank job_description = false ->
  let stack :=
    technology_stack (_perform_context_engineering job_description) in
  NoDup stack
  /\ (length stack <= 40)%nat
  /\ forall k, k ∈ stack
               <-> k ∈ all_keywords
                   /\ contains k (lower job_description) = true.
Proof.
  intros Hblank. cbn zeta.
  rewrite (stack_of_description _ Hblank), extract_stack_filter.
  split; [apply NoDup_list_filter, all_keywords_NoDup|]. split.
  - etransitivity; [apply List.filter_length_le|]. by vm_compute.
  - intros k. rewrite list_elem_of_In, filter_In, <- list_elem_of_In. tauto.
Qed.

Lemma technology_stack_exact_witness :
  "python" ∈ technology_stack
               (_perform_context_engineering "We use Python and Docker").
Proof.
  apply (technology_stack_exact "We use Python and Docker"); [reflexivity|].
  split; [|reflexivity]. apply mem_true_iff. reflexivity.
Defined.

Lemma any_in_mentions (job_description : string) (words : list string) :
  any_in (lower job_description) words = true
  <-> mentions job_description words.
Proof.
  unfold any_in, mentions. rewrite existsb_exists.
  split; intros (k & Hk & Hc); exists k; (split; [|done]);
    by apply list_elem_of_In.
Qed.

Lemma responsibilities_of_description (job_description : string) :
  blank job_description = false ->
  responsibility_categories (_perform_context_engineering job_description)
  = extract_responsibilities (lower job_description).
Proof.
  intros Hblank. unfold _perform_context_engineering. rewrite Hblank.
  by destruct (detect_seniority _ _).
Qed.

Lemma focus_of_description (job_description : string) :
  blank job_description = false ->
  interview_focus_areas (_perform_context_engineering job_description)
  = derive_focus_areas (extract_stack (lower job_description))
      (extract_responsibilities (lower job_description)).
Proof.
  intros Hblank. unfold _perform_context_engineering. rewrite Hblank.
  by destruct (detect_seniority _ _).
Qed.

(** Each of the three derived focus areas follows its responsibility. *)
Lemma focus_follows_responsibility (stack resp : list string) :
  ("coding_problems" ∈ derive_focus_areas stack resp <-> "coding" ∈ resp)
  /\ ("system_design" ∈ derive_focus_areas stack resp
      <-> "system_design" ∈ resp)
  /\ ("behavioral_leadership" ∈ derive_focus_areas stack resp
      <-> "leadership" ∈ resp)
  /\ ("technical_knowledge" ∈ derive_focus_areas stack resp <-> stack <> []).
Proof.
  rewrite <- !mem_true_iff. unfold derive_focus_areas.
  destruct stack as [|s stack];
    destruct (mem "coding" resp), (mem "system_design" resp),
      (mem "leadership" resp); cbn;
    repeat split; intros; try done; try (by apply mem_true_iff);
    try (exfalso;
         match goal with H : _ ∈ _ |- _ => apply mem_true_iff in H end;
         discriminate).
Qed.

(** X3: the matching is by substring, so a keyword that contains a
    shorter keyword brings it along: a stack with javascript has java,
    one with mysql or postgresql has sql; and a description that names
    microservices gets the system_design responsibility and focus area. *)
Theorem substring_matches_come_along (job_description : string) :
  blank job_description = false ->
  let e := _perform_context_engineering job_description in
  ("javascript" ∈ technology_stack e -> "java" ∈ technology_stack e)
  /\ ("mysql" ∈ technology_stack e -> "sql" ∈ technology_stack e)
  /\ ("postgresql" ∈ technology_stack e -> "sql" ∈ technology_stack e)
  /\ ("microservices" ∈ technology_stack e ->
        "system_design" ∈ responsibility_categories e
        /\ "system_design" ∈ interview_focus_areas e).
Proof.
  intros Hblank. cbn zeta.
  assert (Hstack := fun k => stack_membership job_description k Hblank).
  assert (Hsub : forall long short,
            short ∈ all_keywords -> contains short long = true ->
            long ∈ technology_stack (_perform_context_engineering job_description) ->
            short ∈ technology_stack (_perform_context_engineering job_description)).
  { intros long short Hkey Hpart Hlong. apply Hstack in Hlong as [_ Hlong].
    apply Hstack. split; [done|]. by apply (contains_trans _ long). }
  split; [apply Hsub; [by apply mem_true_iff | reflexivity]|].
  split; [apply Hsub; [by apply mem_true_iff | reflexivity]|].
  split; [apply Hsub; [by apply mem_true_iff | reflexivity]|].
  intros Hmicro. apply Hstack in Hmicro as [_ Hmicro].
  assert (Hresp : "system_design"
                    ∈ extract_responsibilities (lower job_description)).
  { unfold extract_responsibilities.
    apply list_elem_of_In, in_map_iff.
    exists ("system_design",
            ["system design"; "architecture"; "scalable"; "distributed";
             "microservices"]).
    split; [reflexivity|]. apply filter_In. split; [by left|].
    cbn [snd]. unfold any_in. apply existsb_exists.
    exists "microservices". split; [|done]. cbn. tauto. }
  rewrite (responsibilities_of_description _ Hblank),
    (focus_of_description _ Hblank).
  split; [done|]. by apply focus_follows_responsibility.
Qed.

Lemma substring_matches_come_along_witness :
  "java" ∈ technology_stack
             (_perform_context_engineering "JavaScript developer").
Proof.
  apply (substring_matches_come_along "JavaScript developer");
    [reflexivity|]. apply mem_true_iff. reflexivity.
Defined.

Lemma seniority_of_description (job_description : string) :
  blank job_description = false ->
  let e := _perform_context_engineering job_description in
  let found := detect_seniority (lower job_description) seniority_table in
  seniority_indicators e = snd found
  /\ complexity_level e
     = derive_complexity (fst found) (responsibility_categories e).
Proof.
  intros Hblank. cbn zeta. unfold _perform_context_engineering.
  rewrite Hblank. by destruct (detect_seniority _ _).
Qed.

(** X4: the seniority groups are tried in the order senior, mid,
    junior. A description that mentions a senior indicator is
    'advanced' and records only senior indicators, whatever junior
    words it also has; a description is 'beginner' exactly when it
    mentions a junior indicator, no senior and no mid indicator, and
    matches at most three responsibility categories. *)
Theorem seniority_precedence (job_description : string) :
  blank job_description = false ->
  let e := _perform_context_engineering job_description in
  (mentions job_description senior_indicators ->
     complexity_level e = "advanced"
     /\ seniority_indicators e
        = found_in (lower job_description) senior_indicators)
  /\ (complexity_level e = "beginner"
      <-> ~ mentions job_description senior_indicators
          /\ ~ mentions job_description mid_indicators
          /\ mentions job_description junior_indicators
          /\ (length (responsibility_categories e) <= 3)%nat)
  /\ complexity_level e ∈ ["beginner"; "intermediate"; "advanced"].
Proof.
  intros Hblank. cbn zeta.
  destruct (seniority_of_description _ Hblank) as [-> ->].
  rewrite <- !any_in_mentions.
  change senior_indicators
    with ["senior"; "lead"; "principal"; "architect"; "5+ years"; "mentor";
          "leadership"].
  change mid_indicators
    with ["mid-level"; "3-5 years"; "experienced"; "solid experience"].
  change junior_indicators
    with ["junior"; "entry-level"; "0-2 years"; "new graduate";
          "recent graduate"].
  unfold seniority_table. cbn [detect_seniority].
  set (resp := responsibility_categories _).
  destruct (any_in (lower job_description)
              ["senior"; "lead"; "principal"; "architect"; "5+ years";
               "mentor"; "leadership"]) eqn:Hsenior.
  { cbn [fst snd]. unfold derive_complexity. cbn.
    repeat split; try done; try (intros; by destruct_and?).
    apply mem_true_iff. reflexivity. }
  destruct (any_in (lower job_description)
              ["mid-level"; "3-5 years"; "experienced"; "solid experience"])
    eqn:Hmid.
  { cbn [fst snd]. unfold derive_complexity. cbn [String.eqb orb].
    change (String.eqb "mid" "senior") with false.
    change (String.eqb "mid" "junior") with false. cbn [orb].
    destruct (3 <? Z.of_nat (length resp));
      repeat split; try done; try (intros; by destruct_and?);
      apply mem_true_iff; reflexivity. }
  destruct (any_in (lower job_description)
              ["junior"; "entry-level"; "0-2 years"; "new graduate";
               "recent graduate"]) eqn:Hjunior.
  - cbn [fst snd]. unfold derive_complexity.
    change (String.eqb "junior" "senior") with false.
    change (String.eqb "junior" "junior") with true. cbn [orb].
    destruct (Z.ltb_spec 3 (Z.of_nat (length resp))) as [Hmany|Hfew].
    + repeat split; try done; try (intros; destruct_and?; lia).
      apply mem_true_iff. reflexivity.
    + repeat split; try done; try lia. apply mem_true_iff. reflexivity.
  - cbn [fst snd]. unfold derive_complexity.
    change (String.eqb "mid" "senior") with false.
    change (String.eqb "mid" "junior") with false. cbn [orb].
    destruct (3 <? Z.of_nat (length resp));
      repeat split; try done; try (intros; by destruct_and?);
      apply mem_true_iff; reflexivity.
Qed.

Lemma seniority_precedence_witness :
  complexity_level
    (_perform_context_engineering "Junior developer, reports to the tech lead")
  = "advanced".
Proof.
  apply (seniority_precedence "Junior developer, reports to the tech lead");
    [reflexivity|].
  exists "lead". split; [|reflexivity]. apply mem_true_iff. reflexivity.
Defined.

Lemma focus_areas_known (job_description : string) :
  let focus :=
    interview_focus_areas (_perform_context_engineering job_description) in
  focus <> [] /\ forall a, a ∈ focus -> a ∈ known_focus_areas.
Proof.
  cbn zeta. destruct (blank job_description) eqn:Hblank.
  - unfold _perform_context_engineering. rewrite Hblank.
    cbn [_get_default_extraction_template interview_focus_areas].
    split; [done|].
    intros a Ha. apply mem_true_iff. apply mem_true_iff in Ha.
    revert Ha. cbn. rewrite !orb_false_r. intros Ha.
    apply orb_true_iff in Ha as [Ha|Ha]; apply String.eqb_eq in Ha;
      by subst.
  - rewrite (focus_of_description _ Hblank). unfold derive_focus_areas.
    destruct (extract_stack (lower job_description)) as [|s stack];
      destruct (mem "coding" _), (mem "system_design" _), (mem "leadership" _);
      cbn [app];
      (split; [done|]);
      intros a Ha; apply mem_true_iff; apply mem_true_iff in Ha;
      revert Ha; cbn; rewrite ?orb_false_r; intros Ha;
      repeat (apply orb_true_iff in Ha as [Ha|Ha]);
      apply String.eqb_eq in Ha; by subst.
Qed.

(** X5: every extraction, the default template included, names at
    least one focus area, names none twice and only the five known
    ones; general_technical is never listed beside another area. *)
Theorem focus_areas_shape (job_description : string) :
  let focus :=
    interview_focus_areas (_perform_context_engineering job_description) in
  focus <> []
  /\ NoDup focus
  /\ (forall a, a ∈ focus -> a ∈ known_focus_areas)
  /\ ("general_technical" ∈ focus -> focus = ["general_technical"]).
Proof.
  cbn zeta. destruct (blank job_description) eqn:Hblank.
  - unfold _perform_context_engineering. rewrite Hblank.
    cbn [_get_default_extraction_template interview_focus_areas].
    split; [done|]. split; [apply (bool_decide_unpack _); by vm_compute|].
    split.
    + intros a Ha. apply mem_true_iff. apply mem_true_iff in Ha.
      revert Ha. cbn. rewrite !orb_false_r. intros Ha.
      apply orb_true_iff in Ha as [Ha|Ha]; apply String.eqb_eq in Ha;
        by subst.
    + intros Ha. apply mem_true_iff in Ha. discriminate.
  - rewrite (focus_of_description _ Hblank). unfold derive_focus_areas.
    destruct (extract_stack (lower job_description)) as [|s stack];
      destruct (mem "coding" _), (mem "system_design" _), (mem "leadership" _);
      cbn [app];
      (split; [done|]);
      (split; [apply (bool_decide_unpack _); by vm_compute|]);
      (split;
       [intros a Ha; apply mem_true_iff; apply mem_true_iff in Ha;
        revert Ha; cbn; rewrite ?orb_false_r; intros Ha;
        repeat (apply orb_true_iff in Ha as [Ha|Ha]);
        apply String.eqb_eq in Ha; by subst
       |intros Ha; apply mem_true_iff in Ha; try discriminate; done]).
Qed.

End ExtractorExtras.

(** ** Plan building, continued *)

Module PlannerExtras.
Import PyStr Extractor Planner ExtractorSpec PlannerSpec PyStrProps
  ExtractorExtras.

Ltac sublist_step :=
  first [ apply sublist_nil_l | apply sublist_skip | apply sublist_cons ].

Ltac in_table :=
  repeat first [ apply list_elem_of_here | apply list_elem_of_further ].

(** X6: whatever the inputs, the phases of a plan are taken from the
    four known ones, in the fixed order and without repetition, each
    with its fixed duration and question count and with the user's or
    the job's level as difficulty; the estimated duration is the sum of
    the phase durations, between 0 and 80 minutes, and is 0 only for a
    plan without phases. *)
Theorem plan_shape (experience_data : Experience) (job_data : Job)
    (extracted_skills : Extraction) :
  let plan :=
    _create_adaptive_interview_plan experience_data job_data extracted_skills in
  let phases := session_structure plan in
  List.map phase phases `sublist_of` phase_order
  /\ Forall (fun p => phase_row p ∈ phase_table) phases
  /\ Forall (fun p => difficulty p = experience_level experience_data
                      \/ difficulty p = complexity_level extracted_skills)
       phases
  /\ estimated_duration plan = sum_Z (List.map duration_minutes phases)
  /\ 0 <= estimated_duration plan <= 80
  /\ (estimated_duration plan = 0 <-> phases = []).
Proof.
  cbn zeta. cbn [_create_adaptive_interview_plan session_structure
                 estimated_duration].
  unfold build_phases, _match_difficulty_to_gap.
  set (user := experience_level experience_data).
  set (job := complexity_level extracted_skills).
  set (focus := interview_focus_areas extracted_skills).
  destruct (dict_get seniority_levels user 2 <? dict_get seniority_levels job 2);
    destruct (mem "coding_problems" focus), (mem "system_design" focus),
      (mem "technical_knowledge" focus),
      (mem "behavioral_leadership" focus || mem user ["mid"; "senior"]);
    cbn;
    (split; [repeat sublist_step|]);
    (split;
     [repeat (apply List.Forall_cons; [in_table|]); apply List.Forall_nil|]);
    (split;
     [repeat (apply List.Forall_cons;
              [first [left; reflexivity | right; reflexivity]|]);
      apply List.Forall_nil|]);
    (split; [reflexivity|]);
    (split; [lia|]);
    split; intros; first [done | lia | discriminate].
Qed.

Lemma known_focus_mapping (a : string) :
  a ∈ known_focus_areas ->
  dict_get category_mapping a ["general"] <> []
  /\ ("general" ∉ dict_get category_mapping a ["general"])
  /\ forall c, c ∈ dict_get category_mapping a ["general"] ->
               c ∈ known_question_categories.
Proof.
  unfold known_focus_areas. rewrite !elem_of_cons, elem_of_nil.
  intros [-> | [-> | [-> | [-> | [-> | []]]]]];
    (split; [done|]);
    (split; [intros H; apply mem_true_iff in H; discriminate|]);
    intros c Hc; apply mem_true_iff; apply mem_true_iff in Hc;
    revert Hc; cbn; rewrite ?orb_false_r; intros Hc;
    repeat (apply orb_true_iff in Hc as [Hc|Hc]);
    apply String.eqb_eq in Hc; by subst.
Qed.

Lemma elem_of_question_categories (focus : list string) (c : string) :
  c ∈ _map_focus_to_question_categories focus
  <-> exists a, a ∈ focus /\ c ∈ dict_get category_mapping a ["general"].
Proof.
  unfold _map_focus_to_question_categories.
  rewrite elem_of_list_to_set, list_elem_of_In, in_concat. split.
  - intros (l & Hl & Hc). apply in_map_iff in Hl as (a & <- & Ha).
    exists a. by rewrite !list_elem_of_In.
  - intros (a & Ha & Hc). exists (dict_get category_mapping a ["general"]).
    split; [|by apply list_elem_of_In].
    apply in_map_iff. exists a. split; [done|]. by apply list_elem_of_In.
Qed.

(** X7: for an extraction made by the extractor, the question
    categories of the plan are those of its focus areas: there is at
    least one, each is one of the twelve categories of the mapping, and
    the fallback category 'general' (kept for unknown focus areas) never
    appears. *)
Theorem question_categories_known (experience_data : Experience)
    (job_data : Job) (job_description : string) :
  let plan :=
    _create_adaptive_interview_plan experience_data job_data
      (_perform_context_engineering job_description) in
  question_categories plan <> ∅
  /\ ("general" ∉ question_categories plan)
  /\ forall c, c ∈ question_categories plan -> c ∈ known_question_categories.
Proof.
  cbn zeta. cbn [_create_adaptive_interview_plan question_categories].
  destruct (ExtractorExtras.focus_areas_known job_description)
    as (Hne & Hknown).
  set (focus := interview_focus_areas _) in *.
  split; [|split].
  - destruct focus as [|a focus']; [done|].
    destruct (known_focus_mapping a) as (Hmap & _); [apply Hknown; by left|].
    destruct (dict_get category_mapping a ["general"]) as [|c l] eqn:Hl; [done|].
    intros Hempty.
    assert (Hc : c ∈ _map_focus_to_question_categories (a :: focus')).
    { apply elem_of_question_categories. exists a. split; [by left|].
      rewrite Hl. by left. }
    rewrite Hempty in Hc. by apply elem_of_empty in Hc.
  - intros Hgeneral.
    apply elem_of_question_categories in Hgeneral as (a & Ha & Hc).
    by destruct (known_focus_mapping a (Hknown a Ha)) as (_ & Hno & _).
  - intros c Hc. apply elem_of_question_categories in Hc as (a & Ha & Hc).
    destruct (known_focus_mapping a (Hknown a Ha)) as (_ & _ & Hin).
    by apply Hin.
Qed.

(** X8: the experience level is one of junior, mid and senior, and
    more years of experience never give a lower level. *)
Theorem experience_level_monotone (years1 years2 : Z) :
  years1 <= years2 ->
  level_rank (_categorize_experience_level years1)
  <= level_rank (_categorize_experience_level years2)
  /\ _categorize_experience_level years1 ∈ ["junior"; "mid"; "senior"].
Proof.
  intros Hle. unfold _categorize_experience_level.
  destruct (Z.leb_spec years1 2), (Z.leb_spec years1 5),
    (Z.leb_spec years2 2), (Z.leb_spec years2 5);
    try lia; (split; [by vm_compute | apply mem_true_iff; reflexivity]).
Qed.

Lemma experience_level_monotone_witness :
  level_rank (_categorize_experience_level 1)
  <= level_rank (_categorize_experience_level 7)
  /\ _categorize_experience_level 1 ∈ ["junior"; "mid"; "senior"].
Proof. apply experience_level_monotone. lia. Defined.

End PlannerExtras.

(** ** The profile store, continued *)

Module StoreExtras.
Import PyStr SessionData MemoryBank StoreQueries StoreSpec Purge.



(** A lookup after an UPDATE of the rows that satisfy [q]. *)
Lemma find_map_update {A} (p q : A -> bool) (f : A -> A) (l : list A) :
  (forall r, p (f r) = p r) ->
  List.find p (List.map (fun r => if q r then f r else r) l)
  = (fun r => if q r then f r else r) <$> List.find p l.
Proof.
  intros Hp. induction l as [|a l IH]; cbn; [done|].
  destruct (q a) eqn:Hq.
  - rewrite Hp. destruct (p a); cbn; [by rewrite Hq | done].
  - destruct (p a); cbn; [by rewrite Hq | done].
Qed.



Lemma existsb_false_not_in (ids : list string) (k : string) :
  existsb (fun x => String.eqb x k) ids = false -> k ∉ ids.
Proof.
  intros Hno Hin. apply list_elem_of_In in Hin.
  assert (existsb (fun x => String.eqb x k) ids = true) as Hyes.
  { apply existsb_exists. exists k. split; [done | apply String.eqb_refl]. }
  congruence.
Qed.

Lemma existsb_map {A B} (f : A -> B) (p : B -> bool) (l : list A) :
  existsb (fun x => p (f x)) l = existsb p (List.map f l).
Proof. induction l as [|a l IH]; cbn; [done | by rewrite IH]. Qed.

Lemma NoDup_snoc_fresh {A} (l : list A) (x : A) :
  NoDup l -> x ∉ l -> NoDup (l ++ [x]).
Proof.
  intros Hl Hx. apply NoDup_app. split; [done|]. split.
  - intros y Hy Hy'. apply list_elem_of_singleton in Hy'. by subst.
  - apply NoDup_singleton.
Qed.

(** The keys of the profile table after an upsert. *)
Lemma user_ids_after_store (now : Clock) (profile_data : UserProfile)
    (db : Store) :
  let db' := snd (store_user_profile now profile_data db) in
  (user_ids db' = user_ids db
   \/ ((filed_under now profile_data ∉ user_ids db)
       /\ user_ids db' = user_ids db ++ [filed_under now profile_data]))
  /\ sessions db' = sessions db
  /\ performance_metrics db' = performance_metrics db
  /\ metric_seq db' = metric_seq db.
Proof.
  cbn zeta. unfold store_user_profile. fold (filed_under now profile_data).
  destruct (sqlite_integer _); [|cbn [snd]; split; [by left | done]].
  cbn [snd]. unfold user_ids. cbn [user_profiles with_user_profiles sessions
    performance_metrics metric_seq].
  split; [|done].
  destruct (existsb _ (user_profiles db)) eqn:Hexists.
  - left. rewrite List.map_map. apply List.map_ext. intros r.
    by destruct (String.eqb _ _).
  - right. rewrite List.map_app. split; [|done].
    apply existsb_false_not_in.
    by rewrite <- (existsb_map UserProfileRow.user_id
                     (fun x => String.eqb x (filed_under now profile_data))).
Qed.

(** The ids that a run of INSERTs draws from the counter. *)
Lemma insert_metrics_ids (sid uid ts name : string)
    (scores : list (string * float)) (seq : Z) :
  let rows := fst (insert_metrics sid uid ts name scores seq) in
  let seq' := snd (insert_metrics sid uid ts name scores seq) in
  seq' = seq + Z.of_nat (length scores)
  /\ length rows = length scores
  /\ NoDup (List.map MetricRow.metric_id rows)
  /\ Forall (fun i => seq < i <= seq') (List.map MetricRow.metric_id rows)
  /\ Forall (fun m => MetricRow.session_id m = sid
                      /\ MetricRow.user_id m = uid
                      /\ MetricRow.recorded_at m = ts
                      /\ MetricRow.metric_name m = name) rows
  /\ List.map (fun m => (MetricRow.category m, MetricRow.metric_value m)) rows
     = scores.
Proof.
  cbn zeta. revert seq.
  induction scores as [|[cat score] scores IH]; intros seq.
  - cbn. repeat split; try constructor. lia.
  - cbn [insert_metrics].
    destruct (IH (seq + 1)) as (Hseq & Hlen & Hnd & Hrange & Hrows & Hmap).
    destruct (insert_metrics sid uid ts name scores (seq + 1)) as [rows seq'].
    cbn [fst snd] in *. cbn [length List.map MetricRow.metric_id].
    split; [lia|]. split; [lia|]. split; [|split; [|split]].
    + apply NoDup_cons. split; [|done]. intros Hin.
      rewrite Forall_forall in Hrange. apply Hrange in Hin. lia.
    + apply List.Forall_cons; [lia|].
      eapply Forall_impl; [exact Hrange|]. cbn. intros; lia.
    + by apply List.Forall_cons.
    + cbn. by rewrite Hmap.
Qed.

Lemma session_ids_after_update (f : SessionRow.t -> SessionRow.t)
    (q : SessionRow.t -> bool) (rows : list SessionRow.t) :
  (forall r, SessionRow.session_id (f r) = SessionRow.session_id r) ->
  List.map SessionRow.session_id
    (List.map (fun r => if q r then f r else r) rows)
  = List.map SessionRow.session_id rows.
Proof.
  intros Hf. rewrite List.map_map. apply List.map_ext. intros r.
  by destruct (q r).
Qed.

Lemma NoDup_map_filter {A B} (f : A -> B) (p : A -> bool) (l : list A) :
  NoDup (List.map f l) -> NoDup (List.map f (List.filter p l)).
Proof.
  induction l as [|a l IH]; cbn; [done|].
  rewrite NoDup_cons. intros [Ha Hl]. destruct (p a); cbn; [|by apply IH].
  apply NoDup_cons. split; [|by apply IH].
  intros Hin. apply Ha. apply list_elem_of_In, in_map_iff in Hin as (x & Hx & Hin).
  apply filter_In in Hin as [Hin _].
  apply list_elem_of_In, in_map_iff. by exists x.
Qed.

Lemma Forall_map_filter {A B} (P : B -> Prop) (f : A -> B) (p : A -> bool)
    (l : list A) :
  Forall P (List.map f l) -> Forall P (List.map f (List.filter p l)).
Proof.
  rewrite !Forall_forall. intros H y Hy. apply H.
  apply list_elem_of_In, in_map_iff in Hy as (x & Hx & Hin).
  apply filter_In in Hin as [Hin _].
  apply list_elem_of_In, in_map_iff. by exists x.
Qed.

Lemma well_keyed_after_profile (now : Clock) (profile_data : UserProfile)
    (db : Store) :
  well_keyed db -> well_keyed (snd (store_user_profile now profile_data db)).
Proof.
  intros (Hu & Hs & Hm & Hseq).
  destruct (user_ids_after_store now profile_data db)
    as (Hids & Hsessions & Hmetrics & Hcounter).
  unfold well_keyed, session_ids, metric_ids in *.
  rewrite Hsessions, Hmetrics, Hcounter.
  split; [|done].
  destruct Hids as [-> | [Hfresh ->]]; [done | by apply NoDup_snoc_fresh].
Qed.

Lemma well_keyed_after_initialization (now : Clock) (session_data : Session)
    (db : Store) :
  well_keyed db ->
  well_keyed (snd (store_session_initialization now session_data db)).
Proof.
  intros Hdb. unfold store_session_initialization.
  assert (Hdb1 :
    well_keyed
      (snd (if profile_nonempty (user_profile session_data)
            then let '(_, p, d) :=
                   store_user_profile now (user_profile session_data) db in
                 (p, d)
            else (user_profile session_data, db)))).
  { destruct (profile_nonempty _); [|done].
    pose proof (well_keyed_after_profile now (user_profile session_data) db Hdb)
      as H.
    by destruct (store_user_profile _ _ _) as [[ok p] d]. }
  destruct (if profile_nonempty (user_profile session_data) then _ else _)
    as [profile db1].
  cbn [snd] in Hdb1.
  destruct (existsb _ (sessions db1)) eqn:Hexists; [done|].
  cbn [snd]. destruct Hdb1 as (Hu & Hs & Hm & Hseq).
  unfold well_keyed, user_ids, session_ids, metric_ids in *.
  cbn [with_sessions user_profiles sessions performance_metrics metric_seq].
  split; [done|]. split; [|done].
  rewrite List.map_app. apply NoDup_snoc_fresh; [done|].
  apply existsb_false_not_in.
  by rewrite <- (existsb_map SessionRow.session_id
                   (fun x => String.eqb x (SessionData.session_id session_data))).
Qed.

Lemma well_keyed_after_record (session_record : Session) (db : Store) :
  well_keyed db -> well_keyed (snd (store_session_record session_record db)).
Proof.
  intros (Hu & Hs & Hm & Hseq). unfold store_session_record.
  destruct (SessionData.timestamp session_record) as [ts|]; [|done].
  set (sid := SessionData.session_id session_record).
  set (uid := match user_id (user_profile session_record) with
              | Some u => u
              | None => sid
              end).
  set (scores := match performance_analysis session_record with
                 | Some pa => category_scores pa
                 | None => []
                 end).
  set (overall := match performance_analysis session_record with
                  | Some pa => _
                  | None => _
                  end).
  destruct (insert_metrics_ids sid uid ts "category_score" scores (metric_seq db))
    as (Hseq1 & _ & Hnd1 & Hrange1 & _).
  destruct (insert_metrics sid uid ts "category_score" scores (metric_seq db))
    as [cat_rows seq1].
  destruct (insert_metrics_ids sid uid ts "session_score" [("overall", overall)]
              seq1) as (Hseq2 & _ & Hnd2 & Hrange2 & _).
  destruct (insert_metrics sid uid ts "session_score" [("overall", overall)] seq1)
    as [all_rows seq2].
  cbn [fst snd length] in *.
  unfold well_keyed, user_ids, session_ids, metric_ids in *.
  cbn [with_metrics with_sessions user_profiles sessions performance_metrics
       metric_seq].
  split; [done|]. split.
  { by rewrite session_ids_after_update. }
  rewrite !List.map_app. rewrite Forall_forall in Hseq, Hrange1, Hrange2.
  split.
  - apply NoDup_app. split; [done|]. split.
    + intros i Hold Hnew. apply Hseq in Hold.
      apply elem_of_app in Hnew as [Hnew|Hnew];
        [apply Hrange1 in Hnew | apply Hrange2 in Hnew]; lia.
    + apply NoDup_app. split; [done|]. split; [|done].
      intros i H1 H2. apply Hrange1 in H1. apply Hrange2 in H2. lia.
  - apply Forall_forall. intros i Hi.
    apply elem_of_app in Hi as [Hi|Hi]; [apply Hseq in Hi; lia|].
    apply elem_of_app in Hi as [Hi|Hi];
      [apply Hrange1 in Hi | apply Hrange2 in Hi]; lia.
Qed.

Lemma well_keyed_after_cleanup (cutoff_date : string) (db : Store) :
  well_keyed db -> well_keyed (snd (cleanup_old_data cutoff_date db)).
Proof.
  intros (Hu & Hs & Hm & Hseq). unfold cleanup_old_data. cbn [snd].
  unfold well_keyed, user_ids, session_ids, metric_ids in *.
  cbn [with_metrics with_sessions user_profiles sessions performance_metrics
       metric_seq].
  split; [done|]. split; [by apply NoDup_map_filter|].
  split; [by apply NoDup_map_filter | by apply Forall_map_filter].
Qed.

(** X10: the writes keep the keys of the tables unique. If no two
    profile rows share a user id, no two session rows a session id and
    no two metric rows a metric id, and no metric id exceeds the
    AUTOINCREMENT counter, then the same holds after storing a profile,
    a session initialization or a completed session record, and after
    a purge (which never lets a metric id be drawn again). *)
Theorem writes_keep_keys_unique (now : Clock) (cutoff_date : string)
    (profile_data : UserProfile) (session_data : Session) (db : Store) :
  well_keyed db ->
  well_keyed (snd (store_user_profile now profile_data db))
  /\ well_keyed (snd (store_session_initialization now session_data db))
  /\ well_keyed (snd (store_session_record session_data db))
  /\ well_keyed (snd (store_completed_session session_data db))
  /\ well_keyed (snd (cleanup_old_data cutoff_date db)).
Proof.
  intros Hdb.
  split; [by apply well_keyed_after_profile|].
  split; [by apply well_keyed_after_initialization|].
  split; [by apply well_keyed_after_record|].
  split; [by apply well_keyed_after_record | by apply well_keyed_after_cleanup].
Qed.

Lemma empty_store_well_keyed : well_keyed empty_store.
Proof. repeat split; constructor. Qed.

Lemma writes_keep_keys_unique_witness :
  well_keyed (snd (store_user_profile ManagerSpec.clock_1 empty_profile empty_store))
  /\ well_keyed
       (snd (store_session_initialization ManagerSpec.clock_1
               (SessionManager.fresh_session "atic_1" ManagerSpec.clock_1)
               empty_store))
  /\ well_keyed
       (snd (store_session_record
               (SessionManager.fresh_session "atic_1" ManagerSpec.clock_1)
               empty_store))
  /\ well_keyed
       (snd (store_completed_session
               (SessionManager.fresh_session "atic_1" ManagerSpec.clock_1)
               empty_store))
  /\ well_keyed (snd (cleanup_old_data "2024-01-01" empty_store)).
Proof.
  exact (writes_keep_keys_unique ManagerSpec.clock_1 "2024-01-01" empty_profile
           (SessionManager.fresh_session "atic_1" ManagerSpec.clock_1)
           empty_store empty_store_well_keyed).
Defined.

(** X11: a session whose id is already in the sessions table is
    refused: the call reports [False] and leaves the sessions and the
    metrics as they were; the profile of the session, stored first, is
    written all the same. *)
Theorem duplicate_session_refused (now : Clock) (session_data : Session)
    (db : Store) :
  SessionData.session_id session_data ∈ session_ids db ->
  let result := store_session_initialization now session_data db in
  fst (fst result) = false
  /\ sessions (snd result) = sessions db
  /\ performance_metrics (snd result) = performance_metrics db
  /\ user_profiles (snd result)
     = if profile_nonempty (user_profile session_data)
       then user_profiles
              (snd (store_user_profile now (user_profile session_data) db))
       else user_profiles db.
Proof.
  intros Hin. cbn zeta. unfold store_session_initialization.
  assert (Hexists : forall db1, sessions db1 = sessions db ->
            existsb (fun r => String.eqb (SessionRow.session_id r)
                                (SessionData.session_id session_data))
              (sessions db1) = true).
  { intros db1 ->. apply existsb_exists.
    apply list_elem_of_In, in_map_iff in Hin as (r & Hr & Hin).
    exists r. split; [done|]. rewrite Hr. apply String.eqb_refl. }
  destruct (profile_nonempty (user_profile session_data)).
  - destruct (user_ids_after_store now (user_profile session_data) db)
      as (_ & Hs & Hm & _).
    destruct (store_user_profile now (user_profile session_data) db)
      as [[ok p] d].
    cbn [snd] in *. by rewrite (Hexists d Hs).
  - by rewrite (Hexists db eq_refl).
Qed.

Lemma duplicate_session_refused_witness :
  let db :=
    snd (store_session_initialization ManagerSpec.clock_1
           (SessionManager.fresh_session "atic_1" ManagerSpec.clock_1)
           empty_store) in
  let result :=
    store_session_initialization ManagerSpec.clock_2
      (SessionManager.fresh_session "atic_1" ManagerSpec.clock_2) db in
  fst (fst result) = false
  /\ sessions (snd result) = sessions db
  /\ performance_metrics (snd result) = performance_metrics db
  /\ user_profiles (snd result)
     = if profile_nonempty
            (user_profile
               (SessionManager.fresh_session "atic_1" ManagerSpec.clock_2))
       then user_profiles
              (snd (store_user_profile ManagerSpec.clock_2
                      (user_profile
                         (SessionManager.fresh_session "atic_1"
                            ManagerSpec.clock_2)) db))
       else user_profiles db.
Proof.
  apply duplicate_session_refused. apply PyStrProps.mem_true_iff. reflexivity.
Defined.

(** X12: a session record without a 'timestamp' key is not stored:
    the call reports [False] and the store is unchanged. With the key,
    the call reports [True], leaves the profiles and the set of session
    rows as they were, marks the session's row completed at that time,
    and appends one metric row per category score, in order, and one
    'overall' row, all stamped with the session id and that time and
    numbered above the counter. *)
Theorem session_record_effects (session_record : Session) (db : Store) :
  let result := store_session_record session_record db in
  let scores :=
    match performance_analysis session_record with
    | Some pa => category_scores pa
    | None => []
    end in
  match SessionData.timestamp session_record with
  | None => result = (false, db)
  | Some ts =>
      fst result = true
      /\ user_profiles (snd result) = user_profiles db
      /\ session_ids (snd result) = session_ids db
      /\ (forall r, r ∈ sessions (snd result) ->
            SessionRow.session_id r = SessionData.session_id session_record ->
            SessionRow.status r = "completed"
            /\ SessionRow.completed_at r = Some ts)
      /\ exists category_rows overall_row,
           performance_metrics (snd result)
           = performance_metrics db ++ category_rows ++ [overall_row]
           /\ List.map (fun m => (MetricRow.category m, MetricRow.metric_value m))
                category_rows = scores
           /\ Forall (fun m => MetricRow.metric_name m = "category_score")
                category_rows
           /\ MetricRow.category overall_row = "overall"
           /\ MetricRow.metric_name overall_row = "session_score"
           /\ Forall (fun m =>
                        MetricRow.session_id m
                        = SessionData.session_id session_record
                        /\ MetricRow.recorded_at m = ts
                        /\ metric_seq db < MetricRow.metric_id m)
                (category_rows ++ [overall_row])
  end.
Proof.
  cbn zeta. unfold store_session_record.
  destruct (SessionData.timestamp session_record) as [ts|]; [|done].
  set (sid := SessionData.session_id session_record).
  set (uid := match user_id (user_profile session_record) with
              | Some u => u
              | None => sid
              end).
  set (scores := match performance_analysis session_record with
                 | Some pa => category_scores pa
                 | None => []
                 end).
  set (overall := match performance_analysis session_record with
                  | Some pa => _
                  | None => _
                  end).
  destruct (insert_metrics_ids sid uid ts "category_score" scores (metric_seq db))
    as (Hseq1 & _ & _ & Hrange1 & Hrows1 & Hmap1).
  destruct (insert_metrics sid uid ts "category_score" scores (metric_seq db))
    as [cat_rows seq1].
  cbn [fst snd] in *.
  cbn [insert_metrics].
  cbn [fst snd with_metrics with_sessions user_profiles sessions
       performance_metrics metric_seq].
  split; [done|]. split; [done|].
  split.
  { unfold session_ids. cbn [sessions with_metrics with_sessions].
    rewrite List.map_map. apply List.map_ext.
    intros r. by destruct (String.eqb _ _). }
  split.
  - intros r Hr Hid. apply list_elem_of_In, in_map_iff in Hr as (r0 & Hr0 & _).
    destruct (String.eqb (SessionRow.session_id r0) sid) eqn:Heq.
    + by subst r.
    + subst r. apply String.eqb_neq in Heq. done.
  - eexists cat_rows, _. split; [reflexivity|]. split; [done|].
    rewrite Forall_forall in Hrows1. rewrite Forall_forall in Hrange1.
    split;
      [apply Forall_forall; intros m Hm;
       by destruct (Hrows1 m Hm) as (_ & _ & _ & Hname)|].
    split; [done|]. split; [done|].
    apply Forall_forall. intros m Hm.
    apply elem_of_app in Hm as [Hm|Hm].
    + destruct (Hrows1 m Hm) as (Hs & _ & Ht & _).
      split; [done|]. split; [done|].
      assert (MetricRow.metric_id m ∈ List.map MetricRow.metric_id cat_rows)
        as Hid by (apply list_elem_of_In, in_map, list_elem_of_In, Hm).
      apply Hrange1 in Hid. lia.
    + apply list_elem_of_singleton in Hm as ->. cbn. split; [done|].
      split; [done|]. lia.
Qed.

(** *** The order of timestamps *)

Lemma compare_lt_trans (a b c : string) :
  String.compare a b = Lt -> String.compare b c = Lt -> String.compare a c = Lt.
Proof.
  revert b c. induction a as [|x a IH]; intros [|y b] [|z c]; cbn; try done.
  unfold Ascii.compare.
  destruct (N.compare_spec (N_of_ascii x) (N_of_ascii y)) as [Hxy|Hxy|Hxy],
    (N.compare_spec (N_of_ascii y) (N_of_ascii z)) as [Hyz|Hyz|Hyz],
    (N.compare_spec (N_of_ascii x) (N_of_ascii z)) as [Hxz|Hxz|Hxz];
    try done; try lia.
  apply IH.
Qed.

Lemma ltb_leb_trans (a b c : string) :
  String.ltb a b = true -> String.leb b c = true -> String.ltb a c = true.
Proof.
  unfold String.ltb, String.leb.
  destruct (String.compare a b) eqn:Hab; try done. intros _.
  destruct (String.compare b c) eqn:Hbc; try done; intros _.
  - apply String.compare_eq_iff in Hbc as <-. by rewrite Hab.
  - by rewrite (compare_lt_trans a b c).
Qed.

Lemma filter_implied {A} (p q : A -> bool) (l : list A) :
  (forall x, q x = true -> p x = true) ->
  List.filter q (List.filter p l) = List.filter q l.
Proof.
  intros Hqp. induction l as [|a l IH]; [done|]. cbn.
  destruct (p a) eqn:Hp; cbn; destruct (q a) eqn:Hq; rewrite ?IH; try done.
  apply Hqp in Hq. congruence.
Qed.

Lemma filter_count_split {A} (p1 p2 : A -> bool) (l : list A) :
  (forall x, p1 x = true -> p2 x = true) ->
  (length (List.filter p1 l)
   + length (List.filter p2 (List.filter (fun x => negb (p1 x)) l))
   = length (List.filter p2 l))%nat.
Proof.
  intros H12. induction l as [|a l IH]; [done|]. cbn.
  destruct (p1 a) eqn:H1; cbn.
  - rewrite (H12 a H1). cbn. lia.
  - destruct (p2 a); cbn; lia.
Qed.

Lemma filter_sublist {A} (p : A -> bool) (l : list A) :
  List.filter p l `sublist_of` l.
Proof.
  induction l as [|a l IH]; cbn; [constructor|].
  destruct (p a); by constructor.
Qed.

(** X13: purges compose. A purge with a cutoff, followed by a purge
    with the same or a later cutoff, leaves the store that the second
    purge alone would leave, and the two counts add up to the count of
    the second purge alone. *)
Theorem purges_compose (cutoff1 cutoff2 : string) (db : Store) :
  String.leb cutoff1 cutoff2 = true ->
  let first := cleanup_old_data cutoff1 db in
  let second := cleanup_old_data cutoff2 (snd first) in
  let direct := cleanup_old_data cutoff2 db in
  snd second = snd direct
  /\ fst first + fst second = fst direct.
Proof.
  intros Hle. cbn zeta. unfold cleanup_old_data, with_sessions, with_metrics.
  cbn [fst snd sessions performance_metrics
       user_profiles learning_adaptations question_performance metric_seq].
  assert (Hm : forall m, old_metric cutoff1 m = true ->
                         old_metric cutoff2 m = true).
  { intros m Hm. unfold old_metric in *. by apply (ltb_leb_trans _ cutoff1). }
  assert (Hs : forall r, old_completed_session cutoff1 r = true ->
                         old_completed_session cutoff2 r = true).
  { intros r Hr. unfold old_completed_session in *.
    apply andb_true_iff in Hr as [Hold Hdone]. rewrite Hdone, andb_true_r.
    by apply (ltb_leb_trans _ cutoff1). }
  split.
  - f_equal.
    + apply filter_implied. intros r Hr. apply negb_true_iff.
      apply negb_true_iff in Hr.
      destruct (old_completed_session cutoff1 r) eqn:H1; [|done].
      apply Hs in H1. congruence.
    + apply filter_implied. intros m Hr. apply negb_true_iff.
      apply negb_true_iff in Hr.
      destruct (old_metric cutoff1 m) eqn:H1; [|done].
      apply Hm in H1. congruence.
  - pose proof (filter_count_split _ _ (performance_metrics db) Hm).
    pose proof (filter_count_split _ _ (sessions db) Hs).
    lia.
Qed.

Lemma purges_compose_witness :
  let first := cleanup_old_data "2024-01-01" InsightSpec.store_improving in
  let second := cleanup_old_data "2024-01-03" (snd first) in
  let direct := cleanup_old_data "2024-01-03" InsightSpec.store_improving in
  snd second = snd direct
  /\ fst first + fst second = fst direct.
Proof. apply purges_compose. reflexivity. Defined.

(** X14: a purge only deletes. What is left of the metrics and of the
    sessions are the rows that were there, in their order, none of the
    metrics left being older than the cutoff; the profiles, the other
    two tables and the AUTOINCREMENT counter are untouched; and the
    count returned is the number of rows that went away. *)
Theorem purge_only_deletes (cutoff_date : string) (db : Store) :
  let count := fst (cleanup_old_data cutoff_date db) in
  let db' := snd (cleanup_old_data cutoff_date db) in
  performance_metrics db' `sublist_of` performance_metrics db
  /\ sessions db' `sublist_of` sessions db
  /\ Forall (fun m => String.ltb (MetricRow.recorded_at m) cutoff_date = false)
       (performance_metrics db')
  /\ user_profiles db' = user_profiles db
  /\ learning_adaptations db' = learning_adaptations db
  /\ question_performance db' = question_performance db
  /\ metric_seq db' = metric_seq db
  /\ count
     = Z.of_nat (length (performance_metrics db))
       - Z.of_nat (length (performance_metrics db'))
       + (Z.of_nat (length (sessions db)) - Z.of_nat (length (sessions db'))).
Proof.
  cbn zeta. unfold cleanup_old_data.
  cbn [fst snd with_sessions with_metrics sessions performance_metrics
       user_profiles learning_adaptations question_performance metric_seq].
  split; [apply filter_sublist|]. split; [apply filter_sublist|].
  split.
  { apply Forall_forall. intros m Hm.
    apply list_elem_of_In, filter_In in Hm as [_ Hm].
    by apply negb_true_iff in Hm. }
  do 4 (split; [done|]).
  assert (Hlen : forall A (p : A -> bool) (l : list A),
            length l = (length (List.filter p l)
                        + length (List.filter (fun x => negb (p x)) l))%nat).
  { intros A p l. induction l as [|a l IH]; [reflexivity|]. cbn.
    destruct (p a); cbn; lia. }
  pose proof (Hlen _ (old_metric cutoff_date) (performance_metrics db)).
  pose proof (Hlen _ (old_completed_session cutoff_date) (sessions db)).
  lia.
Qed.

(** *** The history query *)






Lemma leb_trans (a b c : string) :
  String.leb a b = true -> String.leb b c = true -> String.leb a c = true.
Proof.
  unfold String.leb.
  destruct (String.compare a b) eqn:Hab; try done; intros _.
  - by apply String.compare_eq_iff in Hab as <-.
  - destruct (String.compare b c) eqn:Hbc; try done; intros _.
    + apply String.compare_eq_iff in Hbc as <-. by rewrite Hab.
    + by rewrite (compare_lt_trans a b c).
Qed.




(** *** Generated user ids *)

Lemma stored_years (uid : option string) (profile_data : UserProfile) :
  profile_years
    {| user_id := uid; experience := experience profile_data;
       target_job := target_job profile_data;
       difficulty_level := difficulty_level profile_data |}
  = profile_years profile_data.
Proof. reflexivity. Qed.

Lemma stored_profile (now : Clock) (profile_data : UserProfile) (db : Store) :
  snd (fst (store_user_profile now profile_data db))
  = {| user_id := Some (filed_under now profile_data);
       experience := experience profile_data;
       target_job := target_job profile_data;
       difficulty_level := difficulty_level profile_data |}.
Proof. unfold store_user_profile. by destruct (sqlite_integer _). Qed.

Lemma stored_row_exists (now : Clock) (profile_data : UserProfile) (db : Store) :
  sqlite_integer (profile_years profile_data) = true ->
  existsb
    (fun r => String.eqb (UserProfileRow.user_id r)
                (filed_under now profile_data))
    (user_profiles (snd (store_user_profile now profile_data db))) = true.
Proof.
  intros Hfits.
  unfold store_user_profile. fold (filed_under now profile_data).
  rewrite stored_years, Hfits.
  cbn [snd user_profiles with_user_profiles].
  destruct (existsb _ (user_profiles db)) eqn:Hexists.
  - apply existsb_exists in Hexists as (r & Hr & Hid).
    apply existsb_exists.
    eexists. split; [apply in_map_iff; exists r; split; [reflexivity | done]|].
    rewrite Hid. cbn. exact Hid.
  - rewrite existsb_app. cbn. by rewrite String.eqb_refl, orb_true_r.
Qed.

(** X16. Generated user ids collide: two profiles that carry no
    [user_id] and name the same technical field, stored at clock
    readings of the same second (both with years of experience that
    fit SQLite's INTEGER, so that both writes succeed), are filed under
    the same id; the second write adds no row and replaces the first
    profile, which can no longer be read back. *)
Theorem generated_ids_collide (now1 now2 : Clock) (p1 p2 : UserProfile)
    (db : Store) :
  user_id p1 = None -> user_id p2 = None ->
  Planner.field <$> experience p1 = Planner.field <$> experience p2 ->
  compact now1 = compact now2 ->
  sqlite_integer (profile_years p1) = true ->
  sqlite_integer (profile_years p2) = true ->
  let r1 := store_user_profile now1 p1 db in
  let r2 := store_user_profile now2 p2 (snd r1) in
  fst (fst r1) = true /\ fst (fst r2) = true
  /\ user_id (snd (fst r2)) = user_id (snd (fst r1))
  /\ user_id (snd (fst r1)) = Some (_generate_user_id now1 p1)
  /\ length (user_profiles (snd r2)) = length (user_profiles (snd r1))
  /\ fst <$> get_user_profile (_generate_user_id now1 p1) (snd r2)
     = Some (snd (fst r2))
  /\ experience (snd (fst r2)) = experience p2.
Proof.
  intros Hid1 Hid2 Hfield Hclock Hfits1 Hfits2. cbn zeta.
  assert (Hsame : filed_under now2 p2 = filed_under now1 p1).
  { unfold filed_under, _generate_user_id. rewrite Hid1, Hid2, Hclock.
    destruct (experience p1), (experience p2); cbn in Hfield; congruence. }
  assert (Hfiled : filed_under now1 p1 = _generate_user_id now1 p1).
  { unfold filed_under. by rewrite Hid1. }
  pose proof (stored_row_exists now1 p1 db Hfits1) as Hrow.
  assert (Hfirst : user_id (snd (fst (store_user_profile now1 p1 db)))
                   = Some (filed_under now1 p1)).
  { unfold store_user_profile. by destruct (sqlite_integer _). }
  assert (Hok : fst (fst (store_user_profile now1 p1 db)) = true).
  { unfold store_user_profile. by rewrite stored_years, Hfits1. }
  rewrite Hfirst, Hok.
  set (db1 := snd (store_user_profile now1 p1 db)) in *. clearbody db1.
  unfold store_user_profile. fold (filed_under now2 p2).
  rewrite stored_years, Hfits2, Hsame, Hrow, <- Hfiled.
  cbn [fst snd user_id experience user_profiles with_user_profiles].
  split; [done|]. split; [done|].
  split; [done|]. split; [done|]. split; [by rewrite length_map|].
  split; [|done].
  unfold get_user_profile. cbn [user_profiles with_user_profiles].
  rewrite find_map_update; [|done].
  destruct (List.find _ (user_profiles db1)) as [row|] eqn:Hfind.
  - apply find_some in Hfind as [_ Hr]. cbn. by rewrite Hr.
  - exfalso. apply existsb_exists in Hrow as (r & Hr & Hid).
    by rewrite (find_none _ _ Hfind r Hr) in Hid.
Qed.

Lemma generated_ids_collide_witness :
  let now1 := {| isoformat := "2024-05-01T10:00:00.100000";
                 compact := "20240501_100000" |} in
  let now2 := {| isoformat := "2024-05-01T10:00:00.900000";
                 compact := "20240501_100000" |} in
  let p1 := {| user_id := None; experience := None; target_job := None;
               difficulty_level := Some "beginner" |} in
  let p2 := {| user_id := None; experience := None; target_job := None;
               difficulty_level := Some "advanced" |} in
  let r1 := store_user_profile now1 p1 empty_store in
  let r2 := store_user_profile now2 p2 (snd r1) in
  fst (fst r1) = true /\ fst (fst r2) = true
  /\ user_id (snd (fst r2)) = user_id (snd (fst r1))
  /\ user_id (snd (fst r1)) = Some (_generate_user_id now1 p1)
  /\ length (user_profiles (snd r2)) = length (user_profiles (snd r1))
  /\ fst <$> get_user_profile (_generate_user_id now1 p1) (snd r2)
     = Some (snd (fst r2))
  /\ experience (snd (fst r2)) = experience p2.
Proof.
  cbn zeta. apply generated_ids_collide; reflexivity.
Defined.

Lemma get_after_store (now : Clock) (profile_data : UserProfile) (db : Store) :
  sqlite_integer (profile_years profile_data) = true ->
  fst <$> get_user_profile (filed_under now profile_data)
            (snd (store_user_profile now profile_data db))
  = Some (snd (fst (store_user_profile now profile_data db))).
Proof.
  intros Hfits.
  pose proof (stored_row_exists now profile_data db Hfits) as Hrow.
  unfold get_user_profile.
  destruct (List.find _ _) as [row|] eqn:Hfind.
  - cbn. f_equal.
    apply find_some in Hfind as [Hin Hid]. apply String.eqb_eq in Hid.
    revert Hin. unfold store_user_profile. fold (filed_under now profile_data).
    rewrite stored_years, Hfits.
    cbn [fst snd user_profiles with_user_profiles].
    destruct (existsb _ (user_profiles db)) eqn:Hexists.
    + intros Hin. apply in_map_iff in Hin as (r & Hr & _).
      rewrite <- Hr in Hid |- *.
      destruct (String.eqb (UserProfileRow.user_id r)
                  (filed_under now profile_data)) eqn:Heq; [done|].
      apply String.eqb_neq in Heq. done.
    + intros Hin. apply in_app_or in Hin as [Hin|[<-|[]]]; [|done].
      exfalso. rewrite <- Bool.not_true_iff_false in Hexists.
      apply Hexists, existsb_exists. exists row.
      split; [done | by apply String.eqb_eq].
  - exfalso. apply existsb_exists in Hrow as (r & Hr & Hid).
    by rewrite (find_none _ _ Hfind r Hr) in Hid.
Qed.

End StoreExtras.

(** ** Learning insights *)

Module InsightExtras.
Import PyStr Planner MemoryBank InsightEngine InsightSpec PyStrProps
  PyStrFacts InsightProps StoreSpec.

(** *** The recommendations *)

Lemma recommendations_cases (insights : Insights.t) :
  exists focus momentum strength,
    focus
    = List.map
        (fun area =>
           "Focus on improving " +:+ underscores_to_spaces area +:+ " skills")
        (slice_to 3 (Insights.improvement_areas insights))
    /\ momentum
       = (if Insights.total_sessions insights <? 3
          then ["Complete more practice sessions to build momentum"]
          else if 5 <=? Insights.total_sessions insights
          then ["Consider tackling more advanced difficulty levels"]
          else [])
    /\ strength
       = match Insights.strong_areas insights with
         | [] => []
         | top :: _ =>
             ["Leverage your strength in " +:+ underscores_to_spaces top
              +:+ " for complex problems"]
         end
    /\ _generate_learning_recommendations insights
       = match focus ++ momentum ++ strength with
         | [] => ["Continue regular practice to build and maintain skills"]
         | recommendations => recommendations
         end.
Proof. by eexists _, _, _. Qed.

Lemma focus_starts_with_F (areas : list string) (r : string) :
  r ∈ List.map
        (fun area =>
           "Focus on improving " +:+ underscores_to_spaces area +:+ " skills")
        areas ->
  exists t, r = String "F" t.
Proof.
  intros Hr. apply list_elem_of_In, in_map_iff in Hr as (a & <- & _).
  by eexists.
Qed.

(** X17. [_generate_learning_recommendations] returns between one and
    five recommendations: one per improvement area for the first three
    of them, the momentum advice exactly below three sessions, the
    advice to raise the difficulty exactly from five sessions on, and
    the fallback advice exactly when nothing else applies (no
    improvement area, no strong area, three or four sessions), in
    which case it is the only one. *)
Theorem recommendations_shape (insights : Insights.t) :
  let recs := _generate_learning_recommendations insights in
  let total := Insights.total_sessions insights in
  (1 <= length recs <= 5)%nat
  /\ (forall area, area ∈ slice_to 3 (Insights.improvement_areas insights) ->
        "Focus on improving " +:+ underscores_to_spaces area +:+ " skills"
          ∈ recs)
  /\ ("Complete more practice sessions to build momentum" ∈ recs
      <-> total < 3)
  /\ ("Consider tackling more advanced difficulty levels" ∈ recs
      <-> 5 <= total)
  /\ ("Continue regular practice to build and maintain skills" ∈ recs
      <-> Insights.improvement_areas insights = []
          /\ Insights.strong_areas insights = [] /\ 3 <= total < 5)
  /\ ("Continue regular practice to build and maintain skills" ∈ recs ->
        recs = ["Continue regular practice to build and maintain skills"]).
Proof.
  cbn zeta.
  destruct (recommendations_cases insights)
    as (focus & momentum & strength & Hfocus & Hmomentum & Hstrength & ->).
  assert (Hlen : (length focus <= 3)%nat).
  { rewrite Hfocus, length_map. unfold slice_to. rewrite length_firstn. lia. }
  assert (HF : forall r, r ∈ focus -> exists t, r = String "F" t).
  { intros r Hr. rewrite Hfocus in Hr. by apply focus_starts_with_F in Hr. }
  assert (HL : forall r, r ∈ strength -> exists t, r = String "L" t).
  { intros r Hr. rewrite Hstrength in Hr.
    destruct (Insights.strong_areas insights); [by apply elem_of_nil in Hr|].
    apply list_elem_of_singleton in Hr as ->. by eexists. }
  assert (Hempty : focus = [] <-> Insights.improvement_areas insights = []).
  { rewrite Hfocus. unfold slice_to.
    by destruct (Insights.improvement_areas insights). }
  assert (Hstrong : strength = [] <-> Insights.strong_areas insights = []).
  { rewrite Hstrength. by destruct (Insights.strong_areas insights). }
  assert (Hin : forall area,
             area ∈ slice_to 3 (Insights.improvement_areas insights) ->
             "Focus on improving " +:+ underscores_to_spaces area +:+ " skills"
               ∈ focus).
  { intros area Ha. rewrite Hfocus.
    apply list_elem_of_In, in_map_iff. exists area.
    split; [done | by apply list_elem_of_In]. }
  assert (Hmlen : (length momentum <= 1)%nat).
  { rewrite Hmomentum. repeat case_match; cbn; lia. }
  assert (Hslen : (length strength <= 1)%nat).
  { rewrite Hstrength. case_match; cbn; lia. }
  assert (HC : forall r t, r = String "C" t ->
             r ∈ focus ++ momentum ++ strength <-> r ∈ momentum).
  { intros r t ->. rewrite !elem_of_app. split; [|tauto].
    intros [H|[H|H]]; [|done|].
    - apply HF in H as [? [=]].
    - apply HL in H as [? [=]]. }
  clear Hfocus Hstrength.
  destruct (focus ++ momentum ++ strength) as [|r0 rs] eqn:Hall.
  - apply app_eq_nil in Hall as [-> Hall].
    apply app_eq_nil in Hall as [Hm ->].
    split; [cbn; lia|]. split.
    { intros area Ha. apply Hin in Ha. by apply elem_of_nil in Ha. }
    rewrite Hm in Hmomentum.
    destruct (Z.ltb_spec (Insights.total_sessions insights) 3);
      [discriminate|].
    destruct (Z.leb_spec 5 (Insights.total_sessions insights));
      [discriminate|].
    rewrite !list_elem_of_singleton.
    split; [split; [discriminate | lia]|].
    split; [split; [discriminate | lia]|].
    split; [|done].
    split; [intros _|done].
    split; [by apply Hempty|]. split; [by apply Hstrong | lia].
  - assert (Hlen_all : length (r0 :: rs)
                       = (length focus + length momentum + length strength)%nat).
    { rewrite <- Hall, !length_app. lia. }
    split; [cbn in *; lia|].
    split.
    { intros area Ha. rewrite <- Hall. apply elem_of_app. left. by apply Hin. }
    rewrite !(HC _ _ eq_refl).
    rewrite Hmomentum.
    destruct (Z.ltb_spec (Insights.total_sessions insights) 3).
    + rewrite !list_elem_of_singleton.
      split; [split; [lia | done]|].
      split; [split; [discriminate | lia]|].
      split; [split; [discriminate | lia]|]. discriminate.
    + destruct (Z.leb_spec 5 (Insights.total_sessions insights)).
      * rewrite !list_elem_of_singleton.
        split; [split; [discriminate | lia]|].
        split; [split; [lia | done]|].
        split; [split; [discriminate | lia]|]. discriminate.
      * split; [split; [by intros ?%elem_of_nil | lia]|].
        split; [split; [by intros ?%elem_of_nil | lia]|].
        split; [|by intros ?%elem_of_nil].
        split; [by intros ?%elem_of_nil|].
        intros (Hi & Hs & _). apply Hempty in Hi. apply Hstrong in Hs.
        rewrite Hi, Hs, Hmomentum in Hall.
        destruct (Z.ltb_spec (Insights.total_sessions insights) 3); [lia|].
        destruct (Z.leb_spec 5 (Insights.total_sessions insights)); [lia|].
        discriminate.
Qed.

(** *** The lists of an insight *)

Section Interpreted.

Context {py : Interpreter}.

Lemma category_keys_nodup (ms : list MetricRow.t) :
  NoDup (List.map fst (category_performance ms)).
Proof.
  destruct (grouping_invariant ms [] []) as [Hnd _]; [constructor | done |].
  apply NoDup_ListNoDup. exact Hnd.
Qed.

Lemma trend_keys_sublist (cp : list (string * list float)) :
  List.map fst (flat_map trend_item cp) `sublist_of` List.map fst cp.
Proof.
  induction cp as [|[c ss] cp IH]; cbn [flat_map List.map]; [done|].
  unfold trend_item at 1. cbn [fst snd].
  destruct (2 <=? Z.of_nat (length ss)); cbn [app List.map fst].
  - by apply sublist_skip.
  - by apply sublist_cons.
Qed.

Lemma strong_sublist_trends (cp : list (string * list float)) :
  flat_map strong_item cp `sublist_of` List.map fst (flat_map trend_item cp).
Proof.
  induction cp as [|[c ss] cp IH]; cbn [flat_map List.map]; [done|].
  unfold trend_item at 1, strong_item at 1. cbn [fst snd].
  destruct (2 <=? Z.of_nat (length ss)); cbn [andb app List.map fst];
    [|done].
  destruct (PrimFloat.leb f0_7 (average ss)); cbn [app].
  - by apply sublist_skip.
  - by apply sublist_cons.
Qed.

Lemma improvement_sublist_trends (cp : list (string * list float)) :
  flat_map improvement_item cp
    `sublist_of` List.map fst (flat_map trend_item cp).
Proof.
  induction cp as [|[c ss] cp IH]; cbn [flat_map List.map]; [done|].
  unfold trend_item at 1, improvement_item at 1. cbn [fst snd].
  destruct (2 <=? Z.of_nat (length ss)); cbn [andb app List.map fst];
    [|done].
  destruct (negb (PrimFloat.leb f0_7 (average ss))
            && PrimFloat.ltb (average ss) f0_5); cbn [app].
  - by apply sublist_skip.
  - by apply sublist_cons.
Qed.

(** X18. The lists of an insight are consistent: no category has two
    trend entries (the trend dictionary is never overwritten), the
    strong areas and the improvement areas are categories with a trend
    entry, listed once each and in the order of the trend entries, and
    every trend entry counts the recorded scores of its category, of
    which there are at least two. *)
Theorem insights_consistent (uid : string) (db : Store) :
  let ins := get_learning_insights uid db in
  let trend_keys := List.map fst (Insights.performance_trends ins) in
  NoDup trend_keys
  /\ Insights.strong_areas ins `sublist_of` trend_keys
  /\ Insights.improvement_areas ins `sublist_of` trend_keys
  /\ NoDup (Insights.strong_areas ins)
  /\ NoDup (Insights.improvement_areas ins)
  /\ (forall c e, (c, e) ∈ Insights.performance_trends ins ->
        TrendEntry.sessions_tracked e
        = Z.of_nat (length (recorded_scores uid c db))
        /\ 2 <= TrendEntry.sessions_tracked e).
Proof.
  cbn zeta.
  destruct (insights_lists uid db) as (Ht & Hs & Hi).
  assert (Hkeys : NoDup (List.map fst
                    (Insights.performance_trends (get_learning_insights uid db)))).
  { rewrite Ht. eapply sublist_NoDup; [apply category_keys_nodup|].
    apply trend_keys_sublist. }
  assert (Hstrong : Insights.strong_areas (get_learning_insights uid db)
                      `sublist_of` List.map fst
                        (Insights.performance_trends (get_learning_insights uid db))).
  { rewrite Ht, Hs. apply strong_sublist_trends. }
  assert (Himp : Insights.improvement_areas (get_learning_insights uid db)
                   `sublist_of` List.map fst
                     (Insights.performance_trends (get_learning_insights uid db))).
  { rewrite Ht, Hi. apply improvement_sublist_trends. }
  split; [done|]. split; [done|]. split; [done|].
  split; [by eapply sublist_NoDup|]. split; [by eapply sublist_NoDup|].
  intros c e He. apply trends_spec in He as [Hlen ->].
  cbn [trend_entry TrendEntry.sessions_tracked]. split; [done | lia].
Qed.

(** *** The order of the scores *)

Lemma insert_by_time_perm (m : MetricRow.t) (l : list MetricRow.t) :
  insert_by_time m l ≡ₚ m :: l.
Proof.
  induction l as [|x l IH]; cbn; [done|].
  destruct (String.leb _ _); [done|]. rewrite IH. apply Permutation_swap.
Qed.

Lemma order_by_recorded_at_perm (l : list MetricRow.t) :
  order_by_recorded_at l ≡ₚ l.
Proof.
  induction l as [|m l IH]; cbn; [done|].
  by rewrite insert_by_time_perm, IH.
Qed.

Lemma select_category_scores_spec (uid : string) (db : Store) (m : MetricRow.t) :
  m ∈ select_category_scores uid db
  <-> m ∈ performance_metrics db /\ MetricRow.user_id m = uid
      /\ MetricRow.metric_name m = "category_score".
Proof.
  unfold select_category_scores. rewrite order_by_recorded_at_perm.
  rewrite list_elem_of_In, filter_In, <- list_elem_of_In.
  rewrite andb_true_iff, !String.eqb_eq. tauto.
Qed.

Lemma recommendations_nonempty (insights : Insights.t) :
  _generate_learning_recommendations insights <> [].
Proof.
  destruct (recommendations_cases insights) as (f & m & s & _ & _ & _ & ->).
  by destruct (f ++ m ++ s).
Qed.

Lemma analyse_fold_user_id (cp : list (string * list float))
    (ins : Insights.t) :
  Insights.user_id (fold_left analyse_category cp ins) = Insights.user_id ins.
Proof.
  revert ins. induction cp as [|[c ss] cp IH]; intros ins; [done|].
  cbn [fold_left]. rewrite IH. unfold analyse_category.
  by destruct (2 <=? Z.of_nat (length ss)).
Qed.

(** X19. Without a category score of the user in the store, the
    insight is the empty shell: [total_sessions] is 0 whatever the
    number of completed sessions, and there is no recommendation at
    all. With at least one category score, [total_sessions] is the
    number of the user's completed sessions and there is at least one
    recommendation. *)
Theorem insights_need_category_scores (uid : string) (db : Store) :
  let ins := get_learning_insights uid db in
  let scored :=
    exists m, m ∈ performance_metrics db /\ MetricRow.user_id m = uid
              /\ MetricRow.metric_name m = "category_score" in
  (~ scored ->
     ins = shell uid /\ Insights.total_sessions ins = 0
     /\ Insights.recommendations ins = [])
  /\ (scored ->
        Insights.total_sessions ins
        = Z.of_nat (length (completed_sessions_of uid db))
        /\ Insights.recommendations ins <> []
        /\ Insights.user_id ins = uid).
Proof.
  cbn zeta. unfold get_learning_insights.
  pose proof (select_category_scores_spec uid db) as Hsel.
  destruct (select_category_scores uid db) as [|m0 ms].
  - split; [done|]. intros (m & Hm). apply Hsel in Hm.
    by apply elem_of_nil in Hm.
  - split.
    + intros Hno. exfalso. apply Hno. exists m0. apply Hsel. by left.
    + intros _.
      cbn [Insights.total_sessions Insights.recommendations Insights.user_id].
      rewrite analyse_fold_user_id.
      match goal with
      | |- context [fold_left analyse_category ?cp ?i] =>
          destruct (analyse_fold cp i) as (_ & _ & _ & Hn)
      end.
      rewrite Hn. split; [done|].
      split; [apply recommendations_nonempty | done].
Qed.


Lemma string_leb_refl (a : string) : String.leb a a = true.
Proof. by destruct (String.leb_total a a). Qed.

Lemma insert_by_time_sorted (m : MetricRow.t) (l : list MetricRow.t) :
  Sorted not_after l -> Sorted not_after (insert_by_time m l).
Proof.
  induction 1 as [|x l Hl IH Hhd]; cbn; [by repeat constructor|].
  destruct (String.leb (MetricRow.recorded_at m) (MetricRow.recorded_at x))
    eqn:Hmx.
  - constructor; [by constructor | by constructor].
  - constructor; [done|].
    assert (Hxm : not_after x m).
    { destruct (String.leb_total (MetricRow.recorded_at m)
                  (MetricRow.recorded_at x)); [congruence | done]. }
    destruct Hhd as [|y l' Hxy]; cbn; [by constructor|].
    destruct (String.leb (MetricRow.recorded_at m) (MetricRow.recorded_at y));
      by constructor.
Qed.

Lemma order_by_recorded_at_sorted (l : list MetricRow.t) :
  StronglySorted not_after (order_by_recorded_at l).
Proof.
  apply Sorted_StronglySorted.
  - intros a b c. apply StoreExtras.leb_trans.
  - induction l as [|m l IH]; cbn; [constructor|].
    by apply insert_by_time_sorted.
Qed.

Lemma strongly_sorted_filter {A} (R : A -> A -> Prop) (p : A -> bool)
    (l : list A) :
  StronglySorted R l -> StronglySorted R (List.filter p l).
Proof.
  induction 1 as [|x l Hl IH Hx]; cbn; [constructor|].
  destruct (p x); [|done]. constructor; [done|].
  rewrite List.Forall_forall in Hx |- *.
  intros y Hy. apply filter_In in Hy as [Hy _]. by apply Hx.
Qed.

Lemma last_in {A} (l : list A) (x d : A) : List.last (x :: l) d ∈ x :: l.
Proof.
  revert x. induction l as [|y l IH]; intros x.
  - cbn. by left.
  - change (List.last (x :: y :: l) d) with (List.last (y :: l) d).
    right. apply IH.
Qed.

Lemma strongly_sorted_last {A} (R : A -> A -> Prop) (l : list A) (d x : A) :
  (forall a, R a a) -> StronglySorted R l -> x ∈ l -> R x (List.last l d).
Proof.
  intros Hrefl Hs. revert x d. induction Hs as [|y l Hl IH Hy]; intros x d Hx.
  - by apply elem_of_nil in Hx.
  - destruct l as [|z l]; cbn [List.last].
    + apply list_elem_of_singleton in Hx as ->. apply Hrefl.
    + apply elem_of_cons in Hx as [->|Hx]; [|by apply IH].
      rewrite List.Forall_forall in Hy. apply Hy.
      apply list_elem_of_In, last_in.
Qed.

Lemma last_map {A B} (f : A -> B) (l : list A) (x : A) (d : B) (d' : A) :
  List.last (List.map f (x :: l)) d = f (List.last (x :: l) d').
Proof.
  revert x. induction l as [|y l IH]; intros x; [done|].
  change (List.last (List.map f (x :: y :: l)) d)
    with (List.last (List.map f (y :: l)) d).
  change (List.last (x :: y :: l) d') with (List.last (y :: l) d').
  apply IH.
Qed.

(** X20. The trend of a category spans the user's scores from the
    oldest to the latest: a trend entry shows as [current_score] the
    score of a row recorded latest, and its label compares that score
    with the score of a row recorded first (rows are compared by their
    [recorded_at] text; rows with equal texts tie). *)
Theorem trend_spans_oldest_to_latest (uid cat : string) (db : Store)
    (e : TrendEntry.t) :
  (cat, e) ∈ Insights.performance_trends (get_learning_insights uid db) ->
  exists oldest latest,
    scored_in uid cat db oldest /\ scored_in uid cat db latest
    /\ (forall m, scored_in uid cat db m ->
          not_after oldest m /\ not_after m latest)
    /\ TrendEntry.current_score e = MetricRow.metric_value latest
    /\ TrendEntry.trend e
       = trend_label (PrimFloat.sub (MetricRow.metric_value latest)
                        (MetricRow.metric_value oldest)).
Proof.
  intros He. apply trends_spec in He as [Hlen ->].
  unfold recorded_scores, scores_of in *.
  set (rows := List.filter (fun m => String.eqb (MetricRow.category m) cat)
                 (select_category_scores uid db)) in *.
  assert (Hrows : forall m, m ∈ rows <-> scored_in uid cat db m).
  { intros m. unfold rows, scored_in.
    rewrite list_elem_of_In, filter_In, <- list_elem_of_In.
    rewrite select_category_scores_spec, String.eqb_eq. tauto. }
  assert (Hsorted : StronglySorted not_after rows).
  { apply strongly_sorted_filter. apply order_by_recorded_at_sorted. }
  destruct rows as [|first rest] eqn:Hr; [cbn in Hlen; lia|].
  exists first, (List.last (first :: rest) first).
  split; [apply Hrows; by left|].
  split; [apply Hrows, last_in|].
  split.
  - intros m Hm. apply Hrows in Hm. split.
    + apply elem_of_cons in Hm as [->|Hm]; [apply string_leb_refl|].
      apply StronglySorted_inv in Hsorted as [_ Hfirst].
      rewrite List.Forall_forall in Hfirst. apply Hfirst.
      by apply list_elem_of_In.
    + apply strongly_sorted_last; [|done|done].
      intros a. apply string_leb_refl.
  - cbn [trend_entry TrendEntry.current_score TrendEntry.trend].
    unfold trend_of.
    rewrite (last_map MetricRow.metric_value rest first 0%float first).
    done.
Qed.

End Interpreted.

Lemma trend_spans_oldest_to_latest_witness :
  exists oldest latest,
    scored_in "user_1" "communication" store_improving oldest
    /\ scored_in "user_1" "communication" store_improving latest
    /\ (forall m, scored_in "user_1" "communication" store_improving m ->
          not_after oldest m /\ not_after m latest)
    /\ TrendEntry.current_score
         (trend_entry (py := CPython311)
            (recorded_scores "user_1" "communication" store_improving))
       = MetricRow.metric_value latest
    /\ TrendEntry.trend
         (trend_entry (py := CPython311)
            (recorded_scores "user_1" "communication" store_improving))
       = trend_label (PrimFloat.sub (MetricRow.metric_value latest)
                        (MetricRow.metric_value oldest)).
Proof.
  apply (trend_spans_oldest_to_latest (py := CPython311)
           "user_1" "communication" store_improving).
  apply trends_spec. split; [vm_compute; lia | reflexivity].
Defined.

End InsightExtras.

(** ** Session lifecycle, continued *)

Module ManagerExtras.
Import PyStr Extractor Planner SessionData MemoryBank SessionManager
  ManagerSpec ManagerProps StoreQueries StoreSpec.

(** *** A successful initialization *)

Lemma steps_succeed (x : Experience) (j : Job) (s : Session) :
  initialization_steps (Returned x) (Returned j)
    (fun jd => Returned (_perform_context_engineering jd))
    (fun e j x => Returned (_create_adaptive_interview_plan e j x)) s
  = (Returned tt,
     set_difficulty_level
       (_calculate_initial_difficulty x
          (_perform_context_engineering (description j)))
       (set_status "initialized"
          (set_interview_plan
             (Some (_create_adaptive_interview_plan x j
                      (_perform_context_engineering (description j))))
             (set_context_data
                (Some (_perform_context_engineering (description j)))
                (set_target_job j (set_experience x s)))))).
Proof. reflexivity. Qed.

Lemma initialization_store_profile (now : Clock) (s : Session) (db : Store) :
  profile_nonempty (user_profile s) = true ->
  let r := store_session_initialization now s db in
  snd (fst r)
  = set_user_profile (snd (fst (store_user_profile now (user_profile s) db))) s
  /\ user_profiles (snd r)
     = user_profiles (snd (store_user_profile now (user_profile s) db)).
Proof.
  intros Hne. cbn zeta. unfold store_session_initialization. rewrite Hne.
  destruct (store_user_profile now (user_profile s) db) as [[ok p] d].
  cbn [fst snd]. by destruct (existsb _ _).
Qed.

(** X21. When both dialogues return, [initialize_session] registers
    under the returned id a session with status 'initialized' and no
    error, whose profile holds the gathered experience and job, whose
    context is the extraction of a description that is never blank,
    and whose difficulty level is the initial difficulty of its plan.
    The profile gets the generated id [user_<field>_<time>]. When the
    years of experience fit SQLite's INTEGER, the store returns under
    that id the profile of the session; when they do not (a number of
    twenty digits typed at the prompt), the profile write fails and
    the profile table is left as it was. *)
Theorem successful_initialization (sid : string) (now : Clock)
    (d1 : ExperienceDialogue) (d2 : JobDialogue) (m : Manager) :
  let result := initialize_session sid now (Returned d1) (Returned d2) m in
  exists s x j plan uid,
    _gather_experience_assessment (Returned d1) = Returned x
    /\ _gather_job_description_analysis now (Returned d2) = Returned j
    /\ fst result = sid
    /\ active_sessions (snd result) !! sid = Some s
    /\ session_history (snd result) = session_history m
    /\ status s = "initialized" /\ error s = None
    /\ experience (user_profile s) = Some x
    /\ target_job (user_profile s) = Some j
    /\ blank (description j) = false
    /\ context_data s = Some (_perform_context_engineering (description j))
    /\ interview_plan s = Some plan
    /\ difficulty_level (user_profile s)
       = Some (initial_difficulty (adaptive_parameters plan))
    /\ uid = "user_" +:+ lower (strip (technical_field_input d1)) +:+ "_"
             +:+ compact now
    /\ user_id (user_profile s) = Some uid
    /\ (sqlite_integer (years_experience d1) = true ->
          fst <$> get_user_profile uid (memory_bank (snd result))
          = Some (user_profile s))
    /\ (sqlite_integer (years_experience d1) = false ->
          user_profiles (memory_bank (snd result))
          = user_profiles (memory_bank m)).
Proof.
  cbn zeta. unfold initialize_session, initialize_session_with.
  destruct (_gather_experience_assessment (Returned d1)) as [x|] eqn:Hx;
    [|discriminate].
  destruct (_gather_job_description_analysis now (Returned d2)) as [j|] eqn:Hj;
    [|discriminate].
  pose proof (gathered_description_not_blank now d2 j Hj) as Hblank.
  assert (Hfield : field x = lower (strip (technical_field_input d1))).
  { cbn in Hx. by injection Hx as <-. }
  rewrite steps_succeed.
  set (body := set_difficulty_level _ _).
  assert (Hne : profile_nonempty (user_profile body) = true) by done.
  destruct (initialization_store_profile now body (memory_bank m) Hne)
    as [Hstored Hprofiles].
  pose proof (StoreExtras.get_after_store now (user_profile body) (memory_bank m))
    as Hget.
  assert (Hfiled : filed_under now (user_profile body)
                   = "user_" +:+ field x +:+ "_" +:+ compact now) by done.
  rewrite Hfiled in Hget.
  assert (Hyears : profile_years (user_profile body) = years_experience d1).
  { cbn in Hx. by injection Hx as <-. }
  rewrite Hyears in Hget.
  assert (Hfail : sqlite_integer (years_experience d1) = false ->
            snd (store_user_profile now (user_profile body) (memory_bank m))
            = memory_bank m).
  { intros Hno. unfold store_user_profile.
    by rewrite StoreExtras.stored_years, Hyears, Hno. }
  destruct (store_session_initialization now body (memory_bank m))
    as [[ok stored] db].
  cbn [fst snd active_sessions session_history memory_bank] in *.
  exists stored, x, j,
    (_create_adaptive_interview_plan x j
       (_perform_context_engineering (description j))),
    ("user_" +:+ field x +:+ "_" +:+ compact now).
  split; [done|]. split; [done|]. split; [done|].
  split; [apply lookup_insert_eq|]. split; [done|].
  rewrite Hstored, StoreExtras.stored_profile in *.
  cbn -[_perform_context_engineering
    _create_adaptive_interview_plan store_user_profile String.append].
  split; [done|]. split; [done|].
  split; [done|]. split; [done|]. split; [done|]. split; [done|].
  split; [done|]. split; [done|]. split; [by rewrite Hfield|].
  split; [done|]. split.
  - intros Hfits. unfold get_user_profile in *. rewrite Hprofiles.
    exact (Hget Hfits).
  - intros Hno. by rewrite Hprofiles, (Hfail Hno).
Qed.

(** *** Finalizing what was never scored *)

Section StepsFrame.

Variable step1 : outcome Experience.
Variable step2 : outcome Job.
Variable step3 : string -> outcome Extraction.
Variable step4 : Experience -> Job -> Extraction -> outcome InterviewPlan.

Lemma steps_keep_scores (s : Session) :
  let s' := snd (initialization_steps step1 step2 step3 step4 s) in
  timestamp s' = timestamp s
  /\ performance_analysis s' = performance_analysis s
  /\ user_id (user_profile s') = user_id (user_profile s).
Proof.
  unfold initialization_steps, mbind, body_bind, call, modify.
  destruct step1 as [x|e]; [|done]. cbn.
  destruct step2 as [j|e]; [|done]. cbn.
  destruct (step3 (description j)) as [ext|e]; [|done]. cbn.
  destruct (step4 x j ext) as [p|e]; done.
Qed.

End StepsFrame.

Lemma initialization_row (now : Clock) (s : Session) (db : Store) :
  SessionData.session_id s ∉ session_ids db ->
  let r := store_session_initialization now s db in
  exists row,
    sessions (snd r) = sessions db ++ [row]
    /\ SessionRow.session_id row = SessionData.session_id s
    /\ SessionRow.status row = SessionData.status s
    /\ SessionRow.completed_at row = None
    /\ SessionData.timestamp (snd (fst r)) = SessionData.timestamp s
    /\ SessionData.session_id (snd (fst r)) = SessionData.session_id s.
Proof.
  intros Hfresh. cbn zeta. unfold store_session_initialization.
  assert (Hnew : forall db1, sessions db1 = sessions db ->
            existsb (fun r => String.eqb (SessionRow.session_id r)
                                (SessionData.session_id s)) (sessions db1)
            = false).
  { intros db1 ->. apply Bool.not_true_iff_false. intros Hex.
    apply existsb_exists in Hex as (r & Hr & Hid). apply String.eqb_eq in Hid.
    apply Hfresh. unfold session_ids. rewrite <- Hid.
    by apply list_elem_of_In, in_map. }
  destruct (profile_nonempty (user_profile s)).
  - pose proof (StoreExtras.user_ids_after_store now (user_profile s) db)
      as (_ & Hsessions & _).
    cbn zeta in Hsessions.
    destruct (store_user_profile now (user_profile s) db) as [[ok p] d].
    cbn [snd] in Hsessions. rewrite (Hnew d Hsessions).
    eexists. cbn [fst snd sessions with_sessions]. rewrite Hsessions.
    split; [reflexivity|]. done.
  - rewrite (Hnew db eq_refl).
    eexists. cbn [fst snd sessions with_sessions].
    split; [reflexivity|]. done.
Qed.

(** X22. A session that is finalized right after its initialization
    is never marked completed in the store: the final record has no
    'timestamp', so the write fails and is dropped. The session goes to
    the history with status 'completed', while its row in the store
    keeps the status 'initialized' and no completion time. *)
Theorem finalize_right_after_initialize
    (step1 : outcome Experience) (step2 : outcome Job)
    (step3 : string -> outcome Extraction)
    (step4 : Experience -> Job -> Extraction -> outcome InterviewPlan)
    (sid : string) (now now' : Clock) (m : Manager) :
  raised_by_steps step1 step2 step3 step4 = None ->
  sid ∉ session_ids (memory_bank m) ->
  let m1 := snd (initialize_session_with step1 step2 step3 step4 sid now m) in
  let m2 := snd (finalize_session now' sid m1) in
  memory_bank m2 = memory_bank m1
  /\ (exists s, session_history m2 = session_history m ++ [s]
                /\ SessionData.session_id s = sid
                /\ SessionData.status s = "completed"
                /\ SessionData.completed_at s = Some (isoformat now'))
  /\ (exists row, row ∈ sessions (memory_bank m2)
                  /\ SessionRow.session_id row = sid)
  /\ (forall row, row ∈ sessions (memory_bank m2) ->
        SessionRow.session_id row = sid ->
        SessionRow.status row = "initialized"
        /\ SessionRow.completed_at row = None).
Proof.
  intros Hok Hfresh. cbn zeta. unfold initialize_session_with.
  pose proof (steps_raise step1 step2 step3 step4 (fresh_session sid now))
    as Hsteps.
  pose proof (steps_keep_identity step1 step2 step3 step4 (fresh_session sid now))
    as (Hid & _).
  pose proof (steps_keep_scores step1 step2 step3 step4 (fresh_session sid now))
    as (Hts & _).
  destruct (initialization_steps step1 step2 step3 step4 (fresh_session sid now))
    as [[u|e] body]; [|destruct Hsteps as [Hsome _]; congruence].
  destruct Hsteps as [_ Hstatus]. cbn [snd] in Hid, Hts.
  change (SessionData.session_id (fresh_session sid now)) with sid in Hid.
  change (SessionData.timestamp (fresh_session sid now)) with (@None string)
    in Hts.
  destruct (initialization_row now body (memory_bank m))
    as (row & Hrows & Hrid & Hrstatus & Hrdone & Hsts & Hsid);
    [by rewrite Hid|].
  destruct (store_session_initialization now body (memory_bank m))
    as [[ok stored] db].
  cbn [fst snd] in *.
  rewrite (finalize_active now' sid _ stored); [|apply lookup_insert_eq].
  cbn [snd memory_bank session_history].
  assert (Hskip : snd (store_completed_session (completed now' stored) db) = db).
  { unfold store_completed_session, store_session_record.
    change (SessionData.timestamp (completed now' stored))
      with (SessionData.timestamp stored).
    by rewrite Hsts, Hts. }
  rewrite Hskip. split; [done|]. split.
  { eexists. split; [done|]. cbn. split; [congruence | done]. }
  rewrite Hrows. split.
  - exists row. split; [|congruence].
    apply elem_of_app. right. by apply list_elem_of_singleton.
  - intros r Hr Hrsid. apply elem_of_app in Hr as [Hr|Hr].
    + exfalso. apply Hfresh. unfold session_ids. rewrite <- Hrsid.
      by apply list_elem_of_In, in_map, list_elem_of_In.
    + apply list_elem_of_singleton in Hr as ->. split; [congruence | done].
Qed.

Lemma finalize_right_after_initialize_witness :
  let m1 := manager_1 in
  let m2 := snd (finalize_session clock_2 "atic_1" m1) in
  memory_bank m2 = memory_bank m1
  /\ (exists s, session_history m2 = session_history (new_manager empty_store) ++ [s]
                /\ SessionData.session_id s = "atic_1"
                /\ SessionData.status s = "completed"
                /\ SessionData.completed_at s = Some (isoformat clock_2))
  /\ (exists row, row ∈ sessions (memory_bank m2)
                  /\ SessionRow.session_id row = "atic_1")
  /\ (forall row, row ∈ sessions (memory_bank m2) ->
        SessionRow.session_id row = "atic_1" ->
        SessionRow.status row = "initialized"
        /\ SessionRow.completed_at row = None).
Proof.
  apply (finalize_right_after_initialize
           (_gather_experience_assessment (Returned experience_answers))
           (_gather_job_description_analysis clock_1 (Returned job_answers))
           (fun jd => Returned (_perform_context_engineering jd))
           (fun e j x => Returned (_create_adaptive_interview_plan e j x))
           "atic_1" clock_1 clock_2 (new_manager empty_store)).
  - reflexivity.
  - cbn. apply not_elem_of_nil.
Defined.


(** *** Bookkeeping calls *)


(** *** The history *)





End ManagerExtras.

(** ** Console dialogues *)

Module ConsoleExtras.
Import PyStr PyText Extractor Planner SessionData MemoryBank SessionManager
  Console ManagerSpec ManagerProps InsightSpec ConsoleSpec.

Lemma bind_returned {A B} (m : Console A) (k : A -> Console B)
    (stdin rest : list string) (b : B) :
  (m ≫= k) stdin = (Returned b, rest) ->
  exists a mid, m stdin = (Returned a, mid) /\ k a mid = (Returned b, rest).
Proof.
  unfold mbind, console_bind.
  destruct (m stdin) as [[a|e] mid]; [by exists a, mid | discriminate].
Qed.

(** *** The years of experience *)

Lemma int_digits_nonneg (s : string) :
  (forall acc n, 0 <= acc -> int_digits s acc = Some n -> 0 <= n)
  /\ (forall c acc n, 0 <= acc -> int_digits (String c s) acc = Some n -> 0 <= n).
Proof.
  assert (Hdigit : forall c, is_decimal c = true -> 0 <= digit_value c).
  { intros c Hc. unfold is_decimal, digit_value in *.
    apply andb_true_iff in Hc as [Hc _]. apply N.leb_le in Hc. lia. }
  induction s as [|d s [IH1 IH2]].
  - split; [intros acc n Hacc [= <-]; lia|].
    intros c acc n Hacc. cbn.
    destruct (is_decimal c) eqn:Hc; [intros [= <-]; apply Hdigit in Hc; lia|].
    by destruct (Ascii.eqb c "_").
  - split; [apply IH2|].
    intros c acc n Hacc. cbn [int_digits].
    destruct (is_decimal c) eqn:Hc.
    + apply IH2. apply Hdigit in Hc. lia.
    + destruct (Ascii.eqb c "_"); [|done].
      destruct (is_decimal d) eqn:Hd; [|done].
      apply IH1. apply Hdigit in Hd. lia.
Qed.

Lemma int_unsigned_nonneg (s : string) (n : Z) :
  int_unsigned s = Some n -> 0 <= n.
Proof.
  destruct s as [|c t]; [done|]. cbn.
  destruct (is_decimal c) eqn:Hc; [|done].
  apply (proj1 (int_digits_nonneg t)).
  unfold is_decimal, digit_value in *.
  apply andb_true_iff in Hc as [Hc _]. apply N.leb_le in Hc. lia.
Qed.

Lemma all_chars_lstrip (p q : ascii -> bool) (s : string) :
  all_chars p s = true -> all_chars p (lstrip_with q s) = true.
Proof.
  induction s as [|c s IH]; [done|]. cbn. intros Hs.
  destruct (q c); [|done]. apply IH. by apply andb_true_iff in Hs as [_ ?].
Qed.

Lemma all_chars_rstrip (p q : ascii -> bool) (s : string) :
  all_chars p s = true -> all_chars p (rstrip_with q s) = true.
Proof.
  induction s as [|c s IH]; [done|]. cbn. intros Hs.
  apply andb_true_iff in Hs as [Hc Hs]. specialize (IH Hs).
  destruct (rstrip_with q s); [|cbn in *; by rewrite Hc].
  destruct (q c); [done|]. cbn. by rewrite Hc.
Qed.

Lemma digits_parse_nonneg (s : string) (n : Z) :
  isdigit s = true -> py_int s = Some n -> 0 <= n.
Proof.
  intros Hd. assert (Hall : all_chars isdigit_char s = true) by by destruct s.
  unfold py_int.
  pose proof (all_chars_rstrip isdigit_char int_space _
                (all_chars_lstrip isdigit_char int_space _ Hall)) as Hbody.
  destruct (rstrip_with int_space (lstrip_with int_space s)) as [|c t] eqn:Hb;
    [done|].
  cbn in Hbody. apply andb_true_iff in Hbody as [Hc _].
  destruct (Ascii.eqb_spec c "+") as [->|Hplus]; [done|].
  destruct (Ascii.eqb_spec c "-") as [->|Hminus]; [done|].
  assert (Hcase : forall r : option Z,
            match c with
            | "+"%char => int_unsigned t
            | "-"%char => Z.opp <$> int_unsigned t
            | _ => r
            end = r).
  { intros r. destruct c as [[] [] [] [] [] [] [] []]; try reflexivity;
      congruence. }
  intros Hn. apply (int_unsigned_nonneg (String c t)).
  rewrite <- Hn. symmetry. change (int_unsigned (String c t)) with
    ((fun r => r) (int_unsigned (String c t))).
  rewrite <- (Hcase (int_unsigned (String c t))).
  by destruct c as [[] [] [] [] [] [] [] []].
Qed.

Lemma read_years_nonneg (stdin rest : list string) (n : Z) :
  read_years stdin = (Returned n, rest) -> 0 <= n.
Proof.
  induction stdin as [|line stdin IH]; [done|]. cbn.
  destruct (isdigit line) eqn:Hd; [|intros [= <- _]; lia].
  destruct (py_int line) as [k|] eqn:Hk; [|done].
  intros [= <- _]. by apply (digits_parse_nonneg line).
Qed.

(** *** The self-assessment *)

Lemma read_score_default (stdin rest : list string) (v : Z) :
  read_score stdin = (Returned (Some v), rest) -> v = 3.
Proof.
  induction stdin as [|line stdin IH]; [done|]. cbn.
  destruct (String.eqb (strip line) ""); [by intros [= <- _]|].
  destruct (py_int line) as [score|]; [|done].
  by destruct ((1 <=? score) && (score <=? 5)).
Qed.

Lemma assign_keys (k : string) (v : Z) (d : list (string * Z)) :
  List.map fst (assign k v d)
  = if mem k (List.map fst d) then List.map fst d else List.map fst d ++ [k].
Proof.
  unfold mem. induction d as [|[k' v'] d IH]; cbn; [done|].
  destruct (String.eqb k k'); cbn; [done|].
  rewrite IH. by destruct (existsb _ _).
Qed.

Lemma assign_values (P : Z -> Prop) (k : string) (v : Z) (d : list (string * Z)) :
  P v -> Forall (fun kv => P (snd kv)) d ->
  Forall (fun kv => P (snd kv)) (assign k v d).
Proof.
  intros Hv. induction 1 as [|[k' v'] d Hkv Hd IH]; cbn.
  - by apply List.Forall_cons.
  - destruct (String.eqb k k'); apply List.Forall_cons; done.
Qed.

Lemma read_scores_spec (skills : list string) (acc res : list (string * Z))
    (stdin rest : list string) :
  read_scores skills acc stdin = (Returned res, rest) ->
  Forall (fun kv => snd kv = 3) acc ->
  NoDup (List.map fst acc) ->
  Forall (fun kv => snd kv = 3) res
  /\ NoDup (List.map fst res)
  /\ (length res <= length acc + length skills)%nat
  /\ (forall k, k ∈ List.map fst res -> k ∈ List.map fst acc \/ k ∈ skills).
Proof.
  revert acc stdin. induction skills as [|skill more IH]; intros acc stdin.
  - cbn. intros [= <- _] Hacc Hnd. repeat split; [done..|lia|by left].
  - cbn [read_scores]. intros Hrun Hacc Hnd.
    apply bind_returned in Hrun as (score & mid & Hscore & Hrun).
    destruct score as [v|].
    + apply read_score_default in Hscore as ->.
      apply IH in Hrun as (Hres & Hnd' & Hlen & Hkeys).
      * split; [done|]. split; [done|]. split.
        -- assert (length (assign skill 3 acc) <= S (length acc))%nat.
           { rewrite <- (length_map fst (assign skill 3 acc)), assign_keys.
             destruct (mem skill _); rewrite ?length_app, length_map; cbn; lia. }
           cbn. lia.
        -- intros k Hk. apply Hkeys in Hk as [Hk|Hk]; [|right; by right].
           rewrite assign_keys in Hk. destruct (mem skill _); [by left|].
           apply elem_of_app in Hk as [Hk|Hk]; [by left|].
           apply list_elem_of_singleton in Hk as ->. right. by left.
      * by apply (assign_values (fun v => v = 3)).
      * rewrite assign_keys.
        destruct (mem skill (List.map fst acc)) eqn:Hmem; [done|].
        apply PyStrProps.mem_false_iff in Hmem.
        by apply StoreExtras.NoDup_snoc_fresh.
    + apply IH in Hrun as (Hres & Hnd' & Hlen & Hkeys); [|done..].
      split; [done|]. split; [done|]. split; [cbn; lia|].
      intros k Hk. apply Hkeys in Hk as [Hk|Hk]; [by left | right; by right].
Qed.

Lemma confidence_of_defaults (x : Experience) :
  Forall (fun kv => snd kv = 3) (self_assessment x) ->
  (length (self_assessment x) <= 5)%nat ->
  _calculate_confidence_score x
  = if decide (self_assessment x = []) then f0_5 else f0_6.
Proof.
  unfold _calculate_confidence_score.
  destruct (self_assessment x) as [|[k1 v1] l1]; [done|].
  intros Hall Hlen. rewrite decide_False; [|done].
  assert (Hvalues : exists n : nat,
            (1 <= n <= 5)%nat
            /\ List.map snd ((k1, v1) :: l1) = List.repeat 3 n
            /\ length ((k1, v1) :: l1) = n).
  { exists (length ((k1, v1) :: l1)). split; [cbn in *; lia|].
    split; [|done]. generalize dependent ((k1, v1) :: l1).
    intros l Hl _. induction Hl as [|[k v] l Hkv Hl IH]; [done|].
    cbn in *. by rewrite Hkv, IH. }
  destruct Hvalues as (n & Hn & -> & ->).
  assert (n = 1 \/ n = 2 \/ n = 3 \/ n = 4 \/ n = 5)%nat
    as [->|[->|[->|[->| ->]]]] by lia; by vm_compute.
Qed.

(** X25. Whatever is typed, the experience dialogue records no score
    but the default: a number from 1 to 5 leaves the loop before the
    assignment, so every value of [self_assessment] is 3 (one entry per
    skill that was answered with a blank line, at most five). The
    confidence of the plan is therefore 0.5 (nothing recorded) or 0.6,
    never the user's own estimate. The years of experience are never
    negative. *)
Theorem console_records_only_default_scores (stdin rest : list string)
    (d : ExperienceDialogue) :
  experience_dialogue stdin = (Returned d, rest) ->
  0 <= years_experience d
  /\ Forall (fun kv => snd kv = 3) (self_assessment_answers d)
  /\ NoDup (List.map fst (self_assessment_answers d))
  /\ (forall k, k ∈ List.map fst (self_assessment_answers d) ->
        k ∈ slice_to 5
              (_get_skill_areas_for_field
                 (lower (strip (technical_field_input d)))))
  /\ (length (self_assessment_answers d) <= 5)%nat
  /\ (forall x, _gather_experience_assessment (Returned d) = Returned x ->
        _calculate_confidence_score x
        = if decide (self_assessment x = []) then f0_5 else f0_6).
Proof.
  unfold experience_dialogue. intros Hrun.
  apply bind_returned in Hrun as (years & r1 & Hyears & Hrun).
  apply bind_returned in Hrun as (field_line & r2 & _ & Hrun).
  apply bind_returned in Hrun as (role_line & r3 & _ & Hrun).
  apply bind_returned in Hrun as (size_line & r4 & _ & Hrun).
  apply bind_returned in Hrun as (previous_line & r5 & _ & Hrun).
  apply bind_returned in Hrun as (answers & r6 & Hanswers & Hrun).
  injection Hrun as <- _.
  cbn [years_experience self_assessment_answers technical_field_input].
  apply read_years_nonneg in Hyears.
  apply read_scores_spec in Hanswers as (Hall & Hnd & Hlen & Hkeys);
    [|apply List.Forall_nil | apply NoDup_nil_2].
  assert (Hfive : (length answers <= 5)%nat).
  { cbn [length] in Hlen. unfold slice_to in Hlen.
    rewrite length_firstn in Hlen. lia. }
  split; [done|]. split; [done|]. split; [done|]. split.
  { intros k Hk. apply Hkeys in Hk as [Hk|Hk]; [|done].
    by apply elem_of_nil in Hk. }
  split; [done|].
  intros x [= <-]. by apply confidence_of_defaults.
Qed.

Lemma console_records_only_default_scores_witness :
  let stdin := ["3"; "qa"; "Tester"; ""; ""; "5"; ""; "4"; "7"; "1"; ""] in
  let d := {| years_experience := 3; technical_field_input := "qa";
              current_role_input := "Tester"; company_size_input := "";
              previous_interviews_input := "";
              self_assessment_answers :=
                [("Manual Testing", 3); ("Tools", 3)] |} in
  0 <= years_experience d
  /\ Forall (fun kv => snd kv = 3) (self_assessment_answers d)
  /\ NoDup (List.map fst (self_assessment_answers d))
  /\ (forall k, k ∈ List.map fst (self_assessment_answers d) ->
        k ∈ slice_to 5
              (_get_skill_areas_for_field
                 (lower (strip (technical_field_input d)))))
  /\ (length (self_assessment_answers d) <= 5)%nat
  /\ (forall x, _gather_experience_assessment (Returned d) = Returned x ->
        _calculate_confidence_score x
        = if decide (self_assessment x = []) then f0_5 else f0_6).
Proof.
  cbn zeta.
  apply (console_records_only_default_scores
           ["3"; "qa"; "Tester"; ""; ""; "5"; ""; "4"; "7"; "1"; ""] []).
  vm_compute. reflexivity.
Defined.


(** *** Running out of input *)

Lemma eof_only_ret {A} (a : A) : eof_only (mret a).
Proof. intros stdin e rest. by cbv. Qed.

Lemma eof_only_bind {A B} (m : Console A) (k : A -> Console B) :
  eof_only m -> (forall a, eof_only (k a)) -> eof_only (m ≫= k).
Proof.
  intros Hm Hk stdin e rest. unfold mbind, console_bind.
  destruct (m stdin) as [[a|e'] mid] eqn:Hrun.
  - apply Hk.
  - intros [= <- <-]. by apply (Hm stdin).
Qed.

Lemma eof_only_input : eof_only input.
Proof. intros [|line stdin] e rest; cbn; [by intros [= <- <-] | done]. Qed.

Lemma eof_only_read_years : eof_only read_years.
Proof.
  intros stdin e rest. induction stdin as [|line stdin IH]; cbn.
  - by intros [= <- <-].
  - destruct (isdigit line); [|done]. by destruct (py_int line).
Qed.

Lemma eof_only_read_score : eof_only read_score.
Proof.
  intros stdin e rest. induction stdin as [|line stdin IH]; cbn.
  - by intros [= <- <-].
  - destruct (String.eqb (strip line) ""); [done|].
    destruct (py_int line) as [score|]; [|done].
    by destruct ((1 <=? score) && (score <=? 5)).
Qed.

Lemma eof_only_read_scores (skills : list string) (acc : list (string * Z)) :
  eof_only (read_scores skills acc).
Proof.
  revert acc. induction skills as [|skill more IH]; intros acc; cbn.
  - apply eof_only_ret.
  - apply eof_only_bind; [apply eof_only_read_score|]. intros score. apply IH.
Qed.

Lemma eof_only_read_description (n : Z) (acc : list string) :
  eof_only (read_description n acc).
Proof.
  intros stdin e rest. revert n acc.
  induction stdin as [|line stdin IH]; intros n acc; cbn.
  - by intros [= <- <-].
  - destruct (is_done line); [done|].
    destruct (String.eqb line ""); [|apply IH].
    destruct (2 <=? n + 1); [done | apply IH].
Qed.

Lemma eof_only_experience_dialogue : eof_only experience_dialogue.
Proof.
  unfold experience_dialogue.
  repeat first
    [ apply eof_only_bind; [|intros ?]
    | apply eof_only_read_years | apply eof_only_input
    | apply eof_only_read_scores | apply eof_only_ret ].
Qed.

Lemma eof_only_job_dialogue : eof_only job_dialogue.
Proof.
  unfold job_dialogue.
  repeat first
    [ apply eof_only_bind; [|intros ?]
    | apply eof_only_input | apply eof_only_read_description
    | apply eof_only_ret ].
Qed.

Lemma initialization_outcome (step1 : outcome Experience) (step2 : outcome Job)
    (step3 : string -> outcome Extraction)
    (step4 : Experience -> Job -> Extraction -> outcome InterviewPlan)
    (sid : string) (now : Clock) (m : Manager) :
  let result := initialize_session_with step1 step2 step3 step4 sid now m in
  fst result = sid
  /\ exists s,
       active_sessions (snd result) !! sid = Some s
       /\ match raised_by_steps step1 step2 step3 step4 with
          | Some e =>
              SessionData.status s = "failed" /\ error s = Some e
              /\ memory_bank (snd result) = memory_bank m
          | None => SessionData.status s = "initialized" /\ error s = None
          end.
Proof.
  cbn zeta. unfold initialize_session_with.
  pose proof (steps_raise step1 step2 step3 step4 (fresh_session sid now))
    as Hsteps.
  pose proof (steps_keep_identity step1 step2 step3 step4 (fresh_session sid now))
    as (_ & _ & _ & Herror & _).
  destruct (initialization_steps step1 step2 step3 step4 (fresh_session sid now))
    as [[u|e] body].
  - destruct Hsteps as [-> Hstatus]. cbn [snd] in Herror.
    unfold store_session_initialization.
    destruct (profile_nonempty (user_profile body)).
    + destruct (store_user_profile now (user_profile body) (memory_bank m))
        as [[ok p] d].
      destruct (existsb _ _); cbn [fst snd active_sessions];
        (split; [done|]); eexists; (split; [apply lookup_insert_eq|]); done.
    + destruct (existsb _ _); cbn [fst snd active_sessions];
        (split; [done|]); eexists; (split; [apply lookup_insert_eq|]); done.
  - destruct Hsteps as (-> & _). cbn [fst snd active_sessions memory_bank].
    split; [done|]. eexists. split; [apply lookup_insert_eq|]. done.
Qed.

(** X26. An initialization from the console has two outcomes. When the
    input holds answers for both dialogues, the session is registered
    as 'initialized' without an error. When the input runs out during
    a dialogue, the session is registered as 'failed' with the message
    of the EOFError and the store is not written. No input makes the
    initialization fail in another way; in particular the empty input
    fails it. *)
Theorem console_initialization_outcomes (sid : string) (now : Clock)
    (stdin : list string) (m : Manager) :
  let result := initialize_session_console sid now stdin m in
  let answered :=
    exists d1 rest d2 rest',
      experience_dialogue stdin = (Returned d1, rest)
      /\ job_dialogue rest = (Returned d2, rest') in
  fst result = sid
  /\ exists s,
       active_sessions (snd result) !! sid = Some s
       /\ ((answered /\ SessionData.status s = "initialized" /\ error s = None)
           \/ (~ answered /\ SessionData.status s = "failed"
               /\ error s = Some EOFError
               /\ memory_bank (snd result) = memory_bank m))
       /\ (stdin = [] -> SessionData.status s = "failed").
Proof.
  cbn zeta. unfold initialize_session_console, initialize_session.
  destruct (experience_dialogue stdin) as [o1 rest] eqn:H1.
  destruct (job_dialogue rest) as [o2 rest'] eqn:H2. cbn [fst].
  match goal with
  | |- context [initialize_session_with ?a ?b ?c ?d sid now m] =>
      destruct (initialization_outcome a b c d sid now m) as (Hid & s & Hs & Hout)
  end.
  cbn zeta in Hid, Hs, Hout.
  split; [done|]. exists s. split; [done|].
  destruct o1 as [d1|e1].
  - destruct o2 as [d2|e2].
    + split.
      * left. split; [by exists d1, rest, d2, rest'|]. exact Hout.
      * intros ->. discriminate.
    + destruct (eof_only_job_dialogue _ _ _ H2) as [-> ->].
      split.
      * right. split; [|exact Hout].
        intros (d1' & r & d2' & r' & Ha & Hb).
        injection Ha as <- <-. congruence.
      * intros _. by destruct Hout.
  - destruct (eof_only_experience_dialogue _ _ _ H1) as [-> ->].
    split.
    + right. split; [|exact Hout].
      intros (d1' & r & d2' & r' & Ha & Hb). discriminate.
    + intros _. by destruct Hout.
Qed.


(** *** The pasted description *)

Lemma read_description_spec (stdin : list string) (n : Z) (acc lines rest : list string) :
  n = 0 \/ n = 1 ->
  read_description n acc stdin = (Returned lines, rest) ->
  exists consumed stop,
    stdin = consumed ++ stop :: rest
    /\ lines = acc ++ kept_lines consumed
    /\ Forall (fun line => is_done line = false) consumed
    /\ (is_done stop = true
        \/ (stop = ""
            /\ ((consumed = [] /\ n = 1)
                \/ exists before, consumed = before ++ [""]))).
Proof.
  revert n acc. induction stdin as [|line stdin IH]; intros n acc Hn; [done|].
  cbn [read_description].
  destruct (is_done line) eqn:Hdone.
  { intros [= <- <-]. exists [], line. cbn. rewrite app_nil_r.
    split; [done|]. split; [done|]. split; [apply List.Forall_nil | by left]. }
  destruct (String.eqb_spec line "") as [->|Hline].
  - destruct (Z.leb_spec 2 (n + 1)) as [Htwo|Hone].
    + intros [= <- <-]. exists [], "". cbn. rewrite app_nil_r.
      split; [done|]. split; [done|]. split; [apply List.Forall_nil|].
      right. split; [done|]. left. split; [done | lia].
    + intros Hrun. apply IH in Hrun as (consumed & stop & -> & -> & Hnot & Hstop);
        [|right; lia].
      exists ("" :: consumed), stop. cbn.
      split; [done|]. split; [done|].
      split; [by apply List.Forall_cons|].
      destruct Hstop as [Hstop|[-> [[-> _]|[before ->]]]]; [by left|..].
      * right. split; [done|]. right. by exists [].
      * right. split; [done|]. right. by exists ("" :: before).
  - intros Hrun. apply IH in Hrun as (consumed & stop & -> & -> & Hnot & Hstop);
      [|by left].
    exists (line :: consumed), stop. unfold kept_lines. cbn.
    apply String.eqb_neq in Hline. rewrite Hline. cbn.
    split; [done|]. split; [by rewrite <- app_assoc|].
    split; [by apply List.Forall_cons|].
    destruct Hstop as [Hstop|[-> [[_ ?]|[before ->]]]]; [by left | lia |].
    right. split; [done|]. right. by exists (line :: before).
Qed.

(** X27. The paste of the job description ends at the first line that
    reads DONE (in any case, with white space around it) or at the
    second empty line in a row; the lines read before it are kept in
    order, without the empty ones. So no kept line is empty or reads
    DONE, and a paste is cut at its first blank paragraph break of two
    lines. *)
Theorem description_paste_ends (stdin rest : list string) (lines : list string) :
  read_description 0 [] stdin = (Returned lines, rest) ->
  exists consumed stop,
    stdin = consumed ++ stop :: rest
    /\ lines = kept_lines consumed
    /\ Forall (fun line => line <> "" /\ is_done line = false) lines
    /\ Forall (fun line => is_done line = false) consumed
    /\ (is_done stop = true
        \/ (stop = "" /\ exists before, consumed = before ++ [""])).
Proof.
  intros Hrun.
  apply read_description_spec in Hrun
    as (consumed & stop & Hin & Hlines & Hnot & Hstop); [|by left].
  exists consumed, stop. cbn [app] in Hlines.
  split; [done|]. split; [done|]. split.
  - rewrite Hlines. unfold kept_lines. apply List.Forall_forall.
    intros line Hline. apply filter_In in Hline as [Hin' Hne].
    rewrite List.Forall_forall in Hnot. split; [|by apply Hnot].
    intros ->. done.
  - split; [done|].
    destruct Hstop as [Hstop|[-> [[_ ?]|Hbefore]]];
      [by left | lia | by right].
Qed.

Lemma description_paste_ends_witness :
  exists consumed stop,
    ["We build"; ""; "web shops"; " done "; "later"]
    = consumed ++ stop :: ["later"]
    /\ ["We build"; "web shops"] = kept_lines consumed
    /\ Forall (fun line => line <> "" /\ is_done line = false)
         ["We build"; "web shops"]
    /\ Forall (fun line => is_done line = false) consumed
    /\ (is_done stop = true
        \/ (stop = "" /\ exists before, consumed = before ++ [""])).
Proof.
  apply (description_paste_ends
           ["We build"; ""; "web shops"; " done "; "later"] ["later"]
           ["We build"; "web shops"]).
  vm_compute. reflexivity.
Defined.


End ConsoleExtras.

(** ** The security check of submitted code: [tools/code_execution.py] *)

Module SecurityExtras.
Import PyStr PyText CodeSecurity PyStrFacts.

Lemma all_chars_append (p : ascii -> bool) (a b : string) :
  all_chars p (a +:+ b) = all_chars p a && all_chars p b.
Proof.
  induction a as [|c a IH]; [done|].
  rewrite append_cons. cbn. by rewrite IH, andb_assoc.
Qed.

Lemma lower_has_no_capital (s : string) :
  all_chars (fun c => negb (isupper c)) (lower s) = true.
Proof.
  induction s as [|c s IH]; [done|]. cbn.
  by rewrite lower_char_not_upper, IH.
Qed.

Lemma capital_never_found (pattern code : string) :
  all_chars (fun c => negb (isupper c)) pattern = false ->
  contains pattern (lower code) = false.
Proof.
  intros Hcap. apply Bool.not_true_iff_false. intros Hin.
  apply contains_iff in Hin as (pre & post & Heq).
  pose proof (lower_has_no_capital code) as Hlow.
  rewrite Heq, !all_chars_append, Hcap in Hlow.
  by rewrite andb_false_r in Hlow.
Qed.

(** X28. The patterns that [_validate_code_security] adds for Java are
    never found: the code is lower-cased before the search and each of
    these patterns has a capital letter. So the check answers for
    'java' what it answers for any other language, and code is
    reported safe exactly when none of the nine general patterns
    occurs in its lower-cased text. *)
Theorem java_patterns_never_match (code language : string) :
  let r := _validate_code_security code language in
  (forall pattern, pattern ∈ java_patterns ->
     contains pattern (lower code) = false
     /\ ("Unsafe operation: " +:+ pattern) ∉ violations r)
  /\ r = _validate_code_security code "python"
  /\ (is_safe r = true
      <-> forall pattern, pattern ∈ dangerous_patterns ->
            contains pattern (lower code) = false)
  /\ (is_safe r = true <-> violations r = []).
Proof.
  cbn zeta.
  assert (Hjava : forall pattern, pattern ∈ java_patterns ->
            contains pattern (lower code) = false).
  { intros pattern Hp. apply capital_never_found.
    unfold java_patterns in Hp.
    repeat (apply elem_of_cons in Hp as [->|Hp]; [by vm_compute|]).
    by apply elem_of_nil in Hp. }
  assert (Hsame : forall lang,
            _validate_code_security code lang
            = _validate_code_security code "python").
  { intros lang. unfold _validate_code_security.
    destruct (String.eqb lang "java"); [|done].
    change (String.eqb "python" "java") with false. cbn match.
    rewrite !List.filter_app.
    replace (List.filter (fun pattern => contains pattern (lower code))
               java_patterns) with (@nil string); [done|].
    symmetry. apply PurgeProps.filter_none.
    intros pattern Hp. apply Hjava. by apply list_elem_of_In. }
  split.
  { intros pattern Hp. split; [by apply Hjava|].
    rewrite Hsame. unfold _validate_code_security.
    change (String.eqb "python" "java") with false.
    cbn [violations]. rewrite app_nil_r. intros Hin.
    apply list_elem_of_In, in_map_iff in Hin as (q & Heq & Hq).
    apply filter_In in Hq as [Hq Hfound].
    assert (q = pattern) as ->.
    { revert Heq. generalize "Unsafe operation: ". intros pre.
      induction pre as [|c pre IH]; [done|].
      rewrite !append_cons. intros [= H]. by apply IH. }
    rewrite (Hjava pattern Hp) in Hfound. done. }
  split; [apply Hsame|].
  rewrite Hsame. unfold _validate_code_security.
  change (String.eqb "python" "java") with false.
  cbn [violations is_safe]. rewrite app_nil_r.
  split.
  - split.
    + intros Hsafe pattern Hp.
      destruct (contains pattern (lower code)) eqn:Hfound; [|done].
      assert (Hin : In pattern
                (List.filter (fun pattern => contains pattern (lower code))
                   dangerous_patterns)).
      { apply filter_In. split; [by apply list_elem_of_In | done]. }
      destruct (List.filter _ dangerous_patterns); [done|]. done.
    + intros Hnone.
      rewrite PurgeProps.filter_none; [done|].
      intros pattern Hp. apply Hnone. by apply list_elem_of_In.
  - by destruct (List.filter _ dangerous_patterns).
Qed.

End SecurityExtras.
